(** * Image colorization service: encoder-decoder network shapes, tensor codec,
    colorizer wrapper, memory optimizer and job endpoints.

    The development follows the layout of the backend:
    - [Torch]            sizes through the torch layers the network uses;
    - [UNetModel]        models/unet_model.py: DoubleConv, Down, Up, OutConv, UNet;
    - [Py], [Os]         Python strings, pathlib, and the file system;
    - [Runtime], [Cv2]   numpy arrays, exceptions, the interpreter state, OpenCV;
    - [Colorizer]        models/unet_model.py: UNetColorizer;
    - [MemoryConfig]     memory_config.py: MemoryOptimizer;
    - [ImageProcessing]  utils/image_processing.py: process_image, save_image;
    - [Main]             main.py: the HTTP handlers and the background task.
    Definitions come first, the properties of the service after them. *)

From Stdlib Require Import ZArith QArith Lia Lqa Ascii String.
From Stdlib.Strings Require Import Byte.
From stdpp Require Import base gmap strings list.

Local Open Scope Z_scope.

(** Floor division by a constant, as Python's [//], is linear arithmetic. *)
Ltac Zify.zify_post_hook ::= Z.to_euclidean_division_equations.

(** ** Outcomes of Python calls: a value or a raised exception. *)

Inductive result (E A : Type) : Type :=
| Ok (a : A)
| Raise (e : E).
Arguments Ok {E A} a.
Arguments Raise {E A} e.

Definition is_ok {E A} (r : result E A) : bool :=
  match r with Ok _ => true | Raise _ => false end.

(** The value a call returned, out of its outcome and final state. *)
Definition fst_ok {E A S} (r : result E A * S) : option A :=
  match fst r with Ok a => Some a | Raise _ => None end.

(** ** torch: tensor sizes and the layers used by the network *)

Module Torch.

(** [x.size()] of a 4-dimensional tensor, [batch, channels, height, width]. *)
Record Size := mkSize { dim0 : Z; dim1 : Z; dim2 : Z; dim3 : Z }.

Inductive Error :=
| ChannelMismatch (expected got : Z)   (* a layer fed the wrong channel count *)
| KernelTooLarge                        (* convolution kernel larger than the padded input *)
| OutputTooSmall                        (* pooling would produce an empty map *)
| NegativePadResult                     (* F.pad cropped more than the tensor has *)
| BadPadArgument                        (* F.pad given a list of the wrong length *)
| CatSizeMismatch (a b : Size)          (* torch.cat operands differ outside dim 1 *)
| Expected4D                            (* BatchNorm2d fed a tensor that is not 4-D *)
| StateDictMismatch                     (* load_state_dict: missing, unexpected or misshapen keys *)
| TooFewValues (s : Size)               (* BatchNorm2d in training mode: one value per channel *)
| InvalidDevice (name : string)         (* torch.device: not a device string *)
| DeviceUnavailable (name : string).    (* Module.to: the device cannot hold the module *)

(** One [torch.cat([x2, x1], dim=1)] call: the two operands as they are
    handed to [cat], and the [F.pad] argument that produced the second. *)
Record CatRecord := mkCat {
  cat_skip : Size;            (* x2 *)
  cat_upsampled : Size;       (* x1 after self.up, before F.pad *)
  cat_pad : list Z;           (* [left; right; top; bottom] *)
  cat_padded : Size           (* x1 after F.pad *)
}.

(** Shape computations either raise or return, and keep the list of the
    concatenations performed so far. *)
Definition M (A : Type) : Type := (list CatRecord * result Error A)%type.

Definition ret {A} (a : A) : M A := ([], Ok a).
Definition raise {A} (e : Error) : M A := ([], Raise e).
Definition bind {A B} (m : M A) (f : A -> M B) : M B :=
  match m with
  | (l, Ok a) => let '(l', r) := f a in (l ++ l', r)
  | (l, Raise e) => (l, Raise e)
  end.
Definition tell (c : CatRecord) : M unit := ([c], Ok tt).

Definition value {A} (m : M A) : result Error A := snd m.
Definition cats {A} (m : M A) : list CatRecord := fst m.

(** nn.Conv2d(in_channels, out_channels, kernel_size, padding), stride 1. *)
Definition Conv2d (in_channels out_channels kernel_size padding : Z) (x : Size) : M Size :=
  if negb (dim1 x =? in_channels) then raise (ChannelMismatch in_channels (dim1 x))
  else if (dim2 x + 2 * padding <? kernel_size) || (dim3 x + 2 * padding <? kernel_size)
       then raise KernelTooLarge
  else ret (mkSize (dim0 x) out_channels
                   (dim2 x + 2 * padding - kernel_size + 1)
                   (dim3 x + 2 * padding - kernel_size + 1)).

(** nn.BatchNorm2d(num_features) in evaluation mode, the mode
    [model.eval()] leaves every layer in. *)
Definition BatchNorm2d (num_features : Z) (x : Size) : M Size :=
  if negb (dim1 x =? num_features) then raise (ChannelMismatch num_features (dim1 x))
  else ret x.

(** nn.BatchNorm2d(num_features) in either mode. A module is in training
    mode as its constructor leaves it; there the batch statistics need more
    than one value per channel, which is checked before anything else
    (ValueError). *)
Definition BatchNorm2d_in (training : bool) (num_features : Z) (x : Size) : M Size :=
  if training && (dim0 x * dim2 x * dim3 x =? 1) then raise (TooFewValues x)
  else BatchNorm2d num_features x.

(** nn.ReLU. *)
Definition ReLU (x : Size) : M Size := ret x.

(** nn.MaxPool2d(kernel_size): stride = kernel_size, no padding, floor mode. *)
Definition MaxPool2d (kernel_size : Z) (x : Size) : M Size :=
  let h := (dim2 x - kernel_size) / kernel_size + 1 in
  let w := (dim3 x - kernel_size) / kernel_size + 1 in
  if (h <=? 0) || (w <=? 0) then raise OutputTooSmall
  else ret (mkSize (dim0 x) (dim1 x) h w).

(** nn.ConvTranspose2d(in_channels, out_channels, kernel_size, stride). *)
Definition ConvTranspose2d (in_channels out_channels kernel_size stride : Z) (x : Size) : M Size :=
  if negb (dim1 x =? in_channels) then raise (ChannelMismatch in_channels (dim1 x))
  else ret (mkSize (dim0 x) out_channels
                   ((dim2 x - 1) * stride + kernel_size)
                   ((dim3 x - 1) * stride + kernel_size)).

(** nn.Upsample(scale_factor). *)
Definition Upsample (scale_factor : Z) (x : Size) : M Size :=
  ret (mkSize (dim0 x) (dim1 x) (dim2 x * scale_factor) (dim3 x * scale_factor)).

(** F.pad(x, [left, right, top, bottom]): the first pair applies to the last
    dimension, the second to the one before; negative amounts crop. *)
Definition pad (x : Size) (p : list Z) : M Size :=
  match p with
  | [p_left; p_right; p_top; p_bottom] =>
      let h := dim2 x + p_top + p_bottom in
      let w := dim3 x + p_left + p_right in
      if (h <? 0) || (w <? 0) then raise NegativePadResult
      else ret (mkSize (dim0 x) (dim1 x) h w)
  | [p_left; p_right] =>
      let w := dim3 x + p_left + p_right in
      if w <? 0 then raise NegativePadResult
      else ret (mkSize (dim0 x) (dim1 x) (dim2 x) w)
  | _ => raise BadPadArgument
  end.

(** What F.pad does to the values along one axis: [before] elements filled
    with [zero] go in front and [after] behind; a negative amount removes
    elements on that side instead. *)
Definition pad_axis {A} (zero : A) (before after : Z) (l : list A) : list A :=
  let front := if before <? 0 then drop (Z.to_nat (- before)) l
               else replicate (Z.to_nat before) zero ++ l in
  if after <? 0 then take (length front - Z.to_nat (- after)) front
  else front ++ replicate (Z.to_nat after) zero.

(** F.pad(x, [left, right, top, bottom]) on one channel plane, given as its
    list of rows: columns first, then rows of zeros. *)
Definition pad_plane {A} (zero : A) (p : list Z) (plane : list (list A)) : list (list A) :=
  match p with
  | [p_left; p_right; p_top; p_bottom] =>
      let rows := map (pad_axis zero p_left p_right) plane in
      let width := match rows with r :: _ => length r | [] => 0%nat end in
      pad_axis (replicate width zero) p_top p_bottom rows
  | _ => plane
  end.

(** torch.cat([a, b], dim=1). *)
Definition cat1 (a b : Size) : M Size :=
  if (dim0 a =? dim0 b) && (dim2 a =? dim2 b) && (dim3 a =? dim3 b)
  then ret (mkSize (dim0 a) (dim1 a + dim1 b) (dim2 a) (dim3 a))
  else raise (CatSizeMismatch a b).

End Torch.

#[export] Instance torch_ret : MRet Torch.M := @Torch.ret.
#[export] Instance torch_bind : MBind Torch.M := fun A B f m => Torch.bind m f.

(** ** models/unet_model.py: the network *)

Module UNetModel.
Import Torch.

(** class DoubleConv: (conv 3x3 pad 1 => batch norm => ReLU) twice. The
    forward functions named after the source are those of a network in
    evaluation mode, which is how the Colorizer runs it; the [_in] variants
    take the mode as an argument. *)
Record DoubleConv := mkDoubleConv { dc_in : Z; dc_mid : Z; dc_out : Z }.

Definition DoubleConv_init (in_channels out_channels : Z) (mid_channels : option Z)
  : DoubleConv :=
  let mid := match mid_channels with
             | None => out_channels
             | Some m => if m =? 0 then out_channels else m   (* if not mid_channels *)
             end in
  mkDoubleConv in_channels mid out_channels.

Definition DoubleConv_forward (self : DoubleConv) (x : Size) : M Size :=
  x ← Conv2d (dc_in self) (dc_mid self) 3 1 x;
  x ← BatchNorm2d (dc_mid self) x;
  x ← ReLU x;
  x ← Conv2d (dc_mid self) (dc_out self) 3 1 x;
  x ← BatchNorm2d (dc_out self) x;
  ReLU x.

(** The same call on a module in the given mode ([self.training]). *)
Definition DoubleConv_forward_in (training : bool) (self : DoubleConv) (x : Size) : M Size :=
  x ← Conv2d (dc_in self) (dc_mid self) 3 1 x;
  x ← BatchNorm2d_in training (dc_mid self) x;
  x ← ReLU x;
  x ← Conv2d (dc_mid self) (dc_out self) 3 1 x;
  x ← BatchNorm2d_in training (dc_out self) x;
  ReLU x.

(** class Down: MaxPool2d(2) then DoubleConv. *)
Record Down := mkDown { down_conv : DoubleConv }.

Definition Down_init (in_channels out_channels : Z) : Down :=
  mkDown (DoubleConv_init in_channels out_channels None).

Definition Down_forward (self : Down) (x : Size) : M Size :=
  x ← MaxPool2d 2 x;
  DoubleConv_forward (down_conv self) x.

Definition Down_forward_in (training : bool) (self : Down) (x : Size) : M Size :=
  x ← MaxPool2d 2 x;
  DoubleConv_forward_in training (down_conv self) x.

(** class Up: [self.up] is an Upsample or a ConvTranspose2d. *)
Inductive UpLayer :=
| UpsampleLayer (scale_factor : Z)
| ConvTranspose2dLayer (in_channels out_channels kernel_size stride : Z).

Record Up := mkUp { up_up : UpLayer; up_conv : DoubleConv }.

Definition Up_init (in_channels out_channels : Z) (bilinear : bool) : Up :=
  if bilinear then
    mkUp (UpsampleLayer 2) (DoubleConv_init in_channels out_channels (Some (in_channels / 2)))
  else
    mkUp (ConvTranspose2dLayer in_channels (in_channels / 2) 2 2)
         (DoubleConv_init in_channels out_channels None).

Definition UpLayer_forward (l : UpLayer) (x : Size) : M Size :=
  match l with
  | UpsampleLayer s => Upsample s x
  | ConvTranspose2dLayer i o k s => ConvTranspose2d i o k s x
  end.

(** The argument handed to F.pad in Up.forward. *)
Definition Up_padding (x1 x2 : Size) : list Z :=
  let diffY := dim2 x2 - dim2 x1 in
  let diffX := dim3 x2 - dim3 x1 in
  [diffX / 2; diffX - diffX / 2; diffY / 2; diffY - diffY / 2].

Definition Up_forward (self : Up) (x1 x2 : Size) : M Size :=
  x1 ← UpLayer_forward (up_up self) x1;
  let p := Up_padding x1 x2 in
  x1' ← pad x1 p;
  _ ← tell (mkCat x2 x1 p x1');
  x ← cat1 x2 x1';
  DoubleConv_forward (up_conv self) x.

Definition Up_forward_in (training : bool) (self : Up) (x1 x2 : Size) : M Size :=
  x1 ← UpLayer_forward (up_up self) x1;
  let p := Up_padding x1 x2 in
  x1' ← pad x1 p;
  _ ← tell (mkCat x2 x1 p x1');
  x ← cat1 x2 x1';
  DoubleConv_forward_in training (up_conv self) x.

(** class OutConv: a 1x1 convolution. *)
Record OutConv := mkOutConv { oc_in : Z; oc_out : Z }.

Definition OutConv_forward (self : OutConv) (x : Size) : M Size :=
  Conv2d (oc_in self) (oc_out self) 1 0 x.

(** class UNet. *)
Record UNet := mkUNet {
  n_channels : Z; n_classes : Z; bilinear : bool;
  inc : DoubleConv;
  down1 : Down; down2 : Down; down3 : Down; down4 : Down;
  up1 : Up; up2 : Up; up3 : Up; up4 : Up;
  outc : OutConv
}.

Definition UNet_init (n_channels n_classes : Z) (bilinear : bool) : UNet :=
  let factor := if bilinear then 2 else 1 in
  {| n_channels := n_channels; n_classes := n_classes; bilinear := bilinear;
     inc := DoubleConv_init n_channels 64 None;
     down1 := Down_init 64 128;
     down2 := Down_init 128 256;
     down3 := Down_init 256 512;
     down4 := Down_init 512 (1024 / factor);
     up1 := Up_init 1024 (512 / factor) bilinear;
     up2 := Up_init 512 (256 / factor) bilinear;
     up3 := Up_init 256 (128 / factor) bilinear;
     up4 := Up_init 128 64 bilinear;
     outc := mkOutConv 64 n_classes |}.

Definition UNet_forward (self : UNet) (x : Size) : M Size :=
  x1 ← DoubleConv_forward (inc self) x;
  x2 ← Down_forward (down1 self) x1;
  x3 ← Down_forward (down2 self) x2;
  x4 ← Down_forward (down3 self) x3;
  x5 ← Down_forward (down4 self) x4;
  x ← Up_forward (up1 self) x5 x4;
  x ← Up_forward (up2 self) x x3;
  x ← Up_forward (up3 self) x x2;
  x ← Up_forward (up4 self) x x1;
  OutConv_forward (outc self) x.

(** UNet.forward on a network in the given mode: training as
    [UNet.__init__] leaves it, evaluation once [eval()] has been called. *)
Definition UNet_forward_in (training : bool) (self : UNet) (x : Size) : M Size :=
  x1 ← DoubleConv_forward_in training (inc self) x;
  x2 ← Down_forward_in training (down1 self) x1;
  x3 ← Down_forward_in training (down2 self) x2;
  x4 ← Down_forward_in training (down3 self) x3;
  x5 ← Down_forward_in training (down4 self) x4;
  x ← Up_forward_in training (up1 self) x5 x4;
  x ← Up_forward_in training (up2 self) x x3;
  x ← Up_forward_in training (up3 self) x x2;
  x ← Up_forward_in training (up4 self) x x1;
  OutConv_forward (outc self) x.

End UNetModel.

(** ** Python strings, pathlib and the file system *)

Module Py.

(** [s.startswith(p)]. *)
Definition startswith (s p : string) : bool := String.prefix p s.

(** [s.rfind(c)]: index of the last occurrence of [c], or -1. *)
Fixpoint rfind (c : ascii) (s : string) : Z :=
  match s with
  | EmptyString => -1
  | String a s' =>
      let r := rfind c s' in
      if r =? -1 then (if Ascii.eqb a c then 0 else -1) else r + 1
  end.

(** [len(s)] and the slice [s[i:]] for [0 <= i]. *)
Definition len (s : string) : Z := Z.of_nat (String.length s).

Definition slice_from (s : string) (i : Z) : string :=
  String.substring (Z.to_nat i) (String.length s - Z.to_nat i) s.

(** [s.split(sep)] for a one-character separator. *)
Fixpoint split (sep : ascii) (s : string) : list string :=
  match s with
  | EmptyString => [EmptyString]
  | String a s' =>
      if Ascii.eqb a sep then EmptyString :: split sep s'
      else match split sep s' with
           | h :: t => String a h :: t
           | [] => [String a EmptyString]
           end
  end.

(** pathlib (POSIX flavour): the parts of a path are its components with
    empty and "." components dropped. *)
Definition is_current (c : string) : bool := String.eqb c "" || String.eqb c ".".

Definition parts (p : string) : list string :=
  filter (fun c => is_current c = false) (split "/" p).

Definition is_absolute (p : string) : bool := startswith p "/".

(** [Path(p).name]. *)
Definition name (p : string) : string := List.last (parts p) "".

(** [Path(p).suffix]. *)
Definition suffix (p : string) : string :=
  let n := name p in
  let i := rfind "." n in
  if (0 <? i) && (i <? len n - 1) then slice_from n i else "".

(** The root pathlib keeps: exactly two leading separators are kept as they
    are, any other number of them is one. *)
Definition root (p : string) : string :=
  if startswith p "//" && negb (startswith p "///") then "//"
  else if startswith p "/" then "/" else "".

(** [str(path)] of a path with this root and these parts. *)
Definition render (r : string) (ps : list string) : string :=
  match r, ps with
  | EmptyString, [] => "."
  | _, _ => r +:+ String.concat "/" ps
  end.

(** [str(Path(p))]: empty and "." components are dropped, ".." is kept. *)
Definition normal (p : string) : string := render (root p) (parts p).

(** [str(Path(a) / b)]: an absolute right operand replaces the left one;
    the result is in normal form. *)
Definition joinpath (a b : string) : string :=
  if is_absolute b then normal b else render (root a) (parts a ++ parts b).

(** [Path(p).parent], as a string. *)
Definition parent (p : string) : string :=
  match removelast (parts p) with
  | [] => if is_absolute p then root p else "."
  | ps => root p +:+ String.concat "/" ps
  end.

End Py.

(** The file system: a tree of directories and regular files, keyed by the
    list of components from the root. The root itself is always a directory;
    there are no symbolic links. *)
Module Os.

Definition Blob := list Byte.byte.

Inductive Node :=
| Dir
| File (data : Blob).

Abbreviation FS := (gmap (list string) Node).

Definition is_dir (fs : FS) (loc : list string) : bool :=
  match loc with
  | [] => true
  | _ => match fs !! loc with Some Dir => true | _ => false end
  end.

(** Where a path leads, as the kernel resolves it: every component is looked
    up in a directory; ".." steps to the parent (the root is its own
    parent). Whether the lookup is refused for the names themselves is
    [usable], below. *)
Fixpoint walk (fs : FS) (cur : list string) (comps : list string) : option (list string) :=
  match comps with
  | [] => Some cur
  | c :: rest =>
      if is_dir fs cur then
        if Py.is_current c then walk fs cur rest
        else if String.eqb c ".." then walk fs (removelast cur) rest
        else walk fs (cur ++ [c]) rest
      else None
  end.

Definition resolve (fs : FS) (cwd : list string) (p : string) : option (list string) :=
  walk fs (if Py.is_absolute p then [] else cwd) (Py.split "/" p).

(** The limits of the kernel (Linux): a component holds at most NAME_MAX
    bytes, and a path handed to a system call fewer than PATH_MAX. *)
Definition NAME_MAX : Z := 255.
Definition PATH_MAX : Z := 4096.

(** An embedded NUL: Python refuses such a path before any system call
    (ValueError). *)
Fixpoint has_nul (p : string) : bool :=
  match p with
  | EmptyString => false
  | String a p' => Ascii.eqb a "000" || has_nul p'
  end.

(** Whether the lookup of the components meets one longer than NAME_MAX in
    a directory that exists (ENAMETOOLONG). A missing ancestor, or one that
    is no directory, ends the lookup before that (ENOENT, ENOTDIR). *)
Fixpoint walk_too_long (fs : FS) (cur : list string) (comps : list string) : bool :=
  match comps with
  | [] => false
  | c :: rest =>
      if is_dir fs cur then
        if Py.is_current c then walk_too_long fs cur rest
        else if String.eqb c ".." then walk_too_long fs (removelast cur) rest
        else if NAME_MAX <? Py.len c then true
        else walk_too_long fs (cur ++ [c]) rest
      else false
  end.

(** The system call on [p] fails with ENAMETOOLONG. *)
Definition name_too_long (fs : FS) (cwd : list string) (p : string) : bool :=
  (PATH_MAX <=? Py.len p) ||
  walk_too_long fs (if Py.is_absolute p then [] else cwd) (Py.split "/" p).

(** The path can be looked up at all: no NUL in it and no ENAMETOOLONG. *)
Definition usable (fs : FS) (cwd : list string) (p : string) : bool :=
  negb (has_nul p) && negb (name_too_long fs cwd p).

(** A sufficient condition that does not look at the file system. *)
Definition names_fit (p : string) : bool :=
  (Py.len p <? PATH_MAX) && forallb (fun c => Py.len c <=? NAME_MAX) (Py.split "/" p).

(** [os.stat(p)], as far as the kind of entry and its content go: None for
    every error. *)
Definition lookup_path (fs : FS) (cwd : list string) (p : string) : option Node :=
  if usable fs cwd p then
    match resolve fs cwd p with
    | Some [] => Some Dir
    | Some loc => fs !! loc
    | None => None
    end
  else None.

(** [os.path.exists(p)]: False for every error of the lookup. (pathlib's
    [Path.exists] lets ENAMETOOLONG through: [Runtime.Path_exists].) *)
Definition exists_ (fs : FS) (cwd : list string) (p : string) : bool :=
  match lookup_path fs cwd p with Some _ => true | None => false end.

(** [os.path.isdir(p)]. *)
Definition isdir (fs : FS) (cwd : list string) (p : string) : bool :=
  match lookup_path fs cwd p with Some Dir => true | _ => false end.

(** Reading a regular file. *)
Definition read_file (fs : FS) (cwd : list string) (p : string) : option Blob :=
  match lookup_path fs cwd p with Some (File d) => Some d | _ => None end.

(** Creating or truncating a regular file ([open(p, 'wb')] then write):
    the path must be usable, the parent directory must exist and the target
    must not be a directory. *)
Definition write_file (fs : FS) (cwd : list string) (p : string) (d : Blob) : option FS :=
  if usable fs cwd p then
    match resolve fs cwd p with
    | Some loc =>
        match loc, fs !! loc with
        | [], _ => None
        | _, Some Dir => None
        | _, _ => if is_dir fs (removelast loc) then Some (<[loc := File d]> fs) else None
        end
    | None => None
    end
  else None.

(** [Path(p).mkdir(parents=True, exist_ok=True)] when it returns: the
    missing directories along the path are created; a regular file in the
    way, or a name longer than NAME_MAX, is an error (None). *)
Fixpoint mkdirs (fs : FS) (cur : list string) (comps : list string) : option FS :=
  match comps with
  | [] => Some fs
  | c :: rest =>
      if negb (is_dir fs cur) then None
      else if Py.is_current c then mkdirs fs cur rest
      else if String.eqb c ".." then mkdirs fs (removelast cur) rest
      else if NAME_MAX <? Py.len c then None
      else let nxt := cur ++ [c] in
           match fs !! nxt with
           | Some Dir => mkdirs fs nxt rest
           | Some (File _) => None
           | None => mkdirs (<[nxt := Dir]> fs) nxt rest
           end
  end.

Definition mkdir_parents (fs : FS) (cwd : list string) (p : string) : option FS :=
  if has_nul p || (PATH_MAX <=? Py.len p) then None
  else mkdirs fs (if Py.is_absolute p then [] else cwd) (Py.split "/" p).

(** The file system such a [mkdir] leaves in either case: the directories
    made before an error stay. *)
Fixpoint mkdirs_made (fs : FS) (cur : list string) (comps : list string) : FS :=
  match comps with
  | [] => fs
  | c :: rest =>
      if negb (is_dir fs cur) then fs
      else if Py.is_current c then mkdirs_made fs cur rest
      else if String.eqb c ".." then mkdirs_made fs (removelast cur) rest
      else if NAME_MAX <? Py.len c then fs
      else let nxt := cur ++ [c] in
           match fs !! nxt with
           | Some Dir => mkdirs_made fs nxt rest
           | Some (File _) => fs
           | None => mkdirs_made (<[nxt := Dir]> fs) nxt rest
           end
  end.

Definition mkdir_parents_made (fs : FS) (cwd : list string) (p : string) : FS :=
  if has_nul p || (PATH_MAX <=? Py.len p) then fs
  else mkdirs_made fs (if Py.is_absolute p then [] else cwd) (Py.split "/" p).

End Os.

(** ** numpy arrays, OpenCV and the interpreter state *)

Module Runtime.
Import Torch UNetModel Os.

Inductive DType := uint8 | float32 | float64.

Inductive ImreadFlag := IMREAD_COLOR | IMREAD_GRAYSCALE.

Inductive Interpolation := INTER_NEAREST | INTER_LINEAR | INTER_CUBIC | INTER_AREA.

Inductive ColorCode := COLOR_RGB2BGR | COLOR_BGR2GRAY.

(** The entries of a state dict, each a parameter name with its shape. *)
Definition Checkpoint := list (string * list Z).

(** The parameters a network instance holds. [load_state_dict] copies the
    entries that fit before it raises for those that do not. *)
Inductive Weights :=
| InitialWeights
| LoadedWeights (checkpoint : Checkpoint)
| PartlyLoadedWeights (checkpoint : Checkpoint).

(** Element values are produced by OpenCV and torch kernels in floating
    point; they are kept as terms that record which operation produced them
    from what, with the constants of the source. *)
Inductive Pixels :=
| Decoded (flag : ImreadFlag) (data : Blob)
| Resized (interpolation : Interpolation) (dsize : Z * Z) (p : Pixels)
| AsType (t : DType) (p : Pixels)
| TrueDiv (p : Pixels) (c : Q)
| AddScalar (p : Pixels) (c : Q)
| MulScalar (p : Pixels) (c : Q)
| Clip (lo hi : Q) (p : Pixels)
| Transposed (axes : list nat) (p : Pixels)
| CvtColor (code : ColorCode) (p : Pixels)
| Network (w : Weights) (p : Pixels).

(** A numpy array or torch tensor: shape, element type, contents. *)
Record NdArray := mkArray { shape : list Z; dtype : DType; pixels : Pixels }.

(** Arithmetic with a Python float keeps float32 and promotes integers. *)
Definition float_result (t : DType) : DType :=
  match t with float32 => float32 | _ => float64 end.

Definition astype (a : NdArray) (t : DType) : NdArray :=
  mkArray (shape a) t (AsType t (pixels a)).

Definition truediv (a : NdArray) (c : Q) : NdArray :=
  mkArray (shape a) (float_result (dtype a)) (TrueDiv (pixels a) c).

Definition add_scalar (a : NdArray) (c : Q) : NdArray :=
  mkArray (shape a) (float_result (dtype a)) (AddScalar (pixels a) c).

Definition mul_scalar (a : NdArray) (c : Q) : NdArray :=
  mkArray (shape a) (float_result (dtype a)) (MulScalar (pixels a) c).

Definition clip (a : NdArray) (lo hi : Q) : NdArray :=
  mkArray (shape a) (dtype a) (Clip lo hi (pixels a)).

(** [t.unsqueeze(0)], [t.squeeze(0)], [t.dim()]. *)
Definition unsqueeze0 (a : NdArray) : NdArray :=
  mkArray (1 :: shape a) (dtype a) (pixels a).

Definition squeeze0 (a : NdArray) : NdArray :=
  match shape a with
  | 1 :: rest => mkArray rest (dtype a) (pixels a)
  | _ => a
  end.

Definition ndim (a : NdArray) : Z := Z.of_nat (length (shape a)).

(** Exceptions. *)
Inductive Exn :=
| ValueError (msg : string)
| AttributeError (msg : string)
| TypeError (msg : string)
| OSError (msg : string)
| Cv2Error (msg : string)
| TorchRuntimeError (e : Torch.Error)
| LoadError (msg : string)                 (* whatever torch.load raises *)
| Exception_ (msg : string)                (* raise Exception(msg) *)
| HTTPException (status_code : Z) (detail : string).

(** [str(e)], as the log lines interpolate it. *)
Definition str_exn (e : Exn) : string :=
  match e with
  | ValueError m | AttributeError m | TypeError m | OSError m | Cv2Error m | LoadError m
  | Exception_ m => m
  | TorchRuntimeError _ => "RuntimeError"
  | HTTPException _ d => d
  end.

Inductive Level := INFO | WARNING | ERROR.

Record LogRecord := mkLog { level : Level; message : string }.

(** What [torch.load] returns: whatever object was pickled. A state dict
    is a dict of parameters; of any other object only the outcome of its
    truth test matters here (a tensor of several elements raises when
    tested). *)
Inductive Loaded :=
| StateDict (checkpoint : Checkpoint)
| OtherObject (truth : result Exn bool).

(** Calls whose only effect is on memory or compute. *)
Inductive Event :=
| GcCollect
| CudaEmptyCache
| ModelCall (input_shape : list Z).

(** class UNetColorizer: its attributes. *)
Record UNetColorizer := mkColorizer {
  device : string;
  model : UNet;
  weights : Weights
}.

(** A scheduled background task: the arguments of [process_colorization]. *)
Record Task := mkTask { task_input : string; task_output : string; task_file_id : string }.

(** The state a call can read and change. *)
Record World := mkWorld {
  fs : FS;
  cwd : list string;
  log : list LogRecord;                   (* logger output, oldest first *)
  stdout : list string;                   (* print output *)
  events : list Event;                    (* oldest first *)
  colorizer : option UNetColorizer;       (* main.colorizer *)
  background_tasks : list Task            (* tasks added and not yet run *)
}.

(** What the libraries and the machine answer; fixed during a run. *)
Record Env := mkEnv {
  (* cv2: the decoder gives the height and width of a raster image, or fails *)
  cv2_decode : Blob -> option (positive * positive);
  (* cv2: the encoder for a file extension, if there is one *)
  cv2_encode : string -> NdArray -> option Blob;
  (* torch.cuda.is_available() *)
  cuda_is_available : bool;
  (* torch.cuda.get_device_properties(0).total_memory, in bytes *)
  cuda_total_memory : Z;
  (* torch.device(name) accepts the name; "cpu" is accepted on every machine *)
  device_parses : string -> bool;
  (* Module.to(device) succeeds; moving to "cpu" succeeds on every machine *)
  device_holds : string -> bool;
  (* torch.load(path, map_location=device) *)
  torch_load : string -> string -> result Exn Loaded;
  (* does load_state_dict accept this state dict for the network *)
  state_dict_fits : Checkpoint -> bool
}.

(** Calls: state in, outcome and state out. A raised exception keeps the
    state changes made before it. *)
Definition Py (A : Type) : Type := World -> result Exn A * World.

Definition ret {A} (a : A) : Py A := fun w => (Ok a, w).
Definition raise {A} (e : Exn) : Py A := fun w => (Raise e, w).
Definition bind {A B} (m : Py A) (f : A -> Py B) : Py B :=
  fun w => match m w with
           | (Ok a, w') => f a w'
           | (Raise e, w') => (Raise e, w')
           end.

(** [try: body except Exception as e: handler e]. *)
Definition try_except {A} (body : Py A) (handler : Exn -> Py A) : Py A :=
  fun w => match body w with
           | (Ok a, w') => (Ok a, w')
           | (Raise e, w') => handler e w'
           end.

Definition get : Py World := fun w => (Ok w, w).
Definition modify (f : World -> World) : Py unit := fun w => (Ok tt, f w).

Definition set_fs (x : FS) (w : World) : World :=
  mkWorld x (cwd w) (log w) (stdout w) (events w) (colorizer w) (background_tasks w).
Definition add_log (r : LogRecord) (w : World) : World :=
  mkWorld (fs w) (cwd w) (log w ++ [r]) (stdout w) (events w) (colorizer w) (background_tasks w).
Definition add_stdout (s : string) (w : World) : World :=
  mkWorld (fs w) (cwd w) (log w) (stdout w ++ [s]) (events w) (colorizer w) (background_tasks w).
Definition add_event (e : Event) (w : World) : World :=
  mkWorld (fs w) (cwd w) (log w) (stdout w) (events w ++ [e]) (colorizer w) (background_tasks w).
Definition set_colorizer (c : option UNetColorizer) (w : World) : World :=
  mkWorld (fs w) (cwd w) (log w) (stdout w) (events w) c (background_tasks w).
Definition set_tasks (t : list Task) (w : World) : World :=
  mkWorld (fs w) (cwd w) (log w) (stdout w) (events w) (colorizer w) t.

(** [Path(p).exists()], [p] being [str] of the path: a path with a NUL and
    a missing entry answer False; ENAMETOOLONG is not among the errors
    pathlib swallows and leaves as OSError. *)
Definition path_exists (x : FS) (wd : list string) (p : string) : result Exn bool :=
  if has_nul p then Ok false
  else if name_too_long x wd p
       then Raise (OSError ("[Errno 36] File name too long: '" +:+ p +:+ "'"))
  else Ok (exists_ x wd p).

Definition Path_exists (p : string) : Py bool :=
  fun w => (path_exists (fs w) (cwd w) p, w).

(** logger.info / warning / error, print. *)
Definition logger (l : Level) (msg : string) : Py unit := modify (add_log (mkLog l msg)).
Definition print (msg : string) : Py unit := modify (add_stdout msg).
Definition emit (e : Event) : Py unit := modify (add_event e).

End Runtime.

#[export] Instance py_ret : MRet Runtime.Py := @Runtime.ret.
#[export] Instance py_bind : MBind Runtime.Py := fun A B f m => Runtime.bind m f.

(** ** OpenCV calls *)

Module Cv2.
Import Runtime Os.

Section WithEnv.
Context (env : Env).

(** cv2.imread(path, flags): None when the file cannot be read or decoded. *)
Definition imread (path : string) (flag : ImreadFlag) : Py (option NdArray) :=
  w ← get;
  mret (match read_file (fs w) (cwd w) path with
        | Some data =>
            match cv2_decode env data with
            | Some (h, wd) =>
                let shp := match flag with
                           | IMREAD_GRAYSCALE => [Z.pos h; Z.pos wd]
                           | IMREAD_COLOR => [Z.pos h; Z.pos wd; 3]
                           end in
                Some (mkArray shp uint8 (Decoded flag data))
            | None => None
            end
        | None => None
        end).

(** The largest value of a C int, which is what a side of [dsize] is
    converted to. *)
Definition INT_MAX : Z := 2 ^ 31 - 1.

(** cv2.resize(src, dsize, interpolation=cv2.INTER_LINEAR), dsize being
    (width, height): a side that does not fit a C int is refused when the
    arguments are parsed, an empty source or target by the call itself. *)
Definition resize (src : NdArray) (dsize : Z * Z) (interpolation : option Interpolation)
  : Py NdArray :=
  let interp := default INTER_LINEAR interpolation in
  if (INT_MAX <? fst dsize) || (INT_MAX <? snd dsize) ||
     (fst dsize <? - INT_MAX - 1) || (snd dsize <? - INT_MAX - 1)
  then raise (Cv2Error "resize: Can't parse 'dsize'")
  else
    match shape src with
    | h :: wd :: rest =>
        if (h <=? 0) || (wd <=? 0) || (fst dsize <=? 0) || (snd dsize <=? 0)
        then raise (Cv2Error "resize: empty image")
        else mret (mkArray (snd dsize :: fst dsize :: rest) (dtype src)
                           (Resized interp dsize (pixels src)))
    | _ => raise (Cv2Error "resize: empty image")
    end.

(** cv2.cvtColor(src, code). *)
Definition cvtColor (src : NdArray) (code : ColorCode) : NdArray :=
  mkArray (shape src) (dtype src) (CvtColor code (pixels src)).

(** The extension OpenCV picks its encoder by: from the last dot on. *)
Definition extension (path : string) : string :=
  let i := Py.rfind "." path in
  if i <? 0 then "" else Py.slice_from path i.

(** cv2.imwrite(path, img): raises when no encoder handles the extension,
    returns False when the file cannot be created, True once it is written. *)
Definition imwrite (path : string) (img : NdArray) : Py bool :=
  match cv2_encode env (extension path) img with
  | None => raise (Cv2Error "could not find a writer for the specified extension")
  | Some data =>
      w ← get;
      match write_file (fs w) (cwd w) path data with
      | Some fs' => _ ← modify (set_fs fs'); mret true
      | None => mret false
      end
  end.

End WithEnv.
End Cv2.

(** ** models/unet_model.py: class UNetColorizer *)

Module Colorizer.
Import Torch UNetModel Runtime Os.

(** Python truth value of an optional string. *)
Definition truthy_path (p : option string) : bool :=
  match p with Some s => negb (String.eqb s "") | None => false end.

(** The truth test of what torch.load returned, as the [and] of the
    condition applies it: a dict is true when it is not empty; any other
    object answers for itself, or raises. *)
Definition truth_of (o : Loaded) : result Exn bool :=
  match o with
  | StateDict [] => Ok false
  | StateDict _ => Ok true
  | OtherObject t => t
  end.

(** np.transpose(a, axes). *)
Definition np_transpose (a : NdArray) (axes : list nat) : Py NdArray :=
  if negb (length axes =? length (shape a))%nat
  then raise (ValueError "axes don't match array")
  else mret (mkArray (map (fun i => nth i (shape a) 0) axes) (dtype a)
                     (Transposed axes (pixels a))).

Section WithEnv.
Context (env : Env).

Definition lift_result {A} (r : result Exn A) : Py A :=
  match r with Ok a => mret a | Raise e => raise e end.

(** torch.device(name). *)
Definition torch_device (name : string) : Py string :=
  if String.eqb name "cpu" || device_parses env name then mret name
  else raise (TorchRuntimeError (InvalidDevice name)).

(** self.model.to(device). *)
Definition module_to (name : string) : Py unit :=
  if String.eqb name "cpu" || device_holds env name then mret tt
  else raise (TorchRuntimeError (DeviceUnavailable name)).

(** self.model.load_state_dict(state_dict): an object that is no dict is
    refused with TypeError, a dict that does not fit with RuntimeError. *)
Definition load_state_dict (o : Loaded) : Py Weights :=
  match o with
  | StateDict c =>
      if state_dict_fits env c then mret (LoadedWeights c)
      else raise (TorchRuntimeError StateDictMismatch)
  | OtherObject _ => raise (TypeError "Expected state_dict to be dict-like")
  end.

(** UNetColorizer.__init__(model_path=None, device="cpu"). *)
Definition init (model_path : option string) (device : string) : Py UNetColorizer :=
  device ← torch_device (if cuda_is_available env then device else "cpu");
  let model := UNet_init 1 3 false in
  weights ←
    (if truthy_path model_path then
       let path := default "" model_path in
       loaded ← lift_result (torch_load env path device);
       truth ← lift_result (truth_of loaded);
       if (truth : bool) then
         try_except
           (state_dict ← lift_result (torch_load env path device);
            w ← load_state_dict state_dict;
            _ ← logger INFO ("Loaded pre-trained model from " +:+ path);
            mret w)
           (fun e =>
              _ ← logger WARNING ("Failed to load pre-trained model: " +:+ str_exn e);
              mret (match e, loaded with
                    | TorchRuntimeError StateDictMismatch, StateDict c => PartlyLoadedWeights c
                    | _, _ => InitialWeights
                    end))
       else mret InitialWeights
     else mret InitialWeights);
  _ ← module_to device;
  _ ← logger INFO ("U-Net model initialized on device: " +:+ device);
  mret (mkColorizer device model weights).

(** self.model(x): the forward pass of the network on a batched tensor. *)
Definition call_model (self : UNetColorizer) (x : NdArray) : Py NdArray :=
  _ ← emit (ModelCall (shape x));
  match shape x with
  | [n; c; h; wd] =>
      match value (UNet_forward (model self) (mkSize n c h wd)) with
      | Ok s => mret (mkArray [dim0 s; dim1 s; dim2 s; dim3 s] float32
                              (Network (weights self) (pixels x)))
      | Raise e => raise (TorchRuntimeError e)
      end
  | _ => raise (TorchRuntimeError Expected4D)
  end.

(** UNetColorizer.preprocess_image. *)
Definition preprocess_image (self : UNetColorizer) (image_path : string) : Py NdArray :=
  image ← Cv2.imread env image_path IMREAD_GRAYSCALE;
  match image with
  | None => raise (ValueError ("Could not load image from " +:+ image_path))
  | Some image =>
      image ← Cv2.resize image (256, 256) None;
      let image := truediv (astype image float32) 255 in
      let image := unsqueeze0 (unsqueeze0 image) in
      mret image
  end.

(** UNetColorizer.postprocess_output. *)
Definition postprocess_output (self : UNetColorizer) (output : NdArray) : Py NdArray :=
  let output := squeeze0 output in
  output ← np_transpose output [1; 2; 0]%nat;
  let output := astype (clip (mul_scalar (add_scalar output 1) (255 # 2)) 0 255) uint8 in
  mret output.

(** UNetColorizer.colorize. *)
Definition colorize (self : UNetColorizer) (image_path : string) : Py NdArray :=
  input_tensor ← preprocess_image self image_path;
  output ← call_model self input_tensor;
  colorized_image ← postprocess_output self output;
  mret colorized_image.

End WithEnv.

(** The exact quotient and affine image that an element of [TrueDiv] and of
    the [AddScalar]/[MulScalar]/[Clip] chain approximate in floating point. *)
Definition truediv_value (v c : Q) : Q := (v / c)%Q.

End Colorizer.

(** The tensor codec as the specification words it, for comparison with
    [Colorizer.preprocess_image]. *)
Module SpecWording.
Import Runtime.

Section WithEnv.
Context (env : Env).

(** Modelled from the spec: "reads an image file, converts to single-channel
    grayscale, resizes to the fixed input resolution using area-preserving
    interpolation, scales intensity to [0,1] as 32-bit floating point, and
    adds batch and channel dimensions", failing when the file cannot be read. *)
Definition decode (path : string) : Py NdArray :=
  image ← Cv2.imread env path IMREAD_GRAYSCALE;
  match image with
  | None => raise (ValueError ("Could not load image from " +:+ path))
  | Some image =>
      image ← Cv2.resize image (256, 256) (Some INTER_AREA);
      mret (unsqueeze0 (unsqueeze0 (truediv (astype image float32) 255)))
  end.

End WithEnv.
End SpecWording.

(** ** memory_config.py: class MemoryOptimizer *)

Module MemoryConfig.
Import Runtime.

Record MemoryOptimizer := mkOptimizer { mo_device : string }.

Section WithEnv.
Context (env : Env).

(** MemoryOptimizer._get_device: "cuda" needs at least 4 GB of GPU memory. *)
Definition _get_device : Py string :=
  if cuda_is_available env then
    if 4 * 1024 ^ 3 <=? cuda_total_memory env then mret "cuda"
    else _ ← print "GPU disponible mais memoire insuffisante, utilisation CPU"; mret "cpu"
  else mret "cpu".

(** MemoryOptimizer.__init__ (the torch thread and cudnn settings of
    _configure_torch are not part of the state kept here). *)
Definition init : Py MemoryOptimizer :=
  d ← _get_device;
  mret (mkOptimizer d).

(** MemoryOptimizer.clear_memory. *)
Definition clear_memory (self : MemoryOptimizer) : Py unit :=
  _ ← emit GcCollect;
  if String.eqb (mo_device self) "cuda" then emit CudaEmptyCache else mret tt.

(** MemoryOptimizer.process_image_optimized(model, image_tensor); returns
    None when anything raised. *)
Definition process_image_optimized (self : MemoryOptimizer)
    (model : NdArray -> Py NdArray) (image_tensor : NdArray) : Py (option NdArray) :=
  try_except
    (_ ← clear_memory self;
     let image_tensor := if ndim image_tensor =? 3 then unsqueeze0 image_tensor
                         else image_tensor in
     output ← model image_tensor;
     _ ← clear_memory self;
     mret (Some output))
    (fun e =>
       _ ← print ("Erreur lors du traitement: " +:+ str_exn e);
       mret None).

End WithEnv.
End MemoryConfig.

(** ** utils/image_processing.py *)

Module ImageProcessing.
Import Runtime Os.

Section WithEnv.
Context (env : Env).

(** process_image(image_path, colorizer): runs colorizer.colorize in the
    executor, logs and re-raises what it raises. *)
Definition process_image (image_path : string) (colorizer : option UNetColorizer)
  : Py NdArray :=
  try_except
    (colorized_image ←
       match colorizer with
       | Some c => Colorizer.colorize env c image_path
       | None => raise (AttributeError "'NoneType' object has no attribute 'colorize'")
       end;
     _ ← logger INFO ("Image colorization completed for " +:+ image_path);
     mret colorized_image)
    (fun e =>
       _ ← logger ERROR ("Error processing image " +:+ image_path +:+ ": " +:+ str_exn e);
       raise e).

(** Path(output_path).parent.mkdir(parents=True, exist_ok=True). *)
Definition mkdir_parent (output_path : string) : Py unit :=
  w ← get;
  match mkdir_parents (fs w) (cwd w) (Py.parent output_path) with
  | Some fs' => modify (set_fs fs')
  | None =>
      _ ← modify (set_fs (mkdir_parents_made (fs w) (cwd w) (Py.parent output_path)));
      raise (OSError "mkdir")
  end.

(** save_image(image_array, output_path). *)
Definition save_image (image_array : NdArray) (output_path : string) : Py unit :=
  try_except
    (_ ← mkdir_parent output_path;
     let image_bgr :=
       match shape image_array with
       | [_; _; c] => if c =? 3 then Cv2.cvtColor image_array COLOR_RGB2BGR
                      else image_array
       | _ => image_array
       end in
     success ← Cv2.imwrite env output_path image_bgr;
     if negb success then raise (Exception_ ("Failed to save image to " +:+ output_path))
     else logger INFO ("Image saved successfully to " +:+ output_path))
    (fun e =>
       _ ← logger ERROR ("Error saving image to " +:+ output_path +:+ ": " +:+ str_exn e);
       raise e).

End WithEnv.
End ImageProcessing.

(** ** main.py: the application *)

Module Main.
Import Runtime Os.

Definition UPLOAD_DIR : string := "uploads".
Definition OUTPUT_DIR : string := "outputs".

(** An uploaded file as the framework hands it to the handler. *)
Record UploadFile := mkUpload {
  filename : string;
  content_type : option string;       (* the part's Content-Type header, if any *)
  size : Z;
  content : Blob
}.

(** The JSON bodies the handlers return. *)
Record HealthResponse := mkHealth { health_status : string; model_loaded : bool }.

Record ColorizeResponse := mkColorizeResponse {
  cr_message : string;
  cr_file_id : string;
  cr_status : string;
  cr_input_url : string;
  cr_output_url : string;
  cr_progress_url : string
}.

Record ProgressResponse := mkProgress {
  pr_file_id : string;
  pr_status : string;
  pr_progress : Z;
  pr_output_url : option string
}.

Record FileResponse := mkFileResponse {
  fr_path : string;
  fr_filename : string;
  fr_media_type : string
}.

(** The status code the framework answers with: 200 for a returned body,
    the code of an HTTPException, 500 for any other exception. *)
Definition status_code_of {A} (r : result Exn A) : Z :=
  match r with
  | Ok _ => 200
  | Raise (HTTPException c _) => c
  | Raise _ => 500
  end.

Section WithEnv.
Context (env : Env).

(** Module level: UPLOAD_DIR.mkdir(exist_ok=True); OUTPUT_DIR.mkdir(exist_ok=True). *)
Definition create_directories : Py unit :=
  w ← get;
  match mkdir_parents (fs w) (cwd w) UPLOAD_DIR with
  | Some fs1 =>
      match mkdir_parents fs1 (cwd w) OUTPUT_DIR with
      | Some fs2 => modify (set_fs fs2)
      | None =>
          _ ← modify (set_fs (mkdir_parents_made fs1 (cwd w) OUTPUT_DIR));
          raise (OSError "mkdir")
      end
  | None =>
      _ ← modify (set_fs (mkdir_parents_made (fs w) (cwd w) UPLOAD_DIR));
      raise (OSError "mkdir")
  end.

(** startup_event. *)
Definition startup_event : Py unit :=
  try_except
    (c ← Colorizer.init env None "cpu";
     _ ← modify (set_colorizer (Some c));
     logger INFO "U-Net colorization model loaded successfully")
    (fun e =>
       _ ← logger ERROR ("Failed to load model: " +:+ str_exn e);
       modify (set_colorizer None)).

(** GET /api/health. *)
Definition health_check : Py HealthResponse :=
  w ← get;
  mret (mkHealth "healthy" (match colorizer w with Some _ => true | None => false end)).

(** async with aiofiles.open(input_path, 'wb') as f: await f.write(content). *)
Definition save_upload (input_path : string) (data : Blob) : Py unit :=
  w ← get;
  match write_file (fs w) (cwd w) input_path data with
  | Some fs' => modify (set_fs fs')
  | None => raise (OSError "open")
  end.

(** background_tasks.add_task(process_colorization, ...). *)
Definition add_task (t : Task) : Py unit :=
  modify (fun w => set_tasks (background_tasks w ++ [t]) w).

(** POST /api/colorize. [uuid4] is the value uuid.uuid4() produces. *)
Definition colorize_image (file : UploadFile) (uuid4 : string) : Py ColorizeResponse :=
  ct ← match content_type file with
       | Some ct => mret ct
       | None => raise (AttributeError "'NoneType' object has no attribute 'startswith'")
       end;
  if negb (Py.startswith ct "image/") then
    raise (HTTPException 400 "File must be an image")
  else if size file >? 10 * 1024 * 1024 then
    raise (HTTPException 400 "File size too large (max 10MB)")
  else
    w ← get;
    match colorizer w with
    | None => raise (HTTPException 503 "Colorization model not available")
    | Some _ =>
        try_except
          (let file_id := uuid4 in
           let input_path :=
             Py.joinpath UPLOAD_DIR (file_id +:+ "_input" +:+ Py.suffix (filename file)) in
           let output_path :=
             Py.joinpath OUTPUT_DIR (file_id +:+ "_output" +:+ Py.suffix (filename file)) in
           _ ← save_upload input_path (content file);
           _ ← add_task (mkTask input_path output_path file_id);
           mret (mkColorizeResponse
                   "Image uploaded successfully"
                   file_id
                   "processing"
                   ("/uploads/" +:+ Py.name input_path)
                   ("/outputs/" +:+ Py.name output_path)
                   ("/api/progress/" +:+ file_id)))
          (fun e =>
             _ ← logger ERROR ("Error processing image: " +:+ str_exn e);
             raise (HTTPException 500 "Internal server error"))
    end.

(** The path both status and download look at. *)
Definition result_path (file_id : string) : string :=
  Py.joinpath OUTPUT_DIR (file_id +:+ "_output.jpg").

(** GET /api/progress/{file_id}. *)
Definition get_progress (file_id : string) : Py ProgressResponse :=
  let output_path := result_path file_id in
  found ← Path_exists output_path;
  if (found : bool) then
    mret (mkProgress file_id "completed" 100 (Some ("/outputs/" +:+ Py.name output_path)))
  else
    mret (mkProgress file_id "processing" 50 None).

(** GET /api/download/{file_id}. *)
Definition download_result (file_id : string) : Py FileResponse :=
  let output_path := result_path file_id in
  found ← Path_exists output_path;
  if negb (found : bool) then
    raise (HTTPException 404 "Result not found")
  else
    mret (mkFileResponse output_path ("colorized_" +:+ file_id +:+ ".jpg") "image/jpeg").

(** process_colorization(input_path, output_path, file_id). *)
Definition colorization_work (input_path output_path file_id : string) : Py unit :=
  _ ← logger INFO ("Starting colorization for file " +:+ file_id);
  w ← get;
  colorized_image ← ImageProcessing.process_image env input_path (colorizer w);
  _ ← ImageProcessing.save_image env colorized_image output_path;
  logger INFO ("Colorization completed for file " +:+ file_id).

Definition process_colorization (input_path output_path file_id : string) : Py unit :=
  try_except
    (colorization_work input_path output_path file_id)
    (fun e =>
       logger ERROR ("Error in background colorization for " +:+ file_id +:+ ": "
                     +:+ str_exn e)).

(** The framework runs the tasks added during a request, in order, once the
    response has been sent. *)
Fixpoint run_tasks (ts : list Task) : Py unit :=
  match ts with
  | [] => mret tt
  | t :: rest =>
      _ ← process_colorization (task_input t) (task_output t) (task_file_id t);
      run_tasks rest
  end.

Definition run_background_tasks : Py unit :=
  w ← get;
  _ ← modify (set_tasks []);
  run_tasks (background_tasks w).

End WithEnv.
End Main.

(** ** The rest of the backend: utilities, loaders, settings *)

From Stdlib Require Import DecimalString.

(** [str(n)] for a Python int, as f-strings print it. *)
Definition str_int (n : Z) : string := NilZero.string_of_int (Z.to_int n).

(** More of the file system: os.mkdir, os.remove. *)
Module OsMore.
Import Os.

(** [Path(p).mkdir(exist_ok=True)]: one level only; an existing directory is
    accepted, anything else in the way, a missing parent or a path that is
    not usable is an error. *)
Definition mkdir_exist_ok (fs : FS) (cwd : list string) (p : string) : option FS :=
  if usable fs cwd p then
    match resolve fs cwd p with
    | Some [] => Some fs
    | Some loc =>
        match fs !! loc with
        | Some Dir => Some fs
        | Some (File _) => None
        | None => if is_dir fs (removelast loc) then Some (<[loc := Dir]> fs) else None
        end
    | None => None
    end
  else None.

(** [os.remove(p)]: deletes a regular file; a directory, a missing path or
    one that is not usable is an error. *)
Definition remove (fs : FS) (cwd : list string) (p : string) : option FS :=
  if usable fs cwd p then
    match resolve fs cwd p with
    | Some loc =>
        match fs !! loc with
        | Some (File _) => Some (delete loc fs)
        | _ => None
        end
    | None => None
    end
  else None.

End OsMore.

(** [try: body finally: cleanup]: the cleanup runs in every case; when it
    raises, its exception is the one that leaves. *)
Definition try_finally {A} (body : Runtime.Py A) (cleanup : Runtime.Py unit) : Runtime.Py A :=
  fun w => match body w with
           | (r, w') => match cleanup w' with
                        | (Ok _, w'') => (r, w'')
                        | (Raise e, w'') => (Raise e, w'')
                        end
           end.

(** ** models/unet_model.py: UNetColorizer.colorize_pil *)

Module ColorizerPil.
Import Runtime Os.

(** A PIL image, given by the array [np.array(image.convert('L'))] yields
    for it. *)
Record PilImage := mkPil { pil_array : NdArray }.

Definition temp_path : string := "/tmp/temp_image.jpg".

(** if os.path.exists(temp_path): os.remove(temp_path). *)
Definition remove_temp : Py unit :=
  w ← get;
  if exists_ (fs w) (cwd w) temp_path then
    match OsMore.remove (fs w) (cwd w) temp_path with
    | Some fs' => modify (set_fs fs')
    | None => raise (OSError "remove")
    end
  else mret tt.

Section WithEnv.
Context (env : Env).
(** PIL's [Image.fromarray]: an image, or the error it raises for an array
    it cannot handle. *)
Context (fromarray : NdArray -> result Exn PilImage).

(** UNetColorizer.colorize_pil. *)
Definition colorize_pil (self : UNetColorizer) (image : PilImage) : Py PilImage :=
  let image_array := pil_array image in
  _ ← Cv2.imwrite env temp_path image_array;
  try_finally
    (colorized_array ← Colorizer.colorize env self temp_path;
     Colorizer.lift_result (fromarray colorized_array))
    remove_temp.

End WithEnv.
End ColorizerPil.

(** ** utils/image_processing.py: validate_image, resize_image *)

Module ImageUtils.
Import Runtime Os.

Section WithEnv.
Context (env : Env).
(** PIL's [Image.open(path).verify()] on the bytes of a file: returns, or
    raises for a file that is not an intact image. *)
Context (pil_verify : Blob -> result Exn unit).

(** validate_image(image_path). *)
Definition validate_image (image_path : string) : Py bool :=
  try_except
    (found ← Path_exists image_path;
     if negb (found : bool) then mret false
     else
       w ← get;
       _ ← match read_file (fs w) (cwd w) image_path with
           | Some data => Colorizer.lift_result (pil_verify data)
           | None => raise (OSError ("[Errno 21] Is a directory: '" +:+ image_path +:+ "'"))
           end;
       let file_size := match read_file (fs w) (cwd w) image_path with
                        | Some data => Z.of_nat (length data)
                        | None => 0
                        end in
       if file_size >? 10 * 1024 * 1024 then mret false
       else mret true)
    (fun e =>
       _ ← logger WARNING ("Image validation failed for " +:+ image_path +:+ ": "
                           +:+ str_exn e);
       mret false).

(** The size resize_image asks for, as (new_width, new_height). Python
    computes int(width * max_size / height) through a float quotient; for
    positive integers whose product is below 2^52 its truncation is the
    floor quotient written here. *)
Definition new_size (height width max_size : Z) : Z * Z :=
  if height >? width then (width * max_size / height, max_size)
  else (max_size, height * max_size / width).

(** resize_image(image_path, output_path, max_size=512). *)
Definition resize_image (image_path output_path : string) (max_size : Z) : Py unit :=
  try_except
    (image ← Cv2.imread env image_path IMREAD_COLOR;
     match image with
     | None => raise (ValueError ("Could not read image from " +:+ image_path))
     | Some image =>
         let height := nth 0 (shape image) 0 in
         let width := nth 1 (shape image) 0 in
         let '(new_width, new_height) := new_size height width max_size in
         resized_image ← Cv2.resize image (new_width, new_height) (Some INTER_AREA);
         _ ← Cv2.imwrite env output_path resized_image;
         logger INFO ("Resized " +:+ image_path +:+ " to " +:+ str_int new_width +:+ "x"
                      +:+ str_int new_height +:+ ": " +:+ output_path)
     end)
    (fun e =>
       _ ← logger ERROR ("Error resizing image: " +:+ str_exn e);
       raise e).

End WithEnv.
End ImageUtils.

(** ** utils/config.py: settings *)

Module Config.
Import Runtime Os.

(** class Settings: the fields and their defaults. *)
Record Settings := mkSettings {
  API_V1_STR : string;
  PROJECT_NAME : string;
  VERSION : string;
  HOST : string;
  PORT : Z;
  RELOAD : bool;
  BACKEND_CORS_ORIGINS : list string;
  MAX_FILE_SIZE : Z;
  ALLOWED_EXTENSIONS : list string;
  UPLOAD_DIR : string;
  OUTPUT_DIR : string;
  MODEL_PATH : option string;
  DEVICE : string;
  INPUT_SIZE : Z;
  BATCH_SIZE : Z;
  ENABLE_ENHANCEMENT : bool;
  CREATE_COMPARISON : bool;
  SAVE_INTERMEDIATE : bool;
  LOG_LEVEL : string;
  LOG_FORMAT : string;
  SECRET_KEY : string;
  ACCESS_TOKEN_EXPIRE_MINUTES : Z
}.

Definition defaults : Settings :=
  {| API_V1_STR := "/api";
     PROJECT_NAME := "Image Colorization API";
     VERSION := "1.0.0";
     HOST := "0.0.0.0";
     PORT := 8000;
     RELOAD := true;
     BACKEND_CORS_ORIGINS := ["http://localhost:3000"; "http://127.0.0.1:3000"];
     MAX_FILE_SIZE := 10 * 1024 * 1024;
     ALLOWED_EXTENSIONS := [".jpg"; ".jpeg"; ".png"; ".bmp"; ".tiff"];
     UPLOAD_DIR := "uploads";
     OUTPUT_DIR := "outputs";
     MODEL_PATH := None;
     DEVICE := "cpu";
     INPUT_SIZE := 256;
     BATCH_SIZE := 1;
     ENABLE_ENHANCEMENT := true;
     CREATE_COMPARISON := true;
     SAVE_INTERMEDIATE := false;
     LOG_LEVEL := "INFO";
     LOG_FORMAT := "%(asctime)s - %(name)s - %(levelname)s - %(message)s";
     SECRET_KEY := "your-secret-key-here";
     ACCESS_TOKEN_EXPIRE_MINUTES := 30 |}.

(** Attribute assignments on the settings object. *)
Definition set_DEVICE (v : string) (s : Settings) : Settings :=
  mkSettings (API_V1_STR s) (PROJECT_NAME s) (VERSION s) (HOST s) (PORT s) (RELOAD s)
    (BACKEND_CORS_ORIGINS s) (MAX_FILE_SIZE s) (ALLOWED_EXTENSIONS s) (UPLOAD_DIR s)
    (OUTPUT_DIR s) (MODEL_PATH s) v (INPUT_SIZE s) (BATCH_SIZE s) (ENABLE_ENHANCEMENT s)
    (CREATE_COMPARISON s) (SAVE_INTERMEDIATE s) (LOG_LEVEL s) (LOG_FORMAT s) (SECRET_KEY s)
    (ACCESS_TOKEN_EXPIRE_MINUTES s).

Definition set_LOG_LEVEL (v : string) (s : Settings) : Settings :=
  mkSettings (API_V1_STR s) (PROJECT_NAME s) (VERSION s) (HOST s) (PORT s) (RELOAD s)
    (BACKEND_CORS_ORIGINS s) (MAX_FILE_SIZE s) (ALLOWED_EXTENSIONS s) (UPLOAD_DIR s)
    (OUTPUT_DIR s) (MODEL_PATH s) (DEVICE s) (INPUT_SIZE s) (BATCH_SIZE s)
    (ENABLE_ENHANCEMENT s) (CREATE_COMPARISON s) (SAVE_INTERMEDIATE s) v (LOG_FORMAT s)
    (SECRET_KEY s) (ACCESS_TOKEN_EXPIRE_MINUTES s).

Definition set_RELOAD (v : bool) (s : Settings) : Settings :=
  mkSettings (API_V1_STR s) (PROJECT_NAME s) (VERSION s) (HOST s) (PORT s) v
    (BACKEND_CORS_ORIGINS s) (MAX_FILE_SIZE s) (ALLOWED_EXTENSIONS s) (UPLOAD_DIR s)
    (OUTPUT_DIR s) (MODEL_PATH s) (DEVICE s) (INPUT_SIZE s) (BATCH_SIZE s)
    (ENABLE_ENHANCEMENT s) (CREATE_COMPARISON s) (SAVE_INTERMEDIATE s) (LOG_LEVEL s)
    (LOG_FORMAT s) (SECRET_KEY s) (ACCESS_TOKEN_EXPIRE_MINUTES s).

Definition set_SAVE_INTERMEDIATE (v : bool) (s : Settings) : Settings :=
  mkSettings (API_V1_STR s) (PROJECT_NAME s) (VERSION s) (HOST s) (PORT s) (RELOAD s)
    (BACKEND_CORS_ORIGINS s) (MAX_FILE_SIZE s) (ALLOWED_EXTENSIONS s) (UPLOAD_DIR s)
    (OUTPUT_DIR s) (MODEL_PATH s) (DEVICE s) (INPUT_SIZE s) (BATCH_SIZE s)
    (ENABLE_ENHANCEMENT s) (CREATE_COMPARISON s) v (LOG_LEVEL s) (LOG_FORMAT s)
    (SECRET_KEY s) (ACCESS_TOKEN_EXPIRE_MINUTES s).

(** [s.lower()] on ASCII letters. *)
Definition lower_ascii (c : ascii) : ascii :=
  let n := nat_of_ascii c in
  if (65 <=? n)%nat && (n <=? 90)%nat then ascii_of_nat (n + 32) else c.

Fixpoint lower (s : string) : string :=
  match s with
  | EmptyString => EmptyString
  | String c s' => String (lower_ascii c) (lower s')
  end.

(** [os.getenv(key, default)]. *)
Definition getenv (environ : gmap string string) (key dflt : string) : string :=
  default dflt (environ !! key).

(** get_settings(): adjusts the shared settings object in place and returns
    it; the result here is that object after the call. *)
Definition get_settings (environ : gmap string string) (settings : Settings) : Settings :=
  let env := getenv environ "ENVIRONMENT" "development" in
  if String.eqb env "production" then
    let settings :=
      set_DEVICE (if String.eqb (lower (getenv environ "CUDA_AVAILABLE" "false")) "true"
                  then "cuda" else "cpu") settings in
    let settings := set_LOG_LEVEL "WARNING" settings in
    set_RELOAD false settings
  else if String.eqb env "testing" then
    let settings := set_LOG_LEVEL "DEBUG" settings in
    set_SAVE_INTERMEDIATE true settings
  else settings.

(** ensure_directories(): three one-level mkdir(exist_ok=True). *)
Definition ensure_directories (settings : Settings) : Py unit :=
  w ← get;
  match OsMore.mkdir_exist_ok (fs w) (cwd w) (UPLOAD_DIR settings) with
  | None => raise (OSError "mkdir")
  | Some fs1 =>
      _ ← modify (set_fs fs1);
      match OsMore.mkdir_exist_ok fs1 (cwd w) (OUTPUT_DIR settings) with
      | None => raise (OSError "mkdir")
      | Some fs2 =>
          _ ← modify (set_fs fs2);
          match OsMore.mkdir_exist_ok fs2 (cwd w) "logs" with
          | None => raise (OSError "mkdir")
          | Some fs3 => modify (set_fs fs3)
          end
      end
  end.

End Config.

(** ** main.py: the informational endpoints *)

Module MainInfo.
Import Runtime Main.

Record RootResponse := mkRoot { root_message : string; root_version : string;
                                root_status : string }.

Record ModelInfo := mkModelInfo {
  mi_name : string;
  mi_description : string;
  mi_architecture : string;
  mi_input_format : string;
  mi_output_format : string;
  mi_status : string
}.

(** GET /. *)
Definition root : Py RootResponse :=
  mret (mkRoot "Image Colorization API" "1.0.0" "running").

(** GET /api/models. *)
Definition get_models : Py (list ModelInfo) :=
  w ← get;
  mret [mkModelInfo "U-Net Colorizer" "Deep learning model for image colorization"
          "U-Net" "Grayscale images" "Color images"
          (match colorizer w with Some _ => "loaded" | None => "not_loaded" end)].

End MainInfo.

(** ** Sample machines and requests, used to exercise the definitions *)

Module Samples.
Import Runtime Os Main.

(** A machine without GPU and without weights file; every non-empty file
    decodes as a 100x100 image; encoders exist for the extensions the
    settings list as allowed. *)
Definition plain_env : Env :=
  {| cv2_decode := fun data => match data with [] => None | _ => Some (100, 100)%positive end;
     cv2_encode := fun ext img =>
       if bool_decide (ext ∈ [".jpg"; ".jpeg"; ".png"; ".bmp"; ".tiff"])
       then Some [x89; x50] else None;
     cuda_is_available := false;
     cuda_total_memory := 0;
     device_parses := fun name => bool_decide (name ∈ ["cpu"; "cuda"]);
     device_holds := fun name => bool_decide (name = "cpu");
     torch_load := fun path device => Raise (LoadError "No such file or directory");
     state_dict_fits := fun _ => false |}.

(** The same machine with a weights file that reads but does not fit the
    network. *)
Definition stale_weights_env : Env :=
  {| cv2_decode := cv2_decode plain_env;
     cv2_encode := cv2_encode plain_env;
     cuda_is_available := false;
     cuda_total_memory := 0;
     device_parses := device_parses plain_env;
     device_holds := device_holds plain_env;
     torch_load := fun path device => Ok (StateDict [("conv.weight", [3; 3])]);
     state_dict_fits := fun _ => false |}.

(** A machine with a GPU: "cuda" and "cuda:0" name it, the network can be
    moved there. *)
Definition cuda_env : Env :=
  {| cv2_decode := cv2_decode plain_env;
     cv2_encode := cv2_encode plain_env;
     cuda_is_available := true;
     cuda_total_memory := 8 * 1024 ^ 3;
     device_parses := fun name => bool_decide (name ∈ ["cpu"; "cuda"; "cuda:0"]);
     device_holds := fun name => bool_decide (name ∈ ["cpu"; "cuda"; "cuda:0"]);
     torch_load := torch_load plain_env;
     state_dict_fits := fun _ => false |}.

(** The process in its working directory /srv/app, before main.py is
    imported. *)
Definition bare_world : World :=
  {| fs := <[ ["srv"; "app"] := Dir ]> (<[ ["srv"] := Dir ]> ∅);
     cwd := ["srv"; "app"];
     log := []; stdout := []; events := [];
     colorizer := None;
     background_tasks := [] |}.

(** The application once the module has created its two artifact
    directories, before startup and before any request; [colorizer] is
    still None. *)
Definition fresh_world : World := snd (create_directories bare_world).

(** The world after [startup_event] on [plain_env]. *)
Definition started_world : World := snd (startup_event plain_env fresh_world).

(** The started application with one more file next to its directories,
    written by no job. *)
Definition world_with_neighbour : World :=
  set_fs (<[ ["srv"; "app"; "secret_output.jpg"] := File [xff; xd8] ]> (fs started_world))
         started_world.

Definition png_upload : UploadFile :=
  {| filename := "photo.png"; content_type := Some "image/png"; size := 4;
     content := [x89; x50; x4e; x47] |}.

Definition jpg_upload : UploadFile :=
  {| filename := "photo.jpg"; content_type := Some "image/jpeg"; size := 4;
     content := [xff; xd8; xff; xe0] |}.

(** An upload whose name ends in a suffix of 300 characters. *)
Definition long_suffix_upload : UploadFile :=
  {| filename := "photo." +:+ string_of_list_ascii (repeat "j"%char 299);
     content_type := Some "image/jpeg"; size := 4;
     content := [xff; xd8; xff; xe0] |}.

Definition gif_upload : UploadFile :=
  {| filename := "anim.gif"; content_type := Some "image/gif"; size := 4;
     content := [x47; x49; x46; x38] |}.

Definition text_upload : UploadFile :=
  {| filename := "test.txt"; content_type := Some "text/plain"; size := 12;
     content := [x6e; x6f] |}.

Definition job_id : string := "3f2b8c1e-0d4a-4b7e-9c55-1a2b3c4d5e6f".


(** The world once [png_upload] has been submitted under [job_id], its task
    still waiting, and the path of its input artifact. *)
Definition submitted_world : World := snd (colorize_image png_upload job_id started_world).

Definition submitted_input : string :=
  "uploads/3f2b8c1e-0d4a-4b7e-9c55-1a2b3c4d5e6f_input.png".

(** The submitted world on a machine that has a /tmp directory. *)
Definition world_with_tmp : World :=
  set_fs (<[ ["tmp"] := Dir ]> (fs submitted_world)) submitted_world.

(** The Colorizer that startup constructs. *)
Definition started_colorizer : UNetColorizer :=
  mkColorizer "cpu" (UNetModel.UNet_init 1 3 false) InitialWeights.

End Samples.

(** ** Vocabulary of the properties proved below *)

Module Props.
Import Torch UNetModel Runtime Os Main.

(** [lead] and [trail] split [d] evenly, the odd unit going to [trail]. *)
Definition symmetric_trailing (d lead trail : Z) : Prop :=
  lead + trail = d /\
  (Z.even d = true -> trail = lead) /\
  (Z.odd d = true -> trail = lead + 1).

(** What a concatenation record must satisfy: the F.pad argument splits each
    difference evenly with the odd unit last, and the padded tensor has the
    skip tensor's height and width. *)
Definition padded_to_skip (c : CatRecord) : Prop :=
  exists p_left p_right p_top p_bottom,
    cat_pad c = [p_left; p_right; p_top; p_bottom] /\
    symmetric_trailing (dim3 (cat_skip c) - dim3 (cat_upsampled c)) p_left p_right /\
    symmetric_trailing (dim2 (cat_skip c) - dim2 (cat_upsampled c)) p_top p_bottom /\
    dim2 (cat_padded c) = dim2 (cat_skip c) /\
    dim3 (cat_padded c) = dim3 (cat_skip c).

(** The up-sampled tensor is the one that may be smaller, by one row and
    one column at most. *)
Definition upsampled_not_larger (c : CatRecord) : Prop :=
  0 <= dim2 (cat_skip c) - dim2 (cat_upsampled c) <= 1 /\
  0 <= dim3 (cat_skip c) - dim3 (cat_upsampled c) <= 1.

Definition aligned (c : CatRecord) : Prop :=
  padded_to_skip c /\ upsampled_not_larger c.

(** The padding of a concatenation record only appends: every row of a
    plane keeps its values in place and gains the missing column, if any,
    at its end; the missing row, if any, comes after the last row. *)
Definition appends_only (c : CatRecord) : Prop :=
  forall (A : Type) (zero : A) (plane : list (list A)),
    let dx := Z.to_nat (dim3 (cat_skip c) - dim3 (cat_upsampled c)) in
    let dy := Z.to_nat (dim2 (cat_skip c) - dim2 (cat_upsampled c)) in
    let rows := map (fun row => row ++ replicate dx zero) plane in
    let width := match rows with r :: _ => length r | [] => 0%nat end in
    pad_plane zero (cat_pad c) plane = rows ++ replicate dy (replicate width zero).

(** The output artifact of a job, as status and download look for it. *)
Definition artifact_exists (w : World) (file_id : string) : bool :=
  exists_ (fs w) (cwd w) (Py.joinpath "outputs" (file_id +:+ "_output.jpg")).

(** The existence test both handlers make, with its outcome: it raises for
    an id that makes the name of the artifact too long for the file system. *)
Definition artifact_test (w : World) (file_id : string) : result Exn bool :=
  path_exists (fs w) (cwd w) (Py.joinpath "outputs" (file_id +:+ "_output.jpg")).

(** The size ceiling of an upload, 10 MiB. *)
Definition MAX_UPLOAD : Z := 10 * 1024 * 1024.

(** The events one call of clear_memory adds. *)
Definition release_cycle (mo : MemoryConfig.MemoryOptimizer) : list Event :=
  GcCollect :: (if String.eqb (MemoryConfig.mo_device mo) "cuda" then [CudaEmptyCache] else []).

Definition is_model_call (e : Event) : Prop := exists s, e = ModelCall s.

(** [quiet w w']: between the two states only log lines, printed lines and
    compute events were added; files, directories, the held Colorizer and the
    pending tasks are the same. *)
Definition quiet (w w' : World) : Prop :=
  fs w' = fs w /\ cwd w' = cwd w /\ colorizer w' = colorizer w /\
  background_tasks w' = background_tasks w /\
  exists entries, log w' = log w ++ entries.

(** [same_files f f']: the two file systems hold the same regular files
    with the same contents (directories may differ). *)
Definition same_files (f f' : FS) : Prop :=
  forall loc d, f' !! loc = Some (File d) <-> f !! loc = Some (File d).

(** [hushed w w']: as [quiet], except that directories may have been
    created. *)
Definition hushed (w w' : World) : Prop :=
  same_files (fs w) (fs w') /\ cwd w' = cwd w /\ colorizer w' = colorizer w /\
  background_tasks w' = background_tasks w /\
  exists entries, log w' = log w ++ entries.

(** A computation is silent when every run of it is quiet, whatever it
    returns or raises. *)
Definition silent {A} (m : Py A) : Prop :=
  forall w r w', m w = (r, w') -> quiet w w'.

End Props.

(** ** Vocabulary of the further properties *)

Module PropsMore.
Import Torch UNetModel Runtime Os Main.

(** The record of the concatenation at a stage whose skip tensor has [ch]
    channels and size [h] x [w]: the up-sampled tensor has the same channel
    count and twice the halved size. *)
Definition stage_cat (n ch h w : Z) : CatRecord :=
  let s := mkSize n ch h w in
  let u := mkSize n ch (h / 2 * 2) (w / 2 * 2) in
  mkCat s u (Up_padding u s) s.

(** A string without path separator. *)
Definition no_slash (s : string) : Prop := ~ In "/"%char (list_ascii_of_string s).

(** A name a directory entry can have: no NUL in it and at most NAME_MAX
    bytes. *)
Definition name_fits (n : string) : bool := negb (has_nul n) && (Py.len n <=? NAME_MAX).


(** The array save_image hands to cv2.imwrite: a three-channel image is
    converted from RGB to BGR first, anything else goes as it is. *)
Definition as_written (image_array : NdArray) : NdArray :=
  match shape image_array with
  | [_; _; c] => if c =? 3 then Cv2.cvtColor image_array COLOR_RGB2BGR else image_array
  | _ => image_array
  end.

(** The two artifact paths colorize_image derives from the job id and the
    uploaded file's name. *)
Definition input_artifact (file_id filename : string) : string :=
  Py.joinpath "uploads" (file_id +:+ "_input" +:+ Py.suffix filename).

Definition output_artifact (file_id filename : string) : string :=
  Py.joinpath "outputs" (file_id +:+ "_output" +:+ Py.suffix filename).

(** [steady w w']: the working directory, the held Colorizer and the pending
    tasks are the same, and the log has only grown; files may have changed. *)
Definition steady (w w' : World) : Prop :=
  cwd w' = cwd w /\ colorizer w' = colorizer w /\
  background_tasks w' = background_tasks w /\
  exists entries, log w' = log w ++ entries.

(** A computation keeps the service state when every run of it is steady. *)
Definition keeps_service {A} (m : Py A) : Prop :=
  forall w r w', m w = (r, w') -> steady w w'.

(** The log lines one run of process_colorization leaves for a job: its
    "Starting" line first, and last either its "completed" line or the ERROR
    line of its handler. *)
Definition job_block (file_id : string) (block : list LogRecord) : Prop :=
  exists middle closing,
    block = mkLog INFO ("Starting colorization for file " +:+ file_id)
              :: middle ++ [closing] /\
    (closing = mkLog INFO ("Colorization completed for file " +:+ file_id) \/
     exists e, closing = mkLog ERROR ("Error in background colorization for " +:+ file_id
                                      +:+ ": " +:+ str_exn e)).

(** The state after process_colorization has been run on each task in
    turn, whatever each run returned. *)
Definition run_in_turn (env : Env) (ts : list Task) (w : World) : World :=
  fold_left (fun w t => snd (process_colorization env (task_input t) (task_output t)
                               (task_file_id t) w)) ts w.

(** Where [ColorizerPil.temp_path] lands in the file system. *)
Definition temp_loc : list string := ["tmp"; "temp_image.jpg"].

End PropsMore.

(** * Properties *)

(** Unfold the plumbing of [Py] computations. *)
Ltac py_unfold :=
  unfold Runtime.logger, Runtime.print, Runtime.emit in *;
  unfold mbind, mret, py_bind, py_ret, Runtime.bind, Runtime.ret, Runtime.raise,
    Runtime.try_except, Runtime.get, Runtime.modify in *.

(** ** The network: sizes along the forward pass *)

Section NetworkShapes.
Import Torch UNetModel Props.


Lemma halves_symmetric_trailing (d : Z) : symmetric_trailing d (d / 2) (d - d / 2).
Proof.
  unfold symmetric_trailing. split; [lia|]. split; intros H.
  - apply Z.even_spec in H. destruct H as [k ->].
    lia.
  - apply Z.odd_spec in H. destruct H as [k ->].
    lia.
Qed.

(** Settle the comparisons of a size computation by arithmetic. *)
Ltac settle_tests :=
  repeat match goal with
  | |- context [?a =? ?a] => rewrite (Z.eqb_refl a)
  | |- context [?a <? ?b] =>
      first [ rewrite (proj2 (Z.ltb_lt a b)) by lia
            | rewrite (proj2 (Z.ltb_ge a b)) by lia ]
  | |- context [?a <=? ?b] =>
      first [ rewrite (proj2 (Z.leb_le a b)) by lia
            | rewrite (proj2 (Z.leb_gt a b)) by lia ]
  | |- context [?a =? ?b] =>
      first [ rewrite (proj2 (Z.eqb_eq a b)) by lia
            | rewrite (proj2 (Z.eqb_neq a b)) by lia ]
  end.

Lemma bind_ret {A B} (a : A) (f : A -> M B) : (Torch.ret a ≫= f) = f a.
Proof. unfold mbind, torch_bind, Torch.bind, Torch.ret. destruct (f a). reflexivity. Qed.

Lemma bind_raise {A B} (e : Error) (f : A -> M B) :
  (Torch.raise e ≫= f) = Torch.raise e.
Proof. reflexivity. Qed.

Lemma bind_tell {B} (c : CatRecord) (f : unit -> M B) :
  (tell c ≫= f) = (c :: cats (f tt), value (f tt)).
Proof. unfold mbind, torch_bind, Torch.bind, tell, cats, value. destruct (f tt). reflexivity. Qed.

Ltac torch_steps :=
  repeat first
    [ progress settle_tests
    | progress cbn [negb orb andb dim0 dim1 dim2 dim3]
    | rewrite bind_ret
    | rewrite bind_raise ].

Lemma DoubleConv_forward_spec (self : DoubleConv) (x : Size) :
  DoubleConv_forward self x =
    if dim1 x =? dc_in self then
      if (1 <=? dim2 x) && (1 <=? dim3 x)
      then Torch.ret (mkSize (dim0 x) (dc_out self) (dim2 x) (dim3 x))
      else Torch.raise KernelTooLarge
    else Torch.raise (ChannelMismatch (dc_in self) (dim1 x)).
Proof.
  unfold DoubleConv_forward, Conv2d, BatchNorm2d, ReLU.
  destruct (dim1 x =? dc_in self) eqn:Hc; cbn [negb]; [|reflexivity].
  destruct (Z.leb_spec 1 (dim2 x)), (Z.leb_spec 1 (dim3 x)); torch_steps;
    rewrite ?orb_true_r; torch_steps; try reflexivity.
  unfold Torch.ret. do 2 f_equal. f_equal; lia.
Qed.

Lemma Down_forward_spec (self : Down) (x : Size) :
  Down_forward self x =
    if (2 <=? dim2 x) && (2 <=? dim3 x) then
      if dim1 x =? dc_in (down_conv self)
      then Torch.ret (mkSize (dim0 x) (dc_out (down_conv self)) (dim2 x / 2) (dim3 x / 2))
      else Torch.raise (ChannelMismatch (dc_in (down_conv self)) (dim1 x))
    else Torch.raise OutputTooSmall.
Proof.
  unfold Down_forward, MaxPool2d.
  destruct (Z.leb_spec 2 (dim2 x)), (Z.leb_spec 2 (dim3 x)); torch_steps;
    rewrite ?orb_true_r; torch_steps; try reflexivity.
  rewrite DoubleConv_forward_spec. cbn [dim0 dim1 dim2 dim3].
  destruct (dim1 x =? dc_in (down_conv self)); [|reflexivity].
  torch_steps. unfold Torch.ret. do 2 f_equal. f_equal; lia.
Qed.

(** Up.forward once the up-sampling layer accepted its input: the padded
    tensor always has the skip tensor's height and width. *)
Lemma Up_forward_spec (self : Up) (x1 x2 u : Size) :
  UpLayer_forward (up_up self) x1 = Torch.ret u ->
  dim0 u = dim0 x2 -> 0 <= dim2 x2 -> 0 <= dim3 x2 ->
  Up_forward self x1 x2 =
    (tell (mkCat x2 u (Up_padding u x2) (mkSize (dim0 u) (dim1 u) (dim2 x2) (dim3 x2))) ≫=
       fun _ => DoubleConv_forward (up_conv self)
                  (mkSize (dim0 x2) (dim1 x2 + dim1 u) (dim2 x2) (dim3 x2))).
Proof.
  intros Hu Hn Hh Hw. unfold Up_forward. rewrite Hu, bind_ret.
  unfold pad, Up_padding. torch_steps.
  replace (dim2 u + (dim2 x2 - dim2 u) / 2 + (dim2 x2 - dim2 u - (dim2 x2 - dim2 u) / 2))
    with (dim2 x2) by lia.
  replace (dim3 u + (dim3 x2 - dim3 u) / 2 + (dim3 x2 - dim3 u - (dim3 x2 - dim3 u) / 2))
    with (dim3 x2) by lia.
  f_equal. unfold cat1. cbn [dim0 dim1 dim2 dim3]. rewrite Hn. torch_steps. reflexivity.
Qed.

Lemma cats_bind {A B} (m : M A) (f : A -> M B) :
  cats (m ≫= f) =
    cats m ++ match value m with Ok a => cats (f a) | Raise _ => [] end.
Proof.
  destruct m as [l [a|e]]; unfold mbind, torch_bind, Torch.bind, cats, value; simpl.
  - destruct (f a). reflexivity.
  - symmetry. apply app_nil_r.
Qed.

Lemma cats_DoubleConv_forward (self : DoubleConv) (x : Size) :
  cats (DoubleConv_forward self x) = [].
Proof.
  rewrite DoubleConv_forward_spec.
  destruct (dim1 x =? dc_in self), ((1 <=? dim2 x) && (1 <=? dim3 x)); reflexivity.
Qed.

(** Up.forward on its own, for any layer and any two tensors: whenever it
    reaches the concatenation, the first tensor has been padded (or cropped,
    when it was the larger one) to the second tensor's height and width, the
    odd unit of each difference going to the trailing side. *)
Lemma Up_forward_pads_to_skip (self : Up) (x1 x2 : Size) :
  Forall padded_to_skip (cats (Up_forward self x1 x2)).
Proof.
  unfold Up_forward. rewrite cats_bind.
  assert (cats (UpLayer_forward (up_up self) x1) = []) as ->.
  { destruct (up_up self); unfold UpLayer_forward, Upsample, ConvTranspose2d; [reflexivity|].
    destruct (negb _); reflexivity. }
  destruct (value (UpLayer_forward (up_up self) x1)) as [u|e]; [|constructor].
  cbn [app]. rewrite cats_bind.
  unfold pad at 1 2, Up_padding at 1 2.
  destruct (_ || _); [constructor|].
  cbn [cats value Torch.ret fst snd app]. rewrite cats_bind.
  cbn [tell cats value fst snd app]. constructor.
  - exists ((dim3 x2 - dim3 u) / 2), (dim3 x2 - dim3 u - (dim3 x2 - dim3 u) / 2),
      ((dim2 x2 - dim2 u) / 2), (dim2 x2 - dim2 u - (dim2 x2 - dim2 u) / 2).
    cbn [cat_pad cat_skip cat_upsampled cat_padded dim2 dim3].
    split; [reflexivity|]. split; [apply halves_symmetric_trailing|].
    split; [apply halves_symmetric_trailing|]. lia.
  - rewrite cats_bind. unfold cat1.
    destruct (_ && _); cbn [cats value Torch.ret Torch.raise fst snd app]; [|constructor].
    rewrite cats_DoubleConv_forward. constructor.
Qed.

Lemma aligned_intro (x2 u : Size) :
  0 <= dim2 x2 - dim2 u <= 1 -> 0 <= dim3 x2 - dim3 u <= 1 ->
  aligned (mkCat x2 u (Up_padding u x2) (mkSize (dim0 u) (dim1 u) (dim2 x2) (dim3 x2))).
Proof.
  intros Hh Hw. split; [|split; assumption].
  exists ((dim3 x2 - dim3 u) / 2), (dim3 x2 - dim3 u - (dim3 x2 - dim3 u) / 2),
    ((dim2 x2 - dim2 u) / 2), (dim2 x2 - dim2 u - (dim2 x2 - dim2 u) / 2).
  cbn [cat_pad cat_skip cat_upsampled cat_padded dim2 dim3].
  split; [reflexivity|]. split; [apply halves_symmetric_trailing|].
  split; [apply halves_symmetric_trailing|]. split; reflexivity.
Qed.

Lemma pad_axis_trailing {A} (zero : A) (d : Z) (l : list A) :
  0 <= d -> pad_axis zero 0 d l = l ++ replicate (Z.to_nat d) zero.
Proof.
  intros Hd. unfold pad_axis. cbn [Z.ltb Z.compare Z.to_nat replicate app].
  destruct (Z.ltb_spec d 0); [lia | reflexivity].
Qed.

Lemma aligned_appends_only (c : CatRecord) : aligned c -> appends_only c.
Proof.
  intros [(pl & pr & pt & pb & Hp & (Hx1 & Hx2 & Hx3) & (Hy1 & Hy2 & Hy3) & _) [Hh Hw]].
  intros A zero plane. cbv zeta. rewrite Hp.
  assert (pl = 0 /\ pr = dim3 (cat_skip c) - dim3 (cat_upsampled c)) as [-> ->].
  { assert (dim3 (cat_skip c) - dim3 (cat_upsampled c) = 0 \/
            dim3 (cat_skip c) - dim3 (cat_upsampled c) = 1) as [E|E] by lia;
      rewrite E in *; [specialize (Hx2 eq_refl) | specialize (Hx3 eq_refl)]; lia. }
  assert (pt = 0 /\ pb = dim2 (cat_skip c) - dim2 (cat_upsampled c)) as [-> ->].
  { assert (dim2 (cat_skip c) - dim2 (cat_upsampled c) = 0 \/
            dim2 (cat_skip c) - dim2 (cat_upsampled c) = 1) as [E|E] by lia;
      rewrite E in *; [specialize (Hy2 eq_refl) | specialize (Hy3 eq_refl)]; lia. }
  unfold pad_plane.
  rewrite (map_ext _ (fun row => row ++ replicate
             (Z.to_nat (dim3 (cat_skip c) - dim3 (cat_upsampled c))) zero))
    by (intros row; apply pad_axis_trailing; lia).
  apply pad_axis_trailing. lia.
Qed.

Lemma Up_forward_ok (self : Up) (x1 x2 u : Size) :
  UpLayer_forward (up_up self) x1 = Torch.ret u ->
  dim0 u = dim0 x2 -> 1 <= dim2 x2 -> 1 <= dim3 x2 ->
  dim1 x2 + dim1 u = dc_in (up_conv self) ->
  Up_forward self x1 x2 =
    ([mkCat x2 u (Up_padding u x2) (mkSize (dim0 u) (dim1 u) (dim2 x2) (dim3 x2))],
     Ok (mkSize (dim0 x2) (dc_out (up_conv self)) (dim2 x2) (dim3 x2))).
Proof.
  intros Hu Hn Hh Hw Hc. rewrite (Up_forward_spec self x1 x2 u) by (assumption || lia).
  rewrite bind_tell, DoubleConv_forward_spec. cbn [dim0 dim1 dim2 dim3].
  rewrite Hc. torch_steps. reflexivity.
Qed.

Lemma bind_logged {A B} (l : list CatRecord) (a : A) (f : A -> M B) :
  ((l, Ok a) ≫= f) = (l ++ cats (f a), value (f a)).
Proof. unfold mbind, torch_bind, Torch.bind, cats, value. destruct (f a). reflexivity. Qed.

Ltac encoder_fails :=
  cbn [cats value Torch.raise fst snd];
  split; [constructor | split; [discriminate | intros; exfalso; lia]].

Ltac down_stage :=
  rewrite Down_forward_spec;
  cbn [Down_init DoubleConv_init down_conv dc_in dc_mid dc_out dim0 dim1 dim2 dim3];
  match goal with
  | |- context [(2 <=? ?h) && (2 <=? ?w)] =>
      destruct (Z.leb_spec 2 h), (Z.leb_spec 2 w); cbn [andb];
      rewrite ?bind_raise; try encoder_fails
  end;
  rewrite Z.eqb_refl, bind_ret.

Ltac up_stage :=
  erewrite Up_forward_ok;
  [ | cbn [Up_init up_up UpLayer_forward]; unfold ConvTranspose2d, Upsample;
      cbn [dim0 dim1 dim2 dim3 negb Z.eqb Pos.eqb]; reflexivity
    | reflexivity | cbn [dim2]; lia | cbn [dim3]; lia | reflexivity ];
  cbn [Up_init up_conv DoubleConv_init dc_in dc_mid dc_out dim0 dim1 dim2 dim3].

Ltac decoder_runs :=
  up_stage; rewrite bind_logged; up_stage; rewrite bind_logged;
  up_stage; rewrite bind_logged; up_stage; rewrite bind_logged;
  unfold OutConv_forward, Conv2d; cbn [oc_in oc_out]; torch_steps;
  cbn [cats value fst snd Torch.ret app];
  split; [ repeat (apply List.Forall_cons; [apply aligned_intro; cbn [dim2 dim3]; lia|]);
           apply List.Forall_nil
         | split; [ discriminate
                  | intros; split; [ do 2 f_equal; lia | reflexivity ] ] ].

(** C4. In every upsampling stage of the network, the up-sampled tensor is
    never larger than its skip-connection partner and short of it by one row
    and one column at most; F.pad brings it to the partner's height and
    width, splitting each difference evenly with the odd row or column on the
    trailing edge, so that the values stay in place and the extra column and
    row are appended. No concatenation of the forward pass meets a size
    mismatch, whatever the input's height and width, and an input of at least
    16x16 (a multiple of 16 or not) goes through all four concatenations and
    comes out with its own height and width. *)
Theorem UNet_forward_concatenations_aligned (nc ncl : Z) (bil : bool) (x : Size) :
  let run := UNet_forward (UNet_init nc ncl bil) x in
  Forall aligned (cats run) /\
  Forall appends_only (cats run) /\
  (forall a b, value run <> Raise (CatSizeMismatch a b)) /\
  (dim1 x = nc -> 16 <= dim2 x -> 16 <= dim3 x ->
     value run = Ok (mkSize (dim0 x) ncl (dim2 x) (dim3 x)) /\ length (cats run) = 4%nat).
Proof.
  intros run.
  enough (Forall aligned (cats run) /\
          (forall a b, value run <> Raise (CatSizeMismatch a b)) /\
          (dim1 x = nc -> 16 <= dim2 x -> 16 <= dim3 x ->
           value run = Ok (mkSize (dim0 x) ncl (dim2 x) (dim3 x)) /\
           length (cats run) = 4%nat)) as (Hal & Hrest).
  { split; [exact Hal|]. split; [|exact Hrest].
    eapply List.Forall_impl; [|exact Hal]. exact aligned_appends_only. }
  subst run. unfold UNet_forward.
  cbn [UNet_init inc down1 down2 down3 down4 up1 up2 up3 up4 outc].
  rewrite DoubleConv_forward_spec. cbn [DoubleConv_init dc_in dc_mid dc_out].
  destruct (Z.eqb_spec (dim1 x) nc); [|rewrite bind_raise; encoder_fails].
  destruct (Z.leb_spec 1 (dim2 x)), (Z.leb_spec 1 (dim3 x)); cbn [andb];
    rewrite ?bind_raise; try encoder_fails.
  rewrite bind_ret.
  do 4 down_stage.
  (* the halved sizes enter the rest of the run only through their bounds *)
  set (h1 := dim2 x / 2) in *. set (h2 := h1 / 2) in *. set (h3 := h2 / 2) in *.
  set (w1 := dim3 x / 2) in *. set (w2 := w1 / 2) in *. set (w3 := w2 / 2) in *.
  assert (Eh1 : h1 * 2 <= dim2 x <= h1 * 2 + 1) by (subst h1; lia).
  assert (Eh2 : h2 * 2 <= h1 <= h2 * 2 + 1) by (subst h2; lia).
  assert (Eh3 : h3 * 2 <= h2 <= h3 * 2 + 1) by (subst h3; lia).
  assert (Ew1 : w1 * 2 <= dim3 x <= w1 * 2 + 1) by (subst w1; lia).
  assert (Ew2 : w2 * 2 <= w1 <= w2 * 2 + 1) by (subst w2; lia).
  assert (Ew3 : w3 * 2 <= w2 <= w3 * 2 + 1) by (subst w3; lia).
  clearbody h3 w3. clearbody h2 w2. clearbody h1 w1.
  change (128 / 2) with 64. change (256 / 2) with 128.
  change (512 / 2) with 256. change (1024 / 2) with 512.
  destruct bil.
  - change (1024 / 2) with 512. change (512 / 2) with 256. change (256 / 2) with 128.
    change (128 / 2) with 64. decoder_runs.
  - change (1024 / 1) with 1024. change (512 / 1) with 512. change (256 / 1) with 256.
    change (128 / 1) with 128. decoder_runs.
Qed.

Lemma UNet_forward_concatenations_aligned_witness :
  let run := UNet_forward (UNet_init 1 3 false) (mkSize 1 1 101 75) in
  Forall aligned (cats run) /\
  value run = Ok (mkSize 1 3 101 75) /\ length (cats run) = 4%nat.
Proof.
  pose proof (UNet_forward_concatenations_aligned 1 3 false (mkSize 1 1 101 75)) as H.
  cbv zeta in H. destruct H as (Hal & _ & _ & Hok).
  split; [exact Hal|]. apply Hok; cbn; lia.
Defined.
End NetworkShapes.

(** ** The tensor codec and the Colorizer *)

Section Codec.
Import Torch UNetModel Runtime Os Colorizer Props.


(** A sequence that returned: its first call returned, and so did the rest. *)
Lemma py_bind_ok_inv {A B} (m : Py A) (f : A -> Py B) (w w' : World) (b : B) :
  (m ≫= f) w = (Ok b, w') -> exists a w1, m w = (Ok a, w1) /\ f a w1 = (Ok b, w').
Proof.
  py_unfold. destruct (m w) as [[a|e] w1]; [|discriminate].
  intros H. exists a, w1. split; [reflexivity | exact H].
Qed.

(** Every Colorizer that construction returns holds UNet(1, 3, bilinear=False). *)
Lemma init_model (env : Env) (model_path : option string) (dev : string)
    (w w' : World) (c : UNetColorizer) :
  init env model_path dev w = (Ok c, w') -> model c = UNet_init 1 3 false.
Proof.
  unfold init. intros H.
  apply py_bind_ok_inv in H. destruct H as (d & w1 & _ & H).
  apply py_bind_ok_inv in H. destruct H as (wts & w2 & _ & H).
  apply py_bind_ok_inv in H. destruct H as (u & w3 & _ & H).
  apply py_bind_ok_inv in H. destruct H as (u' & w4 & _ & H).
  injection H as <- _. reflexivity.
Qed.

(** What cv2.imread hands back for a file that decodes. *)
Lemma imread_grayscale_spec (env : Env) (path : string) (w : World) :
  Cv2.imread env path IMREAD_GRAYSCALE w =
    (Ok match read_file (fs w) (cwd w) path with
        | Some data =>
            match cv2_decode env data with
            | Some (h, wd) => Some (mkArray [Z.pos h; Z.pos wd] uint8
                                            (Decoded IMREAD_GRAYSCALE data))
            | None => None
            end
        | None => None
        end, w).
Proof. reflexivity. Qed.

(** The network on the tensor the codec produces. *)
Lemma forward_256 :
  value (UNet_forward (UNet_init 1 3 false) (mkSize 1 1 256 256)) = Ok (mkSize 1 3 256 256).
Proof. vm_compute. reflexivity. Qed.

(** preprocess_image, step by step. *)
Lemma preprocess_image_spec (env : Env) (self : UNetColorizer) (path : string) (w : World) :
  preprocess_image env self path w =
    (match read_file (fs w) (cwd w) path with
     | Some data =>
         match cv2_decode env data with
         | Some _ =>
             Ok (mkArray [1; 1; 256; 256] float32
                   (TrueDiv (AsType float32
                               (Resized INTER_LINEAR (256, 256)
                                        (Decoded IMREAD_GRAYSCALE data))) 255))
         | None => Raise (ValueError ("Could not load image from " +:+ path))
         end
     | None => Raise (ValueError ("Could not load image from " +:+ path))
     end, w).
Proof.
  unfold preprocess_image. py_unfold. rewrite imread_grayscale_spec.
  destruct (read_file (fs w) (cwd w) path) as [data|]; [|reflexivity].
  destruct (cv2_decode env data) as [[h wd]|]; reflexivity.
Qed.

(** colorize on a file that decodes, and on one that does not. *)
Lemma colorize_spec (env : Env) (self : UNetColorizer) (path : string) (w : World) :
  model self = UNet_init 1 3 false ->
  colorize env self path w =
    match fst (preprocess_image env self path w) with
    | Ok t =>
        (Ok (mkArray [256; 256; 3] uint8
               (AsType uint8
                  (Clip 0 255
                     (MulScalar
                        (AddScalar (Transposed [1; 2; 0]%nat (Network (weights self) (pixels t))) 1)
                        (255 # 2))))),
         add_event (ModelCall [1; 1; 256; 256]) w)
    | Raise e => (Raise e, w)
    end.
Proof.
  intros Hm. unfold colorize. py_unfold. rewrite preprocess_image_spec.
  destruct (read_file (fs w) (cwd w) path) as [data|]; [|reflexivity].
  destruct (cv2_decode env data) as [[h wd]|]; [|reflexivity].
  cbn [fst]. unfold call_model. py_unfold. cbn [shape]. rewrite Hm, forward_256.
  reflexivity.
Qed.

(** C5. For every Colorizer that construction returned and every file that
    cv2.imread can read as an image, whatever its height and width, colorize
    returns an array of shape 256 x 256 x 3 with 8-bit unsigned elements. *)
Theorem colorize_output_shape
    (env : Env) (model_path : option string) (dev : string) (w0 w0' : World)
    (self : UNetColorizer) (path : string) (w : World) (img : NdArray) :
  init env model_path dev w0 = (Ok self, w0') ->
  fst (Cv2.imread env path IMREAD_GRAYSCALE w) = Ok (Some img) ->
  exists out w',
    colorize env self path w = (Ok out, w') /\
    shape out = [256; 256; 3] /\ dtype out = uint8 /\
    fs w' = fs w.
Proof.
  intros Hinit Hread. apply init_model in Hinit.
  rewrite (colorize_spec env self path w Hinit), preprocess_image_spec.
  rewrite imread_grayscale_spec in Hread. cbn [fst] in Hread.
  destruct (read_file (fs w) (cwd w) path) as [data|]; [|discriminate].
  destruct (cv2_decode env data) as [[h wd]|]; [|discriminate].
  cbn [fst]. eexists _, _. split; [reflexivity|]. repeat split.
Qed.

Lemma colorize_output_shape_witness :
  exists out w',
    colorize Samples.plain_env Samples.started_colorizer Samples.submitted_input
      Samples.submitted_world = (Ok out, w') /\
    shape out = [256; 256; 3] /\ dtype out = uint8.
Proof.
  destruct (colorize_output_shape Samples.plain_env None "cpu" Samples.fresh_world
              (add_log (mkLog INFO "U-Net model initialized on device: cpu") Samples.fresh_world)
              Samples.started_colorizer Samples.submitted_input Samples.submitted_world
              (mkArray [100; 100] uint8 (Decoded IMREAD_GRAYSCALE [x89; x50; x4e; x47])))
    as (out & w' & Hc & Hs & Hd & _).
  - vm_compute. reflexivity.
  - vm_compute. reflexivity.
  - exists out, w'. repeat split; assumption.
Defined.

(** C6 as the specification words it fails: on the submitted sample image,
    preprocess_image and the specification's decode disagree, the first
    resampling bilinearly (cv2.resize left at its default) where the second
    asks for area interpolation. *)
Lemma preprocess_image_is_not_area_resampled :
  fst (preprocess_image Samples.plain_env Samples.started_colorizer Samples.submitted_input
         Samples.submitted_world)
    = Ok (mkArray [1; 1; 256; 256] float32
            (TrueDiv (AsType float32
                        (Resized INTER_LINEAR (256, 256)
                                 (Decoded IMREAD_GRAYSCALE [x89; x50; x4e; x47]))) 255)) /\
  fst (preprocess_image Samples.plain_env Samples.started_colorizer Samples.submitted_input
         Samples.submitted_world)
    <> fst (SpecWording.decode Samples.plain_env Samples.submitted_input
              Samples.submitted_world).
Proof. split; vm_compute; [reflexivity | discriminate]. Qed.

(** C6 (amended). preprocess_image reads the file as single-channel
    grayscale, resizes it to 256 x 256 with cv2.resize's default bilinear
    interpolation, converts to float32 and divides by 255 (which takes the
    8-bit range [0,255] into [0,1]), and adds the batch and channel
    dimensions, giving shape [1,1,256,256]; it raises ValueError, and changes
    nothing, when the file cannot be read or decoded. It differs from the
    specification's decode in the interpolation only. *)
Theorem preprocess_image_steps
    (env : Env) (self : UNetColorizer) (path : string) (w : World) :
  preprocess_image env self path w =
    (match read_file (fs w) (cwd w) path with
     | Some data =>
         match cv2_decode env data with
         | Some _ =>
             Ok (mkArray [1; 1; 256; 256] float32
                   (TrueDiv (AsType float32
                               (Resized INTER_LINEAR (256, 256)
                                        (Decoded IMREAD_GRAYSCALE data))) 255))
         | None => Raise (ValueError ("Could not load image from " +:+ path))
         end
     | None => Raise (ValueError ("Could not load image from " +:+ path))
     end, w) /\
  (forall v : Q, (0 <= v <= 255 -> 0 <= truediv_value v 255 <= 1)%Q) /\
  (is_ok (fst (preprocess_image env self path w))
     = is_ok (fst (SpecWording.decode env path w))) /\
  (forall t, fst (SpecWording.decode env path w) = Ok t ->
     exists p, pixels t = TrueDiv (AsType float32 (Resized INTER_AREA (256, 256) p)) 255 /\
               fst (preprocess_image env self path w) =
                 Ok (mkArray (shape t) (dtype t)
                       (TrueDiv (AsType float32 (Resized INTER_LINEAR (256, 256) p)) 255))).
Proof.
  split; [apply preprocess_image_spec|]. split.
  { intros v [H0 H255]. unfold truediv_value. split.
    - apply Qle_shift_div_l; [reflexivity|]. rewrite Qmult_0_l. exact H0.
    - apply Qle_shift_div_r; [reflexivity|]. rewrite Qmult_1_l. exact H255. }
  rewrite preprocess_image_spec. unfold SpecWording.decode. py_unfold.
  rewrite imread_grayscale_spec.
  destruct (read_file (fs w) (cwd w) path) as [data|]; [|split; [reflexivity|discriminate]].
  destruct (cv2_decode env data) as [[h wd]|]; [|split; [reflexivity|discriminate]].
  split; [reflexivity|]. cbn. intros t [= <-]. eexists. split; reflexivity.
Qed.

Lemma preprocess_image_steps_witness :
  fst (preprocess_image Samples.plain_env Samples.started_colorizer Samples.submitted_input
         Samples.submitted_world)
    = Ok (mkArray [1; 1; 256; 256] float32
            (TrueDiv (AsType float32
                        (Resized INTER_LINEAR (256, 256)
                                 (Decoded IMREAD_GRAYSCALE [x89; x50; x4e; x47]))) 255)) /\
  (0 <= truediv_value 128 255 <= 1)%Q.
Proof.
  destruct (preprocess_image_steps Samples.plain_env Samples.started_colorizer
              Samples.submitted_input Samples.submitted_world) as (Hrun & Hrange & _).
  split.
  - rewrite Hrun. vm_compute. reflexivity.
  - apply Hrange. split; discriminate.
Defined.

(** *** Memory release around inference *)


(** C9 as the specification words it fails: colorizing the submitted sample
    image runs the network once and releases no memory, before or after. *)
Lemma colorize_runs_no_release_cycle :
  is_ok (fst (colorize Samples.plain_env Samples.started_colorizer Samples.submitted_input
                Samples.submitted_world)) = true /\
  events Samples.submitted_world = [] /\
  events (snd (colorize Samples.plain_env Samples.started_colorizer Samples.submitted_input
                 Samples.submitted_world)) = [ModelCall [1; 1; 256; 256]] /\
  ~ In GcCollect
      (events (snd (colorize Samples.plain_env Samples.started_colorizer
                      Samples.submitted_input Samples.submitted_world))) /\
  ~ In CudaEmptyCache
      (events (snd (colorize Samples.plain_env Samples.started_colorizer
                      Samples.submitted_input Samples.submitted_world))).
Proof.
  repeat split; try (vm_compute; reflexivity);
    vm_compute; intros [H|[]]; discriminate H.
Qed.

Lemma clear_memory_spec (mo : MemoryConfig.MemoryOptimizer) (w : World) :
  MemoryConfig.clear_memory mo w =
    (Ok tt, mkWorld (fs w) (cwd w) (log w) (stdout w) (events w ++ release_cycle mo)
                    (colorizer w) (background_tasks w)).
Proof.
  unfold MemoryConfig.clear_memory, release_cycle. py_unfold.
  destruct (String.eqb _ _); cbn; unfold add_event; cbn; rewrite <- ?app_assoc; reflexivity.
Qed.

Lemma call_model_spec (self : UNetColorizer) (x : NdArray) :
  exists r, forall w0, call_model self x w0 = (r, add_event (ModelCall (shape x)) w0).
Proof.
  unfold call_model. py_unfold.
  destruct (shape x) as [|n [|c [|h [|wd [|]]]]]; try (eexists; intros; reflexivity).
  destruct (value _); eexists; intros; reflexivity.
Qed.

(** C9 (amended). colorize itself releases no memory: the only event it
    adds is the network call. The memory optimizer's
    process_image_optimized, which colorize and the service do not call, runs
    clear_memory (garbage collection, and the device cache clear on cuda
    only) immediately before the model call and, when that call returns,
    immediately after it; it hands back the model's output as it is, or None
    when the call raised, and changes no file. *)
Theorem release_cycle_brackets_model_call
    (env : Env) (mo : MemoryConfig.MemoryOptimizer) (self : UNetColorizer)
    (image_tensor : NdArray) (path : string) (w : World) :
  let t := if ndim image_tensor =? 3 then unsqueeze0 image_tensor else image_tensor in
  let run := MemoryConfig.process_image_optimized mo (call_model self) image_tensor w in
  (exists evs, events (snd (colorize env self path w)) = events w ++ evs /\
               Forall is_model_call evs) /\
  match fst (call_model self t w) with
  | Ok out =>
      fst run = Ok (Some out) /\
      events (snd run) =
        events w ++ release_cycle mo ++ [ModelCall (shape t)] ++ release_cycle mo
  | Raise e =>
      fst run = Ok None /\
      events (snd run) = events w ++ release_cycle mo ++ [ModelCall (shape t)]
  end /\
  fs (snd run) = fs w.
Proof.
  intros t run. split.
  { unfold colorize. py_unfold. rewrite preprocess_image_spec.
    destruct (read_file (fs w) (cwd w) path) as [data|];
      [|exists []; split; [cbn; rewrite app_nil_r; reflexivity | constructor]].
    destruct (cv2_decode env data) as [[h wd]|];
      [|exists []; split; [cbn; rewrite app_nil_r; reflexivity | constructor]].
    destruct (call_model_spec self
                (mkArray [1; 1; 256; 256] float32
                   (TrueDiv (AsType float32
                      (Resized INTER_LINEAR (256, 256) (Decoded IMREAD_GRAYSCALE data))) 255)))
      as [r Hr].
    rewrite Hr. exists [ModelCall [1; 1; 256; 256]].
    split; [|repeat constructor; eexists; reflexivity].
    destruct r as [out|e]; [|reflexivity].
    unfold postprocess_output, np_transpose. py_unfold.
    destruct (negb _); [reflexivity|]. reflexivity. }
  subst run. unfold MemoryConfig.process_image_optimized. py_unfold.
  rewrite clear_memory_spec. fold t.
  destruct (call_model_spec self t) as [r Hr]. rewrite !Hr. cbn [fst].
  destruct r as [out|e].
  - rewrite clear_memory_spec. cbn. rewrite <- !app_assoc. repeat split.
  - cbn. rewrite <- !app_assoc. repeat split.
Qed.

Lemma release_cycle_brackets_model_call_witness :
  let t := mkArray [1; 1; 256; 256] float32 (Decoded IMREAD_GRAYSCALE []) in
  let run := MemoryConfig.process_image_optimized (MemoryConfig.mkOptimizer "cuda")
               (call_model Samples.started_colorizer) t Samples.started_world in
  is_ok (fst run) = true /\
  events (snd run) =
    [GcCollect; CudaEmptyCache; ModelCall [1; 1; 256; 256]; GcCollect; CudaEmptyCache].
Proof.
  intros t run.
  pose proof (release_cycle_brackets_model_call Samples.plain_env
                (MemoryConfig.mkOptimizer "cuda") Samples.started_colorizer t
                Samples.submitted_input Samples.started_world) as (_ & H & _).
  replace (fst (call_model Samples.started_colorizer
                  (if ndim t =? 3 then unsqueeze0 t else t) Samples.started_world))
    with (@Ok Exn NdArray (mkArray [1; 3; 256; 256] float32
                             (Network InitialWeights (Decoded IMREAD_GRAYSCALE []))))
    in H by (vm_compute; reflexivity).
  destruct H as [Hv He]. subst run. split.
  - rewrite Hv. reflexivity.
  - rewrite He. vm_compute. reflexivity.
Defined.
End Codec.

(** ** The job endpoints *)

Section Endpoints.
Import Runtime Os Main Props.



(** The limits of the file system, and the existence tests. *)
Lemma names_fit_walk (f : FS) (comps cur : list string) :
  forallb (fun c => Py.len c <=? NAME_MAX) comps = true -> walk_too_long f cur comps = false.
Proof.
  revert cur. induction comps as [|c rest IH]; intros cur H; [reflexivity|].
  cbn [forallb] in H. apply andb_prop in H. destruct H as [Hc Hrest].
  cbn [walk_too_long]. destruct (is_dir f cur); [|reflexivity].
  destruct (Py.is_current c); [apply IH; exact Hrest|].
  destruct (String.eqb c ".."); [apply IH; exact Hrest|].
  apply Z.leb_le in Hc. rewrite (proj2 (Z.ltb_ge _ _) Hc). apply IH. exact Hrest.
Qed.

Lemma names_fit_not_too_long (f : FS) (wd : list string) (p : string) :
  names_fit p = true -> name_too_long f wd p = false.
Proof.
  unfold names_fit, name_too_long. intros H. apply andb_prop in H. destruct H as [Hl Hc].
  apply Z.ltb_lt in Hl. rewrite (proj2 (Z.leb_gt _ _) Hl). cbn [orb].
  apply names_fit_walk. exact Hc.
Qed.

Lemma path_exists_cases (f : FS) (wd : list string) (p : string) :
  (exists msg, path_exists f wd p = Raise (OSError msg) /\
               has_nul p = false /\ name_too_long f wd p = true /\ exists_ f wd p = false) \/
  (path_exists f wd p = Ok (exists_ f wd p) /\
   (has_nul p = true \/ name_too_long f wd p = false)).
Proof.
  unfold path_exists, exists_, lookup_path, usable.
  destruct (has_nul p); cbn [negb andb]; [right; split; [reflexivity | left; reflexivity]|].
  destruct (name_too_long f wd p); cbn [negb].
  - left. eexists. repeat split.
  - right. split; [reflexivity | right; reflexivity].
Qed.

Lemma path_exists_fit (f : FS) (wd : list string) (p : string) :
  names_fit p = true -> path_exists f wd p = Ok (exists_ f wd p).
Proof.
  intros H. destruct (path_exists_cases f wd p) as [(msg & _ & _ & Hl & _)|[E _]]; [|exact E].
  rewrite (names_fit_not_too_long f wd p H) in Hl. discriminate.
Qed.

Lemma get_progress_spec (w : World) (file_id : string) :
  get_progress file_id w =
    (match artifact_test w file_id with
     | Ok true => Ok (mkProgress file_id "completed" 100
                        (Some ("/outputs/" +:+ Py.name (result_path file_id))))
     | Ok false => Ok (mkProgress file_id "processing" 50 None)
     | Raise e => Raise e
     end, w).
Proof.
  unfold get_progress, artifact_test, result_path, OUTPUT_DIR, Path_exists. py_unfold.
  destruct (path_exists _ _ _) as [[|]|e]; reflexivity.
Qed.

Lemma download_result_spec (w : World) (file_id : string) :
  download_result file_id w =
    (match artifact_test w file_id with
     | Ok true => Ok (mkFileResponse (result_path file_id)
                        ("colorized_" +:+ file_id +:+ ".jpg") "image/jpeg")
     | Ok false => Raise (HTTPException 404 "Result not found")
     | Raise e => Raise e
     end, w).
Proof.
  unfold download_result, artifact_test, result_path, OUTPUT_DIR, Path_exists. py_unfold.
  destruct (path_exists _ _ _) as [[|]|e]; reflexivity.
Qed.




(** An id nobody submitted, on the freshly started application. *)
Example status_of_unknown_id :
  fst (get_progress "nonexistent-id" Samples.started_world) =
    Ok (mkProgress "nonexistent-id" "processing" 50 None) /\
  fst (download_result "nonexistent-id" Samples.started_world) =
    Raise (HTTPException 404 "Result not found").
Proof. split; vm_compute; reflexivity. Qed.

(** C10. The id goes into the checked path as it is: the answers of status
    and download are those of the existence test on
    "outputs" / (file_id + "_output.jpg"), for every string (no answer where
    the test itself raises). With an id that
    contains a separator the path resolves outside the outputs directory:
    status reports "completed" for, and download hands out, a file no job
    wrote. *)
Theorem unsanitized_id_reaches_outside_outputs :
  (forall (w : World) (file_id : string),
      let checked := Py.joinpath "outputs" (file_id +:+ "_output.jpg") in
      (pr_status <$> fst_ok (get_progress file_id w)) =
        match path_exists (fs w) (cwd w) checked with
        | Ok found => Some (if found then "completed" else "processing")
        | Raise _ => None
        end /\
      (fr_path <$> fst_ok (download_result file_id w)) =
        match path_exists (fs w) (cwd w) checked with
        | Ok true => Some checked
        | _ => None
        end) /\
  (exists (file_id : string) (outputs_loc loc : list string),
      let w := Samples.world_with_neighbour in
      String.index 0 "/" file_id <> None /\
      log w = log Samples.started_world /\ background_tasks w = [] /\
      resolve (fs w) (cwd w) "outputs" = Some outputs_loc /\
      resolve (fs w) (cwd w) (result_path file_id) = Some loc /\
      ~ (outputs_loc `prefix_of` loc) /\
      fs w !! loc = Some (File [xff; xd8]) /\
      (pr_status <$> fst_ok (get_progress file_id w)) = Some "completed" /\
      (fr_path <$> fst_ok (download_result file_id w)) = Some "outputs/../secret_output.jpg").
Proof.
  split.
  - intros w file_id checked. subst checked.
    rewrite get_progress_spec, download_result_spec.
    unfold artifact_test, result_path, OUTPUT_DIR.
    destruct (path_exists _ _ _) as [[|]|e]; split; reflexivity.
  - exists "../secret", ["srv"; "app"; "outputs"], ["srv"; "app"; "secret_output.jpg"].
    cbv zeta. repeat split; try (vm_compute; reflexivity); try (vm_compute; discriminate).
    intros [k Hk]. destruct k; discriminate Hk.
Qed.

Lemma unsanitized_id_reaches_outside_outputs_witness :
  (pr_status <$> fst_ok (get_progress "../secret" Samples.world_with_neighbour))
    = Some "completed" /\
  (fr_path <$> fst_ok (download_result "../secret" Samples.world_with_neighbour))
    = Some "outputs/../secret_output.jpg".
Proof.
  destruct unsanitized_id_reaches_outside_outputs as [Hall _].
  destruct (Hall Samples.world_with_neighbour "../secret") as [Hs Hd].
  split.
  - rewrite Hs. vm_compute. reflexivity.
  - rewrite Hd. vm_compute. reflexivity.
Defined.

(** *** Submission: validation and engine availability *)


(** C3 as the specification words it fails: an upload that is not an image
    is answered 400 although the engine is unavailable. *)
Lemma invalid_upload_on_unavailable_engine_is_400 :
  colorizer Samples.fresh_world = None /\
  status_code_of (fst (colorize_image Samples.text_upload Samples.job_id Samples.fresh_world))
    = 400 /\
  status_code_of (fst (colorize_image Samples.text_upload Samples.job_id Samples.fresh_world))
    <> 503.
Proof. repeat split; vm_compute; congruence. Qed.

(** C3 (amended). For an upload that declares a content type, the checks
    run in this order: a type outside image/* is answered 400; otherwise a
    size above 10 MiB is answered 400; otherwise an unavailable engine is
    answered 503. So 503 is the answer exactly for valid uploads met by an
    unavailable engine, and none of the three refusals changes any state. *)
Theorem colorize_image_validation_order
    (file : UploadFile) (uuid4 : string) (w : World) (ct : string) :
  content_type file = Some ct ->
  let r := colorize_image file uuid4 w in
  (Py.startswith ct "image/" = false ->
     r = (Raise (HTTPException 400 "File must be an image"), w)) /\
  (Py.startswith ct "image/" = true -> size file > MAX_UPLOAD ->
     r = (Raise (HTTPException 400 "File size too large (max 10MB)"), w)) /\
  (Py.startswith ct "image/" = true -> size file <= MAX_UPLOAD -> colorizer w = None ->
     r = (Raise (HTTPException 503 "Colorization model not available"), w)) /\
  (status_code_of (fst r) = 503 <->
     Py.startswith ct "image/" = true /\ size file <= MAX_UPLOAD /\ colorizer w = None).
Proof.
  intros Hct r. subst r. unfold colorize_image, MAX_UPLOAD. rewrite Hct. py_unfold.
  destruct (Py.startswith ct "image/") eqn:Himg; cbn [negb].
  2:{ split; [reflexivity|]. split; [discriminate|]. split; [discriminate|].
      cbn. split; [discriminate | intros (? & _); discriminate]. }
  split; [discriminate|].
  destruct (Z.gtb_spec (size file) (10 * 1024 * 1024)) as [Hbig|Hsmall].
  { split; [reflexivity|]. split; [lia|].
    cbn. split; [discriminate | intros (_ & ? & _); lia]. }
  split; [lia|].
  destruct (colorizer w) as [c|] eqn:Hc.
  2:{ split; [reflexivity|]. cbn. split; [intros _; repeat split; lia | reflexivity]. }
  split; [discriminate|].
  split; [|intros (_ & _ & ?); discriminate].
  unfold save_upload, add_task. py_unfold.
  destruct (write_file _ _ _ _); cbn; discriminate.
Qed.

Lemma colorize_image_validation_order_witness :
  colorize_image Samples.png_upload Samples.job_id Samples.fresh_world =
    (Raise (HTTPException 503 "Colorization model not available"), Samples.fresh_world).
Proof.
  pose proof (colorize_image_validation_order Samples.png_upload Samples.job_id
                Samples.fresh_world "image/png" eq_refl) as H.
  cbv zeta in H. destruct H as (_ & _ & H & _).
  apply H; [reflexivity | unfold MAX_UPLOAD; cbn; lia | reflexivity].
Defined.

(** *** Construction of the Colorizer and what the service makes of it *)

(** C2 as the specification words it fails: constructed without a weights
    location, the Colorizer is not left unavailable. Startup stores it,
    health reports the model as loaded and a job is accepted. *)
Lemma colorizer_without_weights_is_available :
  exists c,
    fst (Colorizer.init Samples.plain_env None "cpu" Samples.fresh_world) = Ok c /\
    weights c = InitialWeights /\
    colorizer (snd (startup_event Samples.plain_env Samples.fresh_world)) = Some c /\
    colorizer (snd (startup_event Samples.plain_env Samples.fresh_world)) <> None /\
    fst (health_check (snd (startup_event Samples.plain_env Samples.fresh_world)))
      = Ok (mkHealth "healthy" true) /\
    status_code_of
      (fst (colorize_image Samples.png_upload Samples.job_id
              (snd (startup_event Samples.plain_env Samples.fresh_world)))) = 200.
Proof.
  eexists. split; [vm_compute; reflexivity|].
  repeat split; try (vm_compute; reflexivity). vm_compute. discriminate.
Qed.

(** A weights location whose file cannot be read: [torch.load] sits in the
    condition of the [if], outside the [try], and its exception leaves the
    constructor. *)
Example unreadable_weights_raise :
  fst (Colorizer.init Samples.plain_env (Some "weights.pth") "cpu" Samples.fresh_world)
    = Raise (LoadError "No such file or directory").
Proof. vm_compute. reflexivity. Qed.

(** Construction with the defaults of the signature, as startup calls it. *)
Lemma init_defaults (env : Env) (w : World) :
  Colorizer.init env None "cpu" w =
    (Ok (mkColorizer "cpu" (UNetModel.UNet_init 1 3 false) InitialWeights),
     add_log (mkLog INFO "U-Net model initialized on device: cpu") w).
Proof.
  unfold Colorizer.init, Colorizer.torch_device, Colorizer.module_to.
  cbn [Colorizer.truthy_path].
  replace (if cuda_is_available env then "cpu" else "cpu") with "cpu"
    by (destruct (cuda_is_available env); reflexivity).
  change (String.eqb "cpu" "cpu") with true. cbn [orb]. reflexivity.
Qed.

Lemma startup_event_stores_colorizer (env : Env) (w : World) :
  exists c w', startup_event env w = (Ok tt, w') /\ colorizer w' = Some c /\
               weights c = InitialWeights.
Proof.
  unfold startup_event. py_unfold. rewrite init_defaults.
  eexists _, _. split; [reflexivity|]. split; reflexivity.
Qed.

(** The device construction settles on, and the two ways it can be refused. *)
Lemma torch_device_accepts (env : Env) (dev : string) (w : World) :
  cuda_is_available env = false \/ dev = "cpu" \/
  (device_parses env dev = true /\ device_holds env dev = true) ->
  let d := if cuda_is_available env then dev else "cpu" in
  Colorizer.torch_device env d w = (Ok d, w) /\
  forall w1, Colorizer.module_to env d w1 = (Ok tt, w1).
Proof.
  intros H d. subst d. unfold Colorizer.torch_device, Colorizer.module_to.
  destruct (cuda_is_available env).
  - destruct H as [H|[->|[Hp Hh]]]; [discriminate | |].
    + change (String.eqb "cpu" "cpu") with true. split; [reflexivity | intros; reflexivity].
    + rewrite Hp, Hh, !orb_true_r. split; [reflexivity | intros; reflexivity].
  - change (String.eqb "cpu" "cpu") with true. split; [reflexivity | intros; reflexivity].
Qed.

(** C2 (amended). On a device torch accepts and can hold the network (the
    default "cpu" always is one, and without CUDA the device is "cpu"
    whatever was asked for), without a weights location, or with a weights
    file that [torch.load] reads into an object whose truth test returns
    (whether or not it then loads into the network), construction returns a
    Colorizer and raises nothing; it only writes log lines. A constructed
    Colorizer is not unavailable: once the service holds it, health reports
    the model as loaded and no submission is answered 503. Startup, which
    constructs with the defaults, always ends holding a Colorizer with the
    initial weights. *)
Theorem Colorizer_init_completes
    (env : Env) (model_path : option string) (dev : string) (w : World) :
  (cuda_is_available env = false \/ dev = "cpu" \/
   (device_parses env dev = true /\ device_holds env dev = true)) ->
  (Colorizer.truthy_path model_path = false \/
   exists loaded truth,
     torch_load env (default "" model_path) (if cuda_is_available env then dev else "cpu")
       = Ok loaded /\
     Colorizer.truth_of loaded = Ok truth) ->
  (exists c w',
     Colorizer.init env model_path dev w = (Ok c, w') /\
     model c = UNetModel.UNet_init 1 3 false /\
     (Colorizer.truthy_path model_path = false -> weights c = InitialWeights) /\
     fs w' = fs w /\ colorizer w' = colorizer w /\
     background_tasks w' = background_tasks w /\
     fst (health_check (set_colorizer (Some c) w')) = Ok (mkHealth "healthy" true) /\
     (forall file uuid4,
        status_code_of (fst (colorize_image file uuid4 (set_colorizer (Some c) w'))) <> 503)) /\
  (exists c w', startup_event env w = (Ok tt, w') /\ colorizer w' = Some c /\
                weights c = InitialWeights).
Proof.
  intros Hdev Hload. split; [|apply startup_event_stores_colorizer].
  assert (Havail : forall c w' file uuid4,
             status_code_of (fst (colorize_image file uuid4 (set_colorizer (Some c) w'))) <> 503).
  { intros c w' file uuid4. unfold colorize_image.
    destruct (content_type file) as [ct|]; py_unfold; [|cbn; discriminate].
    destruct (negb _); [cbn; discriminate|].
    destruct (_ >? _); [cbn; discriminate|]. cbn [colorizer set_colorizer].
    unfold save_upload, add_task. py_unfold.
    destruct (write_file _ _ _ _); cbn; discriminate. }
  destruct (torch_device_accepts env dev w Hdev) as [Hd Hto].
  unfold Colorizer.init. py_unfold. rewrite Hd.
  set (d := if cuda_is_available env then dev else "cpu") in *. clearbody d.
  destruct (Colorizer.truthy_path model_path) eqn:Hp.
  - destruct Hload as [Hf|(loaded & truth & Hck & Htr)]; [discriminate|].
    unfold Colorizer.lift_result, Colorizer.load_state_dict. rewrite Hck. py_unfold.
    cbn beta iota. rewrite Htr. cbn beta iota.
    destruct truth.
    + destruct loaded as [ckpt|t].
      * destruct (state_dict_fits env ckpt); cbn; rewrite Hto;
          eexists _, _; (split; [reflexivity|]); cbn;
          repeat split; try discriminate; apply Havail.
      * cbn. rewrite Hto. eexists _, _. split; [reflexivity|]. cbn.
        repeat split; try discriminate; apply Havail.
    + cbn. rewrite Hto. eexists _, _. split; [reflexivity|]. cbn.
      repeat split; try discriminate; apply Havail.
  - py_unfold. rewrite Hto. eexists _, _. split; [reflexivity|]. cbn.
    repeat split; apply Havail.
Qed.

Lemma Colorizer_init_completes_witness :
  exists c w',
    Colorizer.init Samples.stale_weights_env (Some "weights.pth") "cuda" Samples.fresh_world
      = (Ok c, w') /\
    fst (health_check (set_colorizer (Some c) w')) = Ok (mkHealth "healthy" true).
Proof.
  destruct (Colorizer_init_completes Samples.stale_weights_env (Some "weights.pth") "cuda"
              Samples.fresh_world) as [(c & w' & Hi & _ & _ & _ & _ & _ & Hh & _) _].
  - left. reflexivity.
  - right. exists (StateDict [("conv.weight", [3; 3])]), true. split; reflexivity.
  - exists c, w'. split; [exact Hi | exact Hh].
Defined.

(** *** Background jobs *)


Lemma quiet_refl (w : World) : quiet w w.
Proof. repeat split. exists []. symmetry. apply app_nil_r. Qed.

Lemma quiet_trans (w1 w2 w3 : World) : quiet w1 w2 -> quiet w2 w3 -> quiet w1 w3.
Proof.
  intros (F1 & C1 & K1 & T1 & l1 & L1) (F2 & C2 & K2 & T2 & l2 & L2).
  repeat split; try congruence. exists (l1 ++ l2). rewrite L2, L1. symmetry. apply app_assoc.
Qed.

Lemma silent_ret {A} (a : A) : silent (mret a).
Proof. intros w r w' [= _ <-]. apply quiet_refl. Qed.

Lemma silent_raise {A} (e : Exn) : silent (@Runtime.raise A e).
Proof. intros w r w' [= _ <-]. apply quiet_refl. Qed.

Lemma silent_get : silent Runtime.get.
Proof. intros w r w' [= _ <-]. apply quiet_refl. Qed.

Lemma silent_logger (l : Level) (msg : string) : silent (logger l msg).
Proof. intros w r w' [= _ <-]. repeat split. eexists. reflexivity. Qed.

Lemma silent_emit (e : Event) : silent (emit e).
Proof. intros w r w' [= _ <-]. repeat split. exists []. symmetry. apply app_nil_r. Qed.

Lemma silent_bind {A B} (m : Py A) (f : A -> Py B) :
  silent m -> (forall a, silent (f a)) -> silent (m ≫= f).
Proof.
  intros Hm Hf w r w'. py_unfold. destruct (m w) as [[a|e] w1] eqn:E.
  - intros H. eapply quiet_trans; [eapply Hm; exact E | eapply Hf; exact H].
  - intros [= _ <-]. eapply Hm; exact E.
Qed.

Lemma silent_try {A} (m : Py A) (h : Exn -> Py A) :
  silent m -> (forall e, silent (h e)) -> silent (try_except m h).
Proof.
  intros Hm Hh w r w'. py_unfold. destruct (m w) as [[a|e] w1] eqn:E.
  - intros [= _ <-]. eapply Hm; exact E.
  - intros H. eapply quiet_trans; [eapply Hm; exact E | eapply Hh; exact H].
Qed.

Ltac silent_steps :=
  repeat first
    [ apply silent_ret | apply silent_raise | apply silent_get
    | apply silent_logger | apply silent_emit
    | apply silent_bind; [|intros ?]
    | apply silent_try; [|intros ?]
    | match goal with
      | |- silent (match ?x with _ => _ end) => destruct x
      end ].

Lemma silent_colorize (env : Env) (self : UNetColorizer) (path : string) :
  silent (Colorizer.colorize env self path).
Proof.
  unfold Colorizer.colorize, Colorizer.preprocess_image, Colorizer.call_model,
    Colorizer.postprocess_output, Colorizer.np_transpose, Cv2.imread, Cv2.resize.
  silent_steps.
Qed.

Lemma silent_process_image (env : Env) (path : string) (c : option UNetColorizer) :
  silent (ImageProcessing.process_image env path c).
Proof.
  unfold ImageProcessing.process_image.
  apply silent_try; [|intros e; silent_steps].
  apply silent_bind; [|intros img; silent_steps].
  destruct c; [apply silent_colorize | apply silent_raise].
Qed.

(** What an entry found by the lookup tells about the path. *)
Lemma usable_inv (f : FS) (wd : list string) (p : string) :
  usable f wd p = true ->
  has_nul p = false /\ (PATH_MAX <=? Py.len p) = false /\
  walk_too_long f (if Py.is_absolute p then [] else wd) (Py.split "/" p) = false.
Proof.
  unfold usable, name_too_long. intros H. apply andb_prop in H. destruct H as [Hn Hl].
  apply negb_true_iff in Hn. apply negb_true_iff in Hl. apply orb_false_elim in Hl.
  destruct Hl as [Hl Hw]. repeat split; assumption.
Qed.

Lemma lookup_path_inv (f : FS) (wd : list string) (p : string) (n : Node) :
  lookup_path f wd p = Some n ->
  usable f wd p = true /\
  exists loc, resolve f wd p = Some loc /\
              match loc with [] => n = Dir | _ => f !! loc = Some n end.
Proof.
  unfold lookup_path. destruct (usable f wd p); [|discriminate].
  destruct (resolve f wd p) as [[|x l]|]; [| |discriminate].
  - intros [= <-]. split; [reflexivity|]. exists []. split; reflexivity.
  - intros H. split; [reflexivity|]. exists (x :: l). split; [reflexivity | exact H].
Qed.

Lemma isdir_inv (f : FS) (wd : list string) (p : string) :
  isdir f wd p = true ->
  usable f wd p = true /\ exists loc, resolve f wd p = Some loc /\ is_dir f loc = true.
Proof.
  unfold isdir. destruct (lookup_path f wd p) as [[|d]|] eqn:E; try discriminate.
  intros _. destruct (lookup_path_inv _ _ _ _ E) as (Hu & loc & Hres & Hloc).
  split; [exact Hu|]. exists loc. split; [exact Hres|].
  unfold is_dir. destruct loc; [reflexivity|]. rewrite Hloc. reflexivity.
Qed.

(** Resolving a path to an existing directory means there is nothing for
    mkdir(parents=True, exist_ok=True) to create. *)
Lemma mkdirs_existing (fs0 : FS) (comps cur loc : list string) :
  walk fs0 cur comps = Some loc -> walk_too_long fs0 cur comps = false ->
  is_dir fs0 loc = true -> mkdirs fs0 cur comps = Some fs0.
Proof.
  revert cur. induction comps as [|c rest IH]; intros cur Hw Ht Hd; [reflexivity|].
  cbn [walk walk_too_long mkdirs] in Hw, Ht |- *.
  destruct (is_dir fs0 cur) eqn:Hcur; [|discriminate]. cbn [negb].
  destruct (Py.is_current c); [eauto|].
  destruct (String.eqb c ".."); [eauto|].
  destruct (NAME_MAX <? Py.len c); [discriminate|].
  assert (is_dir fs0 (cur ++ [c]) = true) as Hnext.
  { destruct rest as [|c' rest']; [cbn in Hw; congruence|].
    cbn in Hw. destruct (is_dir fs0 (cur ++ [c])); [reflexivity|discriminate]. }
  assert (fs0 !! (cur ++ [c]) = Some Dir) as ->.
  { unfold is_dir in Hnext. destruct (cur ++ [c]) as [|x l] eqn:E.
    - destruct cur; discriminate.
    - destruct (fs0 !! (x :: l)) as [[|d]|]; congruence. }
  eauto.
Qed.

Lemma mkdir_parent_existing (output_path : string) (w : World) :
  isdir (fs w) (cwd w) (Py.parent output_path) = true ->
  ImageProcessing.mkdir_parent output_path w = (Ok tt, w).
Proof.
  intros H. destruct (isdir_inv _ _ _ H) as (Hu & loc & Hres & Hloc).
  destruct (usable_inv _ _ _ Hu) as (Hn & Hl & Hw).
  unfold ImageProcessing.mkdir_parent, mkdir_parents. py_unfold.
  rewrite Hn, Hl. cbn [orb].
  rewrite (mkdirs_existing _ _ _ loc Hres Hw Hloc).
  destruct w; reflexivity.
Qed.

Lemma same_files_refl (f : FS) : same_files f f.
Proof. intros loc d. reflexivity. Qed.

Lemma same_files_trans (f1 f2 f3 : FS) :
  same_files f1 f2 -> same_files f2 f3 -> same_files f1 f3.
Proof. intros H12 H23 loc d. etransitivity; [apply H23 | apply H12]. Qed.

Lemma quiet_hushed (w w' : World) : quiet w w' -> hushed w w'.
Proof.
  intros (Hf & Hrest). split; [|exact Hrest]. rewrite Hf. apply same_files_refl.
Qed.

Lemma hushed_trans (w1 w2 w3 : World) : hushed w1 w2 -> hushed w2 w3 -> hushed w1 w3.
Proof.
  intros (F1 & C1 & K1 & T1 & l1 & L1) (F2 & C2 & K2 & T2 & l2 & L2).
  split; [eapply same_files_trans; eassumption|].
  repeat split; try congruence. exists (l1 ++ l2). rewrite L2, L1. symmetry. apply app_assoc.
Qed.

(** mkdir creates directories only. *)
Lemma mkdirs_same_files (comps : list string) (fs0 fs' : FS) (cur : list string) :
  mkdirs fs0 cur comps = Some fs' -> same_files fs0 fs'.
Proof.
  revert fs0 cur. induction comps as [|c rest IH]; intros fs0 cur; cbn.
  - intros [= <-]. apply same_files_refl.
  - destruct (negb (is_dir fs0 cur)); [discriminate|].
    destruct (Py.is_current c); [apply IH|].
    destruct (String.eqb c ".."); [apply IH|].
    destruct (NAME_MAX <? Py.len c); [discriminate|].
    destruct (fs0 !! (cur ++ [c])) as [[|d0]|] eqn:E; [apply IH | discriminate |].
    intros H. eapply same_files_trans; [|eapply IH; exact H].
    intros loc d. destruct (decide (loc = cur ++ [c])) as [->|Hne].
    + rewrite lookup_insert_eq, E. split; discriminate.
    + rewrite lookup_insert_ne by congruence. reflexivity.
Qed.

Lemma mkdir_parents_same_files (fs0 fs' : FS) (wd : list string) (p : string) :
  mkdir_parents fs0 wd p = Some fs' -> same_files fs0 fs'.
Proof.
  unfold mkdir_parents. destruct (has_nul p || (PATH_MAX <=? Py.len p)); [discriminate|].
  apply mkdirs_same_files.
Qed.

Lemma mkdirs_made_same_files (comps : list string) (fs0 : FS) (cur : list string) :
  same_files fs0 (mkdirs_made fs0 cur comps).
Proof.
  revert fs0 cur. induction comps as [|c rest IH]; intros fs0 cur; cbn;
    [apply same_files_refl|].
  destruct (negb (is_dir fs0 cur)); [apply same_files_refl|].
  destruct (Py.is_current c); [apply IH|].
  destruct (String.eqb c ".."); [apply IH|].
  destruct (NAME_MAX <? Py.len c); [apply same_files_refl|].
  destruct (fs0 !! (cur ++ [c])) as [[|d0]|] eqn:E;
    [apply IH | apply same_files_refl |].
  eapply same_files_trans; [|apply IH].
  intros loc d. destruct (decide (loc = cur ++ [c])) as [->|Hne].
  - rewrite lookup_insert_eq, E. split; discriminate.
  - rewrite lookup_insert_ne by congruence. reflexivity.
Qed.

Lemma mkdir_parents_made_same_files (fs0 : FS) (wd : list string) (p : string) :
  same_files fs0 (mkdir_parents_made fs0 wd p).
Proof.
  unfold mkdir_parents_made.
  destruct (has_nul p || (PATH_MAX <=? Py.len p)); [apply same_files_refl|].
  apply mkdirs_made_same_files.
Qed.

(** save_image either writes the file and returns, or raises having at most
    created the output directory; with that directory in place already,
    only the log has changed. *)
Lemma save_image_raise (env : Env) (img : NdArray) (output_path : string)
    (w w' : World) (e : Exn) :
  ImageProcessing.save_image env img output_path w = (Raise e, w') ->
  hushed w w' /\
  (isdir (fs w) (cwd w) (Py.parent output_path) = true -> quiet w w').
Proof.
  intros Hsave. split.
  - revert Hsave. unfold ImageProcessing.save_image, ImageProcessing.mkdir_parent. py_unfold.
    destruct (mkdir_parents (fs w) (cwd w) (Py.parent output_path)) as [fs'|] eqn:Hmk.
    + apply mkdir_parents_same_files in Hmk. unfold Cv2.imwrite. py_unfold. cbn.
      destruct (cv2_encode env _ _) as [data|].
      * cbn. destruct (write_file fs' (cwd w) output_path data) as [fs''|]; cbn.
        -- discriminate.
        -- intros [= _ <-]. split; [exact Hmk|]. repeat split. eexists. reflexivity.
      * intros [= _ <-]. split; [exact Hmk|]. repeat split. eexists. reflexivity.
    + intros [= _ <-]. split; [apply mkdir_parents_made_same_files|].
      repeat split. eexists. reflexivity.
  - intros Hdir. revert Hsave. unfold ImageProcessing.save_image. py_unfold.
    rewrite (mkdir_parent_existing output_path w Hdir).
    unfold Cv2.imwrite. py_unfold.
    destruct (cv2_encode env _ _) as [data|].
    + destruct (write_file (fs w) (cwd w) output_path data) as [fs'|]; cbn.
      * discriminate.
      * intros [= _ <-]. repeat split. eexists. reflexivity.
    + intros [= _ <-]. repeat split. eexists. reflexivity.
Qed.

(** The work of a job, when it raises. *)
Lemma colorization_work_raise (env : Env) (input_path output_path file_id : string)
    (w w1 : World) (e : Exn) :
  colorization_work env input_path output_path file_id w = (Raise e, w1) ->
  hushed w w1 /\
  (isdir (fs w) (cwd w) (Py.parent output_path) = true -> quiet w w1).
Proof.
  unfold colorization_work. py_unfold. cbn.
  set (wa := add_log _ w).
  assert (Hqa : quiet w wa) by (repeat split; eexists; reflexivity).
  destruct (ImageProcessing.process_image env input_path (colorizer w) wa)
    as [[img|e1] wb] eqn:Hpi.
  - assert (Hqb : quiet wa wb) by (eapply silent_process_image; exact Hpi).
    destruct (ImageProcessing.save_image env img output_path wb) as [[[]|e2] wc] eqn:Hsv;
      [discriminate|].
    intros [= _ <-]. destruct (save_image_raise _ _ _ _ _ _ Hsv) as [Hh Hq]. split.
    + eapply hushed_trans; [apply quiet_hushed; eapply quiet_trans; eassumption | exact Hh].
    + intros Hdir. eapply quiet_trans; [exact Hqa|]. eapply quiet_trans; [exact Hqb|].
      apply Hq. destruct Hqb as (-> & -> & _). exact Hdir.
  - intros [= _ <-].
    assert (quiet w wb) by (eapply quiet_trans; [exact Hqa | eapply silent_process_image; exact Hpi]).
    split; [apply quiet_hushed; assumption | intros _; assumption].
Qed.

(** Status and download read nothing but the files. *)
Lemma quiet_same_answers (w w' : World) (file_id : string) :
  quiet w w' ->
  fst (get_progress file_id w') = fst (get_progress file_id w) /\
  fst (download_result file_id w') = fst (download_result file_id w).
Proof.
  intros (Hf & Hc & _). rewrite !get_progress_spec, !download_result_spec.
  unfold artifact_test. rewrite Hf, Hc. split; reflexivity.
Qed.

(** C8. When the work of a scheduled job raises, in colorizing or in
    saving, the task itself returns normally; the error goes to the log as
    one ERROR line closing the job's entries; no regular file is written or
    changed, so no output artifact and no failure marker appear; the held
    Colorizer and the pending tasks are untouched. With the output directory
    in place, as the application creates it, the file system is exactly as
    before and status and download answer for every id what they answered
    before: in particular "processing" with progress 50 wherever the
    existence test finds the artifact absent, as it does for every absent
    artifact whose path is within the limits of the file system. *)
Theorem failed_job_is_only_logged
    (env : Env) (input_path output_path file_id : string) (w w1 : World) (e : Exn) :
  colorization_work env input_path output_path file_id w = (Raise e, w1) ->
  exists w2,
    process_colorization env input_path output_path file_id w = (Ok tt, w2) /\
    same_files (fs w) (fs w2) /\
    colorizer w2 = colorizer w /\
    background_tasks w2 = background_tasks w /\
    (exists entries,
        log w2 = log w ++ entries ++
                 [mkLog ERROR ("Error in background colorization for " +:+ file_id +:+ ": "
                               +:+ str_exn e)]) /\
    (isdir (fs w) (cwd w) (Py.parent output_path) = true ->
       fs w2 = fs w /\
       (forall id, fst (get_progress id w2) = fst (get_progress id w) /\
                   fst (download_result id w2) = fst (download_result id w)) /\
       (forall id, artifact_test w id = Ok false ->
                   fst (get_progress id w2) = Ok (mkProgress id "processing" 50 None) /\
                   status_code_of (fst (download_result id w2)) = 404) /\
       (forall id, names_fit (result_path id) = true -> artifact_exists w id = false ->
                   fst (get_progress id w2) = Ok (mkProgress id "processing" 50 None) /\
                   status_code_of (fst (download_result id w2)) = 404)).
Proof.
  intros Hwork.
  destruct (colorization_work_raise _ _ _ _ _ _ _ Hwork) as [Hh Hq].
  unfold process_colorization. py_unfold. rewrite Hwork. cbn.
  eexists. split; [reflexivity|].
  destruct Hh as (Hf & Hc & Hk & Ht & entries & Hl).
  cbn. split; [exact Hf|]. split; [exact Hk|]. split; [exact Ht|].
  split; [exists entries; rewrite Hl, <- app_assoc; reflexivity|].
  intros Hdir. specialize (Hq Hdir). destruct Hq as (Hfq & _).
  set (wf := add_log (mkLog ERROR ("Error in background colorization for "
                                   +:+ file_id +:+ ": " +:+ str_exn e)) w1).
  assert (Hq2 : quiet w wf).
  { repeat split; cbn; try assumption. eexists. rewrite Hl, <- app_assoc. reflexivity. }
  assert (Habsent : forall id, artifact_test w id = Ok false ->
            fst (get_progress id wf) = Ok (mkProgress id "processing" 50 None) /\
            status_code_of (fst (download_result id wf)) = 404).
  { intros id Habs. destruct (quiet_same_answers _ _ id Hq2) as [-> ->].
    rewrite get_progress_spec, download_result_spec, Habs. split; reflexivity. }
  split; [exact Hfq|]. split; [|split].
  - intros id. apply (quiet_same_answers _ _ id Hq2).
  - exact Habsent.
  - intros id Hfit Habs. apply Habsent. unfold artifact_test, artifact_exists in *.
    fold OUTPUT_DIR. fold (result_path id).
    rewrite (path_exists_fit _ _ _ Hfit). f_equal. exact Habs.
Qed.

(** A job whose upload decodes but whose extension has no encoder: saving
    raises, and the theorem applies. *)
Lemma failed_job_is_only_logged_witness :
  let w := snd (colorize_image Samples.gif_upload Samples.job_id Samples.started_world) in
  exists w2,
    process_colorization Samples.plain_env
      "uploads/3f2b8c1e-0d4a-4b7e-9c55-1a2b3c4d5e6f_input.gif"
      "outputs/3f2b8c1e-0d4a-4b7e-9c55-1a2b3c4d5e6f_output.gif"
      Samples.job_id w = (Ok tt, w2) /\
    fs w2 = fs w /\
    fst (get_progress Samples.job_id w2) = Ok (mkProgress Samples.job_id "processing" 50 None).
Proof.
  intros w.
  destruct (failed_job_is_only_logged Samples.plain_env
              "uploads/3f2b8c1e-0d4a-4b7e-9c55-1a2b3c4d5e6f_input.gif"
              "outputs/3f2b8c1e-0d4a-4b7e-9c55-1a2b3c4d5e6f_output.gif"
              Samples.job_id w
              (snd (colorization_work Samples.plain_env
                      "uploads/3f2b8c1e-0d4a-4b7e-9c55-1a2b3c4d5e6f_input.gif"
                      "outputs/3f2b8c1e-0d4a-4b7e-9c55-1a2b3c4d5e6f_output.gif"
                      Samples.job_id w))
              (Cv2Error "could not find a writer for the specified extension"))
    as (w2 & Hrun & _ & _ & _ & _ & Hdir).
  - vm_compute. reflexivity.
  - destruct Hdir as (Hfs & _ & Hst & _); [vm_compute; reflexivity|].
    exists w2. split; [exact Hrun|]. split; [exact Hfs|].
    apply Hst. vm_compute. reflexivity.
Defined.

(** C1, on the code. A PNG upload is accepted, its task runs to the end
    (the last log line reports completion) and writes its result under the
    upload's own extension, "..._output.png"; status and download look for
    "..._output.jpg", so status keeps answering "processing" and download 404. *)
Theorem png_job_finishes_but_is_never_completed :
  let submitted := colorize_image Samples.png_upload Samples.job_id Samples.started_world in
  let finished := run_background_tasks Samples.plain_env (snd submitted) in
  status_code_of (fst submitted) = 200 /\
  background_tasks (snd submitted) =
    [mkTask "uploads/3f2b8c1e-0d4a-4b7e-9c55-1a2b3c4d5e6f_input.png"
            "outputs/3f2b8c1e-0d4a-4b7e-9c55-1a2b3c4d5e6f_output.png" Samples.job_id] /\
  fst finished = Ok tt /\
  last (log (snd finished)) =
    Some (mkLog INFO "Colorization completed for file 3f2b8c1e-0d4a-4b7e-9c55-1a2b3c4d5e6f") /\
  exists_ (fs (snd finished)) (cwd (snd finished))
    "outputs/3f2b8c1e-0d4a-4b7e-9c55-1a2b3c4d5e6f_output.png" = true /\
  artifact_exists (snd finished) Samples.job_id = false /\
  fst (get_progress Samples.job_id (snd finished)) =
    Ok (mkProgress Samples.job_id "processing" 50 None) /\
  fst (download_result Samples.job_id (snd finished)) =
    Raise (HTTPException 404 "Result not found").
Proof. cbv zeta. repeat split; vm_compute; reflexivity. Qed.

(** The same job with a ".jpg" upload does reach "completed". *)
Example jpg_job_is_completed :
  let submitted := colorize_image Samples.jpg_upload Samples.job_id Samples.started_world in
  let finished := run_background_tasks Samples.plain_env (snd submitted) in
  fst (get_progress Samples.job_id (snd finished)) =
    Ok (mkProgress Samples.job_id "completed" 100
          (Some "/outputs/3f2b8c1e-0d4a-4b7e-9c55-1a2b3c4d5e6f_output.jpg")) /\
  status_code_of (fst (download_result Samples.job_id (snd finished))) = 200.
Proof. cbv zeta. split; vm_compute; reflexivity. Qed.
End Endpoints.

(** * Further properties *)

(** ** The network: which inputs it accepts, and its channel bookkeeping *)

Section NetworkMore.
Import Torch UNetModel Props PropsMore.

Ltac settle :=
  repeat match goal with
  | |- context [?a =? ?a] => rewrite (Z.eqb_refl a)
  | |- context [?a <? ?b] =>
      first [ rewrite (proj2 (Z.ltb_lt a b)) by lia
            | rewrite (proj2 (Z.ltb_ge a b)) by lia ]
  | |- context [?a <=? ?b] =>
      first [ rewrite (proj2 (Z.leb_le a b)) by lia
            | rewrite (proj2 (Z.leb_gt a b)) by lia ]
  end.

(** The whole forward pass on an input it accepts, in closed form. *)
Lemma UNet_forward_closed_form (nc ncl : Z) (bil : bool) (x : Size) :
  dim1 x = nc -> 16 <= dim2 x -> 16 <= dim3 x ->
  UNet_forward (UNet_init nc ncl bil) x =
    ([stage_cat (dim0 x) 512 (dim2 x / 2 / 2 / 2) (dim3 x / 2 / 2 / 2);
      stage_cat (dim0 x) 256 (dim2 x / 2 / 2) (dim3 x / 2 / 2);
      stage_cat (dim0 x) 128 (dim2 x / 2) (dim3 x / 2);
      stage_cat (dim0 x) 64 (dim2 x) (dim3 x)],
     Ok (mkSize (dim0 x) ncl (dim2 x) (dim3 x))).
Proof.
  intros Hc Hh Hw. unfold UNet_forward.
  cbn [UNet_init inc down1 down2 down3 down4 up1 up2 up3 up4 outc].
  rewrite DoubleConv_forward_spec. cbn [DoubleConv_init dc_in dc_mid dc_out].
  rewrite Hc. settle. cbn [andb]. rewrite bind_ret.
  set (h1 := dim2 x / 2). set (h2 := h1 / 2). set (h3 := h2 / 2).
  set (w1 := dim3 x / 2). set (w2 := w1 / 2). set (w3 := w2 / 2).
  assert (Eh1 : 8 <= h1) by (subst h1; lia).
  assert (Eh2 : 4 <= h2) by (subst h2; lia).
  assert (Eh3 : 2 <= h3) by (subst h3; lia).
  assert (Ew1 : 8 <= w1) by (subst w1; lia).
  assert (Ew2 : 4 <= w2) by (subst w2; lia).
  assert (Ew3 : 2 <= w3) by (subst w3; lia).
  assert (Ph3 : h3 * 2 = h2 / 2 * 2) by reflexivity.
  assert (Ph2 : h2 * 2 = h1 / 2 * 2) by reflexivity.
  assert (Ph1 : h1 * 2 = dim2 x / 2 * 2) by reflexivity.
  assert (Pw3 : w3 * 2 = w2 / 2 * 2) by reflexivity.
  assert (Pw2 : w2 * 2 = w1 / 2 * 2) by reflexivity.
  assert (Pw1 : w1 * 2 = dim3 x / 2 * 2) by reflexivity.
  rewrite Down_forward_spec.
  cbn [Down_init DoubleConv_init down_conv dc_in dc_mid dc_out dim0 dim1 dim2 dim3].
  settle. cbn [andb]. rewrite ?Z.eqb_refl, bind_ret. fold h1 w1.
  rewrite Down_forward_spec.
  cbn [Down_init DoubleConv_init down_conv dc_in dc_mid dc_out dim0 dim1 dim2 dim3].
  settle. cbn [andb]. rewrite ?Z.eqb_refl, bind_ret. fold h2 w2.
  rewrite Down_forward_spec.
  cbn [Down_init DoubleConv_init down_conv dc_in dc_mid dc_out dim0 dim1 dim2 dim3].
  settle. cbn [andb]. rewrite ?Z.eqb_refl, bind_ret. fold h3 w3.
  rewrite Down_forward_spec.
  cbn [Down_init DoubleConv_init down_conv dc_in dc_mid dc_out dim0 dim1 dim2 dim3].
  settle. cbn [andb]. rewrite ?Z.eqb_refl, bind_ret.
  clearbody h3 w3. clearbody h2 w2. clearbody h1 w1.
  unfold stage_cat. cbv zeta.
  rewrite <- Ph3, <- Ph2, <- Ph1, <- Pw3, <- Pw2, <- Pw1.
  clear Ph3 Ph2 Ph1 Pw3 Pw2 Pw1.
  destruct bil; cbn [Up_init];
    change (1024 / 2) with 512; change (512 / 2) with 256; change (256 / 2) with 128;
    change (128 / 2) with 64; change (1024 / 1) with 1024; change (512 / 1) with 512;
    change (256 / 1) with 256; change (128 / 1) with 128.
  all: repeat (erewrite Up_forward_ok;
    [ | cbn [up_up UpLayer_forward]; unfold ConvTranspose2d, Upsample;
        cbn [dim0 dim1 dim2 dim3 negb Z.eqb Pos.eqb]; reflexivity
      | reflexivity | cbn [dim2]; lia | cbn [dim3]; lia | reflexivity ];
    cbn [up_conv DoubleConv_init dc_in dc_mid dc_out dim0 dim1 dim2 dim3];
    rewrite bind_logged).
  all: unfold OutConv_forward, Conv2d; cbn [oc_in oc_out dim0 dim1 dim2 dim3];
    settle; cbn [negb orb cats value fst snd Torch.ret app].
  all: repeat f_equal; lia.
Qed.

(** One pooling stage of the encoder: either it refuses, or the run goes on
    with the halved size, known from here on by its bounds only. *)
Ltac pool_stage h w h' w' :=
  rewrite Down_forward_spec;
  cbn [Down_init DoubleConv_init down_conv dc_in dc_mid dc_out dim0 dim1 dim2 dim3];
  destruct (Z.leb_spec 2 h); cbn [andb]; [|rewrite bind_raise; reflexivity];
  destruct (Z.leb_spec 2 w); cbn [andb]; [|rewrite bind_raise; reflexivity];
  rewrite Z.eqb_refl, bind_ret;
  set (h' := h / 2) in *; set (w' := w / 2) in *;
  assert (h' * 2 <= h <= h' * 2 + 1) by (subst h'; lia);
  assert (w' * 2 <= w <= w' * 2 + 1) by (subst w'; lia);
  clearbody h' w'.

Lemma UNet_forward_too_small (nc ncl : Z) (bil : bool) (x : Size) :
  dim1 x = nc -> 1 <= dim2 x -> 1 <= dim3 x -> dim2 x < 16 \/ dim3 x < 16 ->
  UNet_forward (UNet_init nc ncl bil) x = ([], Raise OutputTooSmall).
Proof.
  intros Hc Hh Hw Hsmall. unfold UNet_forward.
  cbn [UNet_init inc down1 down2 down3 down4 up1 up2 up3 up4 outc].
  rewrite DoubleConv_forward_spec. cbn [DoubleConv_init dc_in dc_mid dc_out].
  rewrite Hc, Z.eqb_refl. settle. cbn [andb]. rewrite bind_ret.
  pool_stage (dim2 x) (dim3 x) h1 w1.
  pool_stage h1 w1 h2 w2.
  pool_stage h2 w2 h3 w3.
  pool_stage h3 w3 h4 w4.
  exfalso. lia.
Qed.

(** The forward pass, case by case. *)
Lemma UNet_forward_cases (nc ncl : Z) (bil : bool) (x : Size) :
  (dim1 x <> nc /\
   UNet_forward (UNet_init nc ncl bil) x = ([], Raise (ChannelMismatch nc (dim1 x)))) \/
  (dim1 x = nc /\ (dim2 x < 1 \/ dim3 x < 1) /\
   UNet_forward (UNet_init nc ncl bil) x = ([], Raise KernelTooLarge)) \/
  (dim1 x = nc /\ 1 <= dim2 x /\ 1 <= dim3 x /\ (dim2 x < 16 \/ dim3 x < 16) /\
   UNet_forward (UNet_init nc ncl bil) x = ([], Raise OutputTooSmall)) \/
  (dim1 x = nc /\ 16 <= dim2 x /\ 16 <= dim3 x /\
   value (UNet_forward (UNet_init nc ncl bil) x) =
     Ok (mkSize (dim0 x) ncl (dim2 x) (dim3 x))).
Proof.
  destruct (Z.eq_dec (dim1 x) nc) as [Hc|Hc].
  2:{ left. split; [exact Hc|]. unfold UNet_forward.
      cbn [UNet_init inc down1 down2 down3 down4 up1 up2 up3 up4 outc].
      rewrite DoubleConv_forward_spec. cbn [DoubleConv_init dc_in dc_mid dc_out].
      rewrite (proj2 (Z.eqb_neq _ _) Hc). reflexivity. }
  right.
  destruct (Z_lt_le_dec (dim2 x) 1) as [Hh1|Hh1];
    [|destruct (Z_lt_le_dec (dim3 x) 1) as [Hw1|Hw1]].
  1,2: left; split; [exact Hc|]; split; [lia|]; unfold UNet_forward;
    cbn [UNet_init inc down1 down2 down3 down4 up1 up2 up3 up4 outc];
    rewrite DoubleConv_forward_spec; cbn [DoubleConv_init dc_in dc_mid dc_out];
    rewrite Hc, Z.eqb_refl; settle; cbn [andb]; rewrite ?andb_false_r; reflexivity.
  right.
  destruct (Z_lt_le_dec (dim2 x) 16) as [Hh|Hh];
    [|destruct (Z_lt_le_dec (dim3 x) 16) as [Hw|Hw]].
  1,2: left; repeat (split; [assumption|]); split; [lia|];
    apply UNet_forward_too_small; [assumption..|lia].
  right. repeat (split; [assumption|]).
  rewrite (UNet_forward_closed_form nc ncl bil x Hc Hh Hw). reflexivity.
Qed.

(** *** The two modes of the network *)

Lemma product_not_one (n h w : Z) : 2 <= h -> n * h * w <> 1.
Proof.
  intros Hh E. assert (E' : h * (n * w) = 1) by lia.
  apply Z.mul_eq_1 in E'. lia.
Qed.

Lemma product_one (n h w : Z) : 1 <= h -> 1 <= w -> (n * h * w = 1 <-> n = 1 /\ h = 1 /\ w = 1).
Proof.
  intros Hh Hw. split; [|intros (-> & -> & ->); reflexivity].
  intros E. assert (E1 : h * (n * w) = 1) by lia. assert (E2 : w * (n * h) = 1) by lia.
  apply Z.mul_eq_1 in E1. apply Z.mul_eq_1 in E2.
  assert (h = 1) by lia. assert (w = 1) by lia. subst. lia.
Qed.

Lemma DoubleConv_forward_in_spec (training : bool) (self : DoubleConv) (x : Size) :
  DoubleConv_forward_in training self x =
    if dim1 x =? dc_in self then
      if (1 <=? dim2 x) && (1 <=? dim3 x) then
        if training && (dim0 x * dim2 x * dim3 x =? 1)
        then Torch.raise (TooFewValues (mkSize (dim0 x) (dc_mid self) (dim2 x) (dim3 x)))
        else Torch.ret (mkSize (dim0 x) (dc_out self) (dim2 x) (dim3 x))
      else Torch.raise KernelTooLarge
    else Torch.raise (ChannelMismatch (dc_in self) (dim1 x)).
Proof.
  unfold DoubleConv_forward_in, Conv2d.
  destruct (dim1 x =? dc_in self) eqn:Hc; cbn [negb]; [|reflexivity].
  destruct (Z.leb_spec 1 (dim2 x)), (Z.leb_spec 1 (dim3 x)); cbn [andb].
  2-4: settle; cbn [orb]; rewrite ?orb_true_r; reflexivity.
  settle. cbn [orb]. rewrite bind_ret. unfold BatchNorm2d_in, BatchNorm2d, ReLU.
  cbn [dim0 dim1 dim2 dim3].
  replace (dim2 x + 2 * 1 - 3 + 1) with (dim2 x) by lia.
  replace (dim3 x + 2 * 1 - 3 + 1) with (dim3 x) by lia.
  destruct (training && (dim0 x * dim2 x * dim3 x =? 1)) eqn:Hbn; [reflexivity|].
  rewrite Z.eqb_refl. cbn [negb]. rewrite !bind_ret. cbn [dim0 dim1 dim2 dim3].
  rewrite Z.eqb_refl. settle. cbn [negb orb]. rewrite !bind_ret.
  cbn [dim0 dim1 dim2 dim3].
  replace (dim2 x + 2 * 1 - 3 + 1) with (dim2 x) by lia.
  replace (dim3 x + 2 * 1 - 3 + 1) with (dim3 x) by lia.
  rewrite Hbn, Z.eqb_refl. cbn [negb]. rewrite !bind_ret. reflexivity.
Qed.

Lemma Down_forward_in_spec (training : bool) (self : Down) (x : Size) :
  Down_forward_in training self x =
    if (2 <=? dim2 x) && (2 <=? dim3 x) then
      if dim1 x =? dc_in (down_conv self) then
        if training && (dim0 x * (dim2 x / 2) * (dim3 x / 2) =? 1)
        then Torch.raise (TooFewValues (mkSize (dim0 x) (dc_mid (down_conv self))
                                          (dim2 x / 2) (dim3 x / 2)))
        else Torch.ret (mkSize (dim0 x) (dc_out (down_conv self)) (dim2 x / 2) (dim3 x / 2))
      else Torch.raise (ChannelMismatch (dc_in (down_conv self)) (dim1 x))
    else Torch.raise OutputTooSmall.
Proof.
  unfold Down_forward_in, MaxPool2d.
  destruct (Z.leb_spec 2 (dim2 x)), (Z.leb_spec 2 (dim3 x)); cbn [andb].
  2-4: settle; cbn [orb]; rewrite ?orb_true_r; reflexivity.
  settle. cbn [orb]. rewrite bind_ret, DoubleConv_forward_in_spec.
  cbn [dim0 dim1 dim2 dim3].
  replace ((dim2 x - 2) / 2 + 1) with (dim2 x / 2) by lia.
  replace ((dim3 x - 2) / 2 + 1) with (dim3 x / 2) by lia.
  destruct (dim1 x =? dc_in (down_conv self)); [|reflexivity].
  settle. cbn [andb]. reflexivity.
Qed.

(** Up.forward in either mode: the double convolution sees the skip
    tensor's size, and that is where the mode matters. *)
Lemma Up_forward_in_ok (training : bool) (self : Up) (x1 x2 u : Size) :
  UpLayer_forward (up_up self) x1 = Torch.ret u ->
  dim0 u = dim0 x2 -> 1 <= dim2 x2 -> 1 <= dim3 x2 ->
  dim1 x2 + dim1 u = dc_in (up_conv self) ->
  training = false \/ dim0 x2 * dim2 x2 * dim3 x2 <> 1 ->
  Up_forward_in training self x1 x2 = Up_forward self x1 x2.
Proof.
  intros Hu Hn Hh Hw Hc Ht.
  rewrite (Up_forward_ok self x1 x2 u Hu Hn Hh Hw Hc).
  unfold Up_forward_in. rewrite Hu, bind_ret.
  unfold pad, Up_padding. settle. cbn [orb]. rewrite bind_ret, bind_tell.
  replace (dim2 u + (dim2 x2 - dim2 u) / 2 + (dim2 x2 - dim2 u - (dim2 x2 - dim2 u) / 2))
    with (dim2 x2) by lia.
  replace (dim3 u + (dim3 x2 - dim3 u) / 2 + (dim3 x2 - dim3 u - (dim3 x2 - dim3 u) / 2))
    with (dim3 x2) by lia.
  unfold cat1. cbn [dim0 dim1 dim2 dim3]. rewrite Hn, !Z.eqb_refl. cbn [andb].
  rewrite bind_ret, DoubleConv_forward_in_spec. cbn [dim0 dim1 dim2 dim3].
  rewrite Hc, Z.eqb_refl. settle. cbn [andb].
  assert (Hno : training && (dim0 x2 * dim2 x2 * dim3 x2 =? 1) = false).
  { destruct Ht as [->|Hne]; [reflexivity|].
    rewrite (proj2 (Z.eqb_neq _ _) Hne). apply andb_false_r. }
  rewrite Hno. reflexivity.
Qed.

(** The forward pass in either mode on an input the evaluation mode
    accepts: in training mode a bottleneck of one value per channel stops
    it before any concatenation; otherwise the run is that of the
    evaluation mode. *)
Lemma UNet_forward_in_closed_form (training : bool) (nc ncl : Z) (bil : bool) (x : Size) :
  dim1 x = nc -> 16 <= dim2 x -> 16 <= dim3 x ->
  UNet_forward_in training (UNet_init nc ncl bil) x =
    if training && (dim0 x * (dim2 x / 2 / 2 / 2 / 2) * (dim3 x / 2 / 2 / 2 / 2) =? 1)
    then ([], Raise (TooFewValues (mkSize (dim0 x) (1024 / (if bil then 2 else 1))
                                     (dim2 x / 2 / 2 / 2 / 2) (dim3 x / 2 / 2 / 2 / 2))))
    else UNet_forward (UNet_init nc ncl bil) x.
Proof.
  intros Hc Hh Hw.
  rewrite (UNet_forward_closed_form nc ncl bil x Hc Hh Hw).
  unfold UNet_forward_in.
  cbn [UNet_init inc down1 down2 down3 down4 up1 up2 up3 up4 outc].
  rewrite DoubleConv_forward_in_spec. cbn [DoubleConv_init dc_in dc_mid dc_out].
  rewrite Hc, Z.eqb_refl. settle. cbn [andb].
  assert (N0 : training && (dim0 x * dim2 x * dim3 x =? 1) = false).
  { rewrite (proj2 (Z.eqb_neq _ _)); [apply andb_false_r | apply product_not_one; lia]. }
  rewrite N0, bind_ret.
  set (h1 := dim2 x / 2). set (h2 := h1 / 2). set (h3 := h2 / 2). set (h4 := h3 / 2).
  set (w1 := dim3 x / 2). set (w2 := w1 / 2). set (w3 := w2 / 2). set (w4 := w3 / 2).
  assert (Eh1 : 8 <= h1) by (subst h1; lia).
  assert (Eh2 : 4 <= h2) by (subst h2; lia).
  assert (Eh3 : 2 <= h3) by (subst h3; lia).
  assert (Eh4 : 1 <= h4) by (subst h4; lia).
  assert (Ew1 : 8 <= w1) by (subst w1; lia).
  assert (Ew2 : 4 <= w2) by (subst w2; lia).
  assert (Ew3 : 2 <= w3) by (subst w3; lia).
  assert (Ew4 : 1 <= w4) by (subst w4; lia).
  assert (N1 : training && (dim0 x * h1 * w1 =? 1) = false).
  { rewrite (proj2 (Z.eqb_neq _ _)); [apply andb_false_r | apply product_not_one; lia]. }
  assert (N2 : training && (dim0 x * h2 * w2 =? 1) = false).
  { rewrite (proj2 (Z.eqb_neq _ _)); [apply andb_false_r | apply product_not_one; lia]. }
  assert (N3 : training && (dim0 x * h3 * w3 =? 1) = false).
  { rewrite (proj2 (Z.eqb_neq _ _)); [apply andb_false_r | apply product_not_one; lia]. }
  rewrite Down_forward_in_spec.
  cbn [Down_init DoubleConv_init down_conv dc_in dc_mid dc_out dim0 dim1 dim2 dim3].
  settle. cbn [andb]. fold h1 w1. rewrite N1, bind_ret.
  rewrite Down_forward_in_spec.
  cbn [Down_init DoubleConv_init down_conv dc_in dc_mid dc_out dim0 dim1 dim2 dim3].
  settle. cbn [andb]. fold h2 w2. rewrite N2, bind_ret.
  rewrite Down_forward_in_spec.
  cbn [Down_init DoubleConv_init down_conv dc_in dc_mid dc_out dim0 dim1 dim2 dim3].
  settle. cbn [andb]. fold h3 w3. rewrite N3, bind_ret.
  rewrite Down_forward_in_spec.
  cbn [Down_init DoubleConv_init down_conv dc_in dc_mid dc_out dim0 dim1 dim2 dim3].
  settle. cbn [andb]. fold h4 w4.
  destruct (training && (dim0 x * h4 * w4 =? 1)) eqn:Hbot;
    [rewrite bind_raise; reflexivity|].
  rewrite bind_ret.
  assert (Ph3 : h3 * 2 = h2 / 2 * 2) by reflexivity.
  assert (Ph2 : h2 * 2 = h1 / 2 * 2) by reflexivity.
  assert (Ph1 : h1 * 2 = dim2 x / 2 * 2) by reflexivity.
  assert (Pw3 : w3 * 2 = w2 / 2 * 2) by reflexivity.
  assert (Pw2 : w2 * 2 = w1 / 2 * 2) by reflexivity.
  assert (Pw1 : w1 * 2 = dim3 x / 2 * 2) by reflexivity.
  assert (M3 : training = false \/ dim0 x * h3 * w3 <> 1)
    by (right; apply product_not_one; lia).
  assert (M2 : training = false \/ dim0 x * h2 * w2 <> 1)
    by (right; apply product_not_one; lia).
  assert (M1 : training = false \/ dim0 x * h1 * w1 <> 1)
    by (right; apply product_not_one; lia).
  assert (M0 : training = false \/ dim0 x * dim2 x * dim3 x <> 1)
    by (right; apply product_not_one; lia).
  subst h4 w4. clear Hbot Eh4 Ew4 N0 N1 N2 N3.
  clearbody h3 w3. clearbody h2 w2. clearbody h1 w1.
  unfold stage_cat. cbv zeta.
  rewrite <- Ph3, <- Ph2, <- Ph1, <- Pw3, <- Pw2, <- Pw1.
  clear Ph3 Ph2 Ph1 Pw3 Pw2 Pw1.
  destruct bil; cbn [Up_init];
    change (1024 / 2) with 512; change (512 / 2) with 256; change (256 / 2) with 128;
    change (128 / 2) with 64; change (1024 / 1) with 1024; change (512 / 1) with 512;
    change (256 / 1) with 256; change (128 / 1) with 128.
  all: repeat (erewrite Up_forward_in_ok;
    [ erewrite Up_forward_ok;
      [ | cbn [up_up UpLayer_forward]; unfold ConvTranspose2d, Upsample;
          cbn [dim0 dim1 dim2 dim3 negb Z.eqb Pos.eqb]; reflexivity
        | reflexivity | cbn [dim2]; lia | cbn [dim3]; lia | reflexivity ]
    | cbn [up_up UpLayer_forward]; unfold ConvTranspose2d, Upsample;
      cbn [dim0 dim1 dim2 dim3 negb Z.eqb Pos.eqb]; reflexivity
    | reflexivity | cbn [dim2]; lia | cbn [dim3]; lia | reflexivity
    | cbn [dim0 dim2 dim3]; assumption ];
    cbn [up_conv DoubleConv_init dc_in dc_mid dc_out dim0 dim1 dim2 dim3];
    rewrite bind_logged).
  all: unfold OutConv_forward, Conv2d; cbn [oc_in oc_out dim0 dim1 dim2 dim3];
    settle; cbn [negb orb cats value fst snd Torch.ret app].
  all: repeat f_equal; lia.
Qed.

(** One pooling stage in either mode: it refuses, or stops for want of
    values, or the run goes on with the halved size. *)
Ltac pool_stage_in h w h' w' :=
  rewrite Down_forward_in_spec;
  cbn [Down_init DoubleConv_init down_conv dc_in dc_mid dc_out dim0 dim1 dim2 dim3];
  destruct (Z.leb_spec 2 h); cbn [andb]; [|rewrite bind_raise; reflexivity];
  destruct (Z.leb_spec 2 w); cbn [andb]; [|rewrite bind_raise; reflexivity];
  rewrite Z.eqb_refl;
  match goal with
  | |- context [?t && ?c] => destruct (t && c); [rewrite bind_raise; reflexivity|]
  end;
  rewrite bind_ret;
  set (h' := h / 2) in *; set (w' := w / 2) in *;
  assert (h' * 2 <= h <= h' * 2 + 1) by (subst h'; lia);
  assert (w' * 2 <= w <= w' * 2 + 1) by (subst w'; lia);
  clearbody h' w'.

Lemma UNet_forward_in_too_small (training : bool) (nc ncl : Z) (bil : bool) (x : Size) :
  dim1 x = nc -> 1 <= dim2 x -> 1 <= dim3 x -> dim2 x < 16 \/ dim3 x < 16 ->
  is_ok (value (UNet_forward_in training (UNet_init nc ncl bil) x)) = false.
Proof.
  intros Hc Hh Hw Hsmall. unfold UNet_forward_in.
  cbn [UNet_init inc down1 down2 down3 down4 up1 up2 up3 up4 outc].
  rewrite DoubleConv_forward_in_spec. cbn [DoubleConv_init dc_in dc_mid dc_out].
  rewrite Hc, Z.eqb_refl. settle. cbn [andb].
  match goal with
  | |- context [?t && ?c] => destruct (t && c); [rewrite bind_raise; reflexivity|]
  end.
  rewrite bind_ret.
  pool_stage_in (dim2 x) (dim3 x) h1 w1.
  pool_stage_in h1 w1 h2 w2.
  pool_stage_in h2 w2 h3 w3.
  pool_stage_in h3 w3 h4 w4.
  exfalso. lia.
Qed.

Lemma UNet_forward_in_first_conv (training : bool) (nc ncl : Z) (bil : bool) (x : Size) :
  (dim1 x <> nc ->
   UNet_forward_in training (UNet_init nc ncl bil) x =
     ([], Raise (ChannelMismatch nc (dim1 x)))) /\
  (dim1 x = nc -> dim2 x < 1 \/ dim3 x < 1 ->
   UNet_forward_in training (UNet_init nc ncl bil) x = ([], Raise KernelTooLarge)).
Proof.
  split.
  - intros Hc. unfold UNet_forward_in.
    cbn [UNet_init inc down1 down2 down3 down4 up1 up2 up3 up4 outc].
    rewrite DoubleConv_forward_in_spec. cbn [DoubleConv_init dc_in dc_mid dc_out].
    rewrite (proj2 (Z.eqb_neq _ _) Hc). reflexivity.
  - intros Hc Hs. unfold UNet_forward_in.
    cbn [UNet_init inc down1 down2 down3 down4 up1 up2 up3 up4 outc].
    rewrite DoubleConv_forward_in_spec. cbn [DoubleConv_init dc_in dc_mid dc_out].
    rewrite Hc, Z.eqb_refl.
    destruct Hs; settle; cbn [andb]; rewrite ?andb_false_r; reflexivity.
Qed.

(** X1. Which inputs the forward pass accepts, in either mode of the
    network. In evaluation mode, the mode the Colorizer puts its network in,
    it returns exactly for inputs with the network's channel count and at
    least 16 rows and 16 columns. In training mode, the mode the constructor
    leaves a network in, it refuses in addition a batch of one with fewer
    than 32 rows and 32 columns: the bottleneck then holds one value per
    channel and batch normalisation raises, before any concatenation. In
    both modes a wrong channel count is refused by the first convolution and
    an empty input by its kernel check; in evaluation mode anything else
    below 16 x 16 is refused by a pooling layer whose output would be
    empty. *)
Theorem UNet_forward_accepts_exactly
    (training : bool) (nc ncl : Z) (bil : bool) (x : Size) :
  let run := UNet_forward_in training (UNet_init nc ncl bil) x in
  (is_ok (value run) = true <->
     dim1 x = nc /\ 16 <= dim2 x /\ 16 <= dim3 x /\
     (training = true -> ~ (dim0 x = 1 /\ dim2 x < 32 /\ dim3 x < 32))) /\
  (training = false -> run = UNet_forward (UNet_init nc ncl bil) x) /\
  (dim1 x <> nc -> run = ([], Raise (ChannelMismatch nc (dim1 x)))) /\
  (dim1 x = nc -> dim2 x < 1 \/ dim3 x < 1 -> run = ([], Raise KernelTooLarge)) /\
  (training = false -> dim1 x = nc -> 1 <= dim2 x -> 1 <= dim3 x ->
     dim2 x < 16 \/ dim3 x < 16 -> run = ([], Raise OutputTooSmall)) /\
  (training = true -> dim1 x = nc -> dim0 x = 1 ->
     16 <= dim2 x < 32 -> 16 <= dim3 x < 32 ->
     run = ([], Raise (TooFewValues (mkSize 1 (1024 / (if bil then 2 else 1)) 1 1)))).
Proof.
  intros run. subst run.
  destruct (UNet_forward_in_first_conv training nc ncl bil x) as [Hmis Hker].
  split; [|split; [|split; [exact Hmis|split; [exact Hker|split]]]].
  - destruct (Z.eq_dec (dim1 x) nc) as [Hc|Hc];
      [|rewrite (Hmis Hc); cbn; split; [discriminate | intros (? & _); contradiction]].
    destruct (Z_lt_le_dec (dim2 x) 1) as [Hh1|Hh1];
      [rewrite (Hker Hc (or_introl Hh1)); cbn; split;
         [discriminate | intros (_ & ? & _); lia]|].
    destruct (Z_lt_le_dec (dim3 x) 1) as [Hw1|Hw1];
      [rewrite (Hker Hc (or_intror Hw1)); cbn; split;
         [discriminate | intros (_ & _ & ? & _); lia]|].
    destruct (Z_lt_le_dec (dim2 x) 16) as [Hh|Hh];
      [rewrite (UNet_forward_in_too_small training nc ncl bil x Hc Hh1 Hw1 (or_introl Hh));
       split; [discriminate | intros (_ & ? & _); lia]|].
    destruct (Z_lt_le_dec (dim3 x) 16) as [Hw|Hw];
      [rewrite (UNet_forward_in_too_small training nc ncl bil x Hc Hh1 Hw1 (or_intror Hw));
       split; [discriminate | intros (_ & _ & ? & _); lia]|].
    rewrite (UNet_forward_in_closed_form training nc ncl bil x Hc Hh Hw).
    rewrite (UNet_forward_closed_form nc ncl bil x Hc Hh Hw).
    set (h4 := dim2 x / 2 / 2 / 2 / 2). set (w4 := dim3 x / 2 / 2 / 2 / 2).
    assert (Eh : 1 <= h4 /\ (h4 = 1 <-> dim2 x < 32)) by (subst h4; lia).
    assert (Ew : 1 <= w4 /\ (w4 = 1 <-> dim3 x < 32)) by (subst w4; lia).
    clearbody h4 w4.
    pose proof (product_one (dim0 x) h4 w4 (proj1 Eh) (proj1 Ew)) as Hone.
    destruct training; cbn [andb].
    + destruct (Z.eqb_spec (dim0 x * h4 * w4) 1) as [E|E]; cbn [value snd is_ok].
      * split; [discriminate|]. intros (_ & _ & _ & Hn). exfalso. apply (Hn eq_refl).
        apply Hone in E. lia.
      * split; [|reflexivity]. intros _. repeat split; try assumption.
        intros _ (Hn1 & Hh32 & Hw32). apply E. apply Hone. lia.
    + cbn [value snd is_ok]. split; [|reflexivity]. intros _.
      repeat split; try assumption. discriminate.
  - intros ->. reflexivity.
  - intros -> Hc Hh Hw Hs. apply (UNet_forward_too_small nc ncl bil x Hc Hh Hw Hs).
  - intros -> Hc Hn Hh Hw.
    rewrite (UNet_forward_in_closed_form true nc ncl bil x Hc) by lia.
    replace (dim2 x / 2 / 2 / 2 / 2) with 1 by lia.
    replace (dim3 x / 2 / 2 / 2 / 2) with 1 by lia.
    rewrite Hn. reflexivity.
Qed.

Lemma UNet_forward_accepts_exactly_witness :
  UNet_forward (UNet_init 1 3 false) (mkSize 1 1 15 300) = ([], Raise OutputTooSmall) /\
  UNet_forward_in true (UNet_init 1 3 false) (mkSize 1 1 16 16) =
    ([], Raise (TooFewValues (mkSize 1 1024 1 1))) /\
  is_ok (value (UNet_forward_in true (UNet_init 1 3 false) (mkSize 2 1 16 16))) = true /\
  is_ok (value (UNet_forward (UNet_init 1 3 false) (mkSize 1 1 16 16))) = true.
Proof.
  destruct (UNet_forward_accepts_exactly false 1 3 false (mkSize 1 1 15 300))
    as (_ & He & _ & _ & Hs & _).
  destruct (UNet_forward_accepts_exactly true 1 3 false (mkSize 1 1 16 16))
    as (_ & _ & _ & _ & _ & Ht).
  destruct (UNet_forward_accepts_exactly true 1 3 false (mkSize 2 1 16 16))
    as (Hok & _).
  destruct (UNet_forward_accepts_exactly false 1 3 false (mkSize 1 1 16 16))
    as (Hok' & He' & _).
  split; [rewrite <- (He eq_refl); apply Hs; cbn; lia|].
  split; [apply Ht; cbn; lia|].
  split; [apply Hok; cbn; repeat split; try lia; intros _ (? & _); lia|].
  rewrite <- (He' eq_refl). apply Hok'. cbn. repeat split; lia.
Defined.

(** X2. Channel bookkeeping: whenever the forward pass returns, with
    bilinear up-sampling or with transposed convolutions, it has joined
    exactly four pairs of tensors, at 1/8, 1/4, 1/2 and full size; the two
    tensors of a pair carry the same number of channels, 512, 256, 128 and 64
    in turn, so that each double convolution after a concatenation receives
    twice the width of the encoder stage it mirrors. *)
Theorem concatenations_pair_equal_channels (nc ncl : Z) (bil : bool) (x out : Size) :
  value (UNet_forward (UNet_init nc ncl bil) x) = Ok out ->
  let cs := cats (UNet_forward (UNet_init nc ncl bil) x) in
  map (fun c => dim1 (cat_skip c)) cs = [512; 256; 128; 64] /\
  map (fun c => dim1 (cat_padded c)) cs = [512; 256; 128; 64] /\
  map (fun c => (dim2 (cat_skip c), dim3 (cat_skip c))) cs =
    [(dim2 x / 2 / 2 / 2, dim3 x / 2 / 2 / 2); (dim2 x / 2 / 2, dim3 x / 2 / 2);
     (dim2 x / 2, dim3 x / 2); (dim2 x, dim3 x)] /\
  out = mkSize (dim0 x) ncl (dim2 x) (dim3 x).
Proof.
  intros Hok.
  destruct (UNet_forward_cases nc ncl bil x)
    as [(Hc & E)|[(Hc & Hs & E)|[(Hc & Hh & Hw & Hs & E)|(Hc & Hh & Hw & _)]]];
    try (rewrite E in Hok; discriminate Hok).
  revert Hok.
  rewrite (UNet_forward_closed_form nc ncl bil x Hc Hh Hw). cbn [value cats fst snd].
  intros [= <-]. repeat split.
Qed.

Lemma concatenations_pair_equal_channels_witness :
  map (fun c => dim1 (cat_padded c))
      (cats (UNet_forward (UNet_init 1 3 true) (mkSize 2 1 200 120))) = [512; 256; 128; 64].
Proof.
  destruct (concatenations_pair_equal_channels 1 3 true (mkSize 2 1 200 120)
              (mkSize 2 3 200 120)) as (_ & H & _).
  - vm_compute. reflexivity.
  - exact H.
Defined.

(** X3. Up.forward with any layer and any two tensors of one batch size,
    whichever of them is the larger: once the up-sampling layer returns and
    the channel counts add up to what the double convolution expects, the
    result has the second tensor's height and width. Where the up-sampled
    tensor is the larger one, F.pad is given negative amounts and crops it,
    the odd unit coming off the leading edge. *)
Theorem Up_forward_takes_the_partner_size (self : Up) (x1 x2 u : Size) :
  UpLayer_forward (up_up self) x1 = Torch.ret u ->
  dim0 u = dim0 x2 -> 1 <= dim2 x2 -> 1 <= dim3 x2 ->
  dim1 x2 + dim1 u = dc_in (up_conv self) ->
  value (Up_forward self x1 x2) =
    Ok (mkSize (dim0 x2) (dc_out (up_conv self)) (dim2 x2) (dim3 x2)) /\
  Forall padded_to_skip (cats (Up_forward self x1 x2)) /\
  (dim3 x2 < dim3 u -> Z.odd (dim3 x2 - dim3 u) = true ->
   exists p_left p_right rest,
     map cat_pad (cats (Up_forward self x1 x2)) = [p_left :: p_right :: rest] /\
     p_left < 0 /\ p_left = p_right - 1).
Proof.
  intros Hu Hn Hh Hw Hc. split; [|split].
  - rewrite (Up_forward_ok self x1 x2 u Hu Hn Hh Hw Hc). reflexivity.
  - apply Up_forward_pads_to_skip.
  - intros Hlt Hodd. rewrite (Up_forward_ok self x1 x2 u Hu Hn Hh Hw Hc).
    cbn [cats fst map cat_pad]. unfold Up_padding.
    eexists _, _, _. split; [reflexivity|].
    apply Z.odd_spec in Hodd. destruct Hodd as [k Hk]. lia.
Qed.

Lemma Up_forward_takes_the_partner_size_witness :
  value (Up_forward (Up_init 128 64 false) (mkSize 1 128 10 10) (mkSize 1 64 15 17)) =
    Ok (mkSize 1 64 15 17) /\
  map cat_pad (cats (Up_forward (Up_init 128 64 false) (mkSize 1 128 10 10)
                       (mkSize 1 64 15 17))) = [[-2; -1; -3; -2]].
Proof.
  destruct (Up_forward_takes_the_partner_size (Up_init 128 64 false) (mkSize 1 128 10 10)
              (mkSize 1 64 15 17) (mkSize 1 64 20 20)) as (Hv & _ & _);
    try (vm_compute; reflexivity); try (cbn; lia).
  split; [exact Hv | vm_compute; reflexivity].
Defined.
End NetworkMore.

(** ** Files written and read back *)

Section FilesMore.
Import Runtime Os Main Props PropsMore.

Lemma is_dir_insert_file (f : FS) (loc l : list string) (d : Blob) :
  f !! loc <> Some Dir -> is_dir (<[loc := File d]> f) l = is_dir f l.
Proof.
  intros Hn. unfold is_dir. destruct l as [|x l']; [reflexivity|].
  destruct (decide (loc = x :: l')) as [->|Hne].
  - rewrite lookup_insert_eq. destruct (f !! (x :: l')) as [[|d']|]; congruence.
  - rewrite lookup_insert_ne by exact Hne. reflexivity.
Qed.

Lemma walk_insert_file (f : FS) (loc : list string) (d : Blob) (comps cur : list string) :
  f !! loc <> Some Dir -> walk (<[loc := File d]> f) cur comps = walk f cur comps.
Proof.
  intros Hn. revert cur. induction comps as [|c rest IH]; intros cur; [reflexivity|].
  cbn. rewrite is_dir_insert_file by exact Hn.
  destruct (is_dir f cur); [|reflexivity].
  destruct (Py.is_current c); [apply IH|].
  destruct (String.eqb c ".."); apply IH.
Qed.

Lemma walk_too_long_insert_file (f : FS) (loc : list string) (d : Blob)
    (comps cur : list string) :
  f !! loc <> Some Dir ->
  walk_too_long (<[loc := File d]> f) cur comps = walk_too_long f cur comps.
Proof.
  intros Hn. revert cur. induction comps as [|c rest IH]; intros cur; [reflexivity|].
  cbn [walk_too_long]. rewrite is_dir_insert_file by exact Hn.
  destruct (is_dir f cur); [|reflexivity].
  destruct (Py.is_current c); [apply IH|].
  destruct (String.eqb c ".."); [apply IH|].
  destruct (NAME_MAX <? Py.len c); [reflexivity | apply IH].
Qed.

Lemma usable_insert_file (f : FS) (loc : list string) (d : Blob) (wd : list string)
    (p : string) :
  f !! loc <> Some Dir -> usable (<[loc := File d]> f) wd p = usable f wd p.
Proof.
  intros Hn. unfold usable, name_too_long.
  rewrite (walk_too_long_insert_file f loc d _ _ Hn). reflexivity.
Qed.

(** What a successful write did: one entry, at the place the path resolves
    to, now holds the data. *)
Lemma write_file_inv (f f' : FS) (wd : list string) (p : string) (d : Blob) :
  write_file f wd p d = Some f' ->
  exists loc, resolve f wd p = Some loc /\ loc <> [] /\ f !! loc <> Some Dir /\
              f' = <[loc := File d]> f.
Proof.
  unfold write_file. destruct (usable f wd p); [|discriminate].
  destruct (resolve f wd p) as [loc|]; [|discriminate].
  destruct loc as [|x l]; [discriminate|].
  destruct (f !! (x :: l)) as [[|d0]|] eqn:E; [discriminate| |];
    (destruct (is_dir f (removelast (x :: l))); [|discriminate]);
    intros [= <-]; exists (x :: l); repeat split; congruence.
Qed.

Lemma write_file_usable (f f' : FS) (wd : list string) (p : string) (d : Blob) :
  write_file f wd p d = Some f' -> usable f wd p = true.
Proof. unfold write_file. destruct (usable f wd p); [reflexivity | discriminate]. Qed.

Lemma resolve_after_write (f f' : FS) (wd : list string) (p q : string) (d : Blob) :
  write_file f wd p d = Some f' -> resolve f' wd q = resolve f wd q.
Proof.
  intros H. destruct (write_file_inv _ _ _ _ _ H) as (loc & _ & _ & Hn & ->).
  unfold resolve. apply walk_insert_file. exact Hn.
Qed.

Lemma usable_after_write (f f' : FS) (wd : list string) (p q : string) (d : Blob) :
  write_file f wd p d = Some f' -> usable f' wd q = usable f wd q.
Proof.
  intros H. destruct (write_file_inv _ _ _ _ _ H) as (loc & _ & _ & Hn & ->).
  apply usable_insert_file. exact Hn.
Qed.

Lemma read_after_write (f f' : FS) (wd : list string) (p : string) (d : Blob) :
  write_file f wd p d = Some f' ->
  read_file f' wd p = Some d /\ exists_ f' wd p = true.
Proof.
  intros H. pose proof (resolve_after_write _ _ _ p p _ H) as Hr.
  pose proof (usable_after_write _ _ _ p p _ H) as Hu.
  rewrite (write_file_usable _ _ _ _ _ H) in Hu.
  destruct (write_file_inv _ _ _ _ _ H) as (loc & Hres & Hne & Hn & ->).
  unfold read_file, exists_, lookup_path. rewrite Hu, Hr, Hres.
  destruct loc as [|x l]; [contradiction|]. rewrite lookup_insert_eq. split; reflexivity.
Qed.

(** The existence test of pathlib on a file just written. *)
Lemma path_exists_after_write (f f' : FS) (wd : list string) (p : string) (d : Blob) :
  write_file f wd p d = Some f' -> path_exists f' wd p = Ok true.
Proof.
  intros H. destruct (read_after_write _ _ _ _ _ H) as [_ Hex].
  destruct (path_exists_cases f' wd p) as [(msg & _ & _ & _ & E)|[-> _]];
    [congruence | rewrite Hex; reflexivity].
Qed.

(** Service state through a computation. *)
Lemma steady_refl (w : World) : steady w w.
Proof. repeat split. exists []. symmetry. apply app_nil_r. Qed.

Lemma steady_trans (w1 w2 w3 : World) : steady w1 w2 -> steady w2 w3 -> steady w1 w3.
Proof.
  intros (C1 & K1 & T1 & l1 & L1) (C2 & K2 & T2 & l2 & L2).
  repeat split; try congruence. exists (l1 ++ l2). rewrite L2, L1. symmetry. apply app_assoc.
Qed.

Lemma quiet_steady (w w' : World) : quiet w w' -> steady w w'.
Proof. intros (_ & H). exact H. Qed.

Lemma keeps_ret {A} (a : A) : keeps_service (mret a).
Proof. intros w r w' [= _ <-]. apply steady_refl. Qed.

Lemma keeps_raise {A} (e : Exn) : keeps_service (@Runtime.raise A e).
Proof. intros w r w' [= _ <-]. apply steady_refl. Qed.

Lemma keeps_get : keeps_service Runtime.get.
Proof. intros w r w' [= _ <-]. apply steady_refl. Qed.

Lemma keeps_logger (l : Level) (msg : string) : keeps_service (logger l msg).
Proof. intros w r w' [= _ <-]. repeat split. eexists. reflexivity. Qed.

Lemma keeps_set_fs (f : FS) : keeps_service (modify (set_fs f)).
Proof.
  intros w r w' [= _ <-]. repeat split. exists []. cbn. symmetry. apply app_nil_r.
Qed.

Lemma keeps_silent {A} (m : Py A) : silent m -> keeps_service m.
Proof. intros H w r w' E. apply quiet_steady. eapply H. exact E. Qed.

Lemma keeps_bind {A B} (m : Py A) (f : A -> Py B) :
  keeps_service m -> (forall a, keeps_service (f a)) -> keeps_service (m ≫= f).
Proof.
  intros Hm Hf w r w'. py_unfold. destruct (m w) as [[a|e] w1] eqn:E.
  - intros H. eapply steady_trans; [eapply Hm; exact E | eapply Hf; exact H].
  - intros [= _ <-]. eapply Hm; exact E.
Qed.

Lemma keeps_try {A} (m : Py A) (h : Exn -> Py A) :
  keeps_service m -> (forall e, keeps_service (h e)) -> keeps_service (try_except m h).
Proof.
  intros Hm Hh w r w'. py_unfold. destruct (m w) as [[a|e] w1] eqn:E.
  - intros [= _ <-]. eapply Hm; exact E.
  - intros H. eapply steady_trans; [eapply Hm; exact E | eapply Hh; exact H].
Qed.

Ltac keeps_steps :=
  repeat first
    [ apply keeps_ret | apply keeps_raise | apply keeps_get
    | apply keeps_logger | apply keeps_set_fs
    | apply keeps_bind; [|intros ?]
    | apply keeps_try; [|intros ?]
    | match goal with
      | |- keeps_service (match ?x with _ => _ end) => destruct x
      end ].

Lemma keeps_save_image (env : Env) (img : NdArray) (p : string) :
  keeps_service (ImageProcessing.save_image env img p).
Proof.
  unfold ImageProcessing.save_image, ImageProcessing.mkdir_parent, Cv2.imwrite.
  keeps_steps.
Qed.

Lemma keeps_process_colorization (env : Env) (i o id : string) :
  keeps_service (process_colorization env i o id).
Proof.
  unfold process_colorization, colorization_work.
  apply keeps_try; [|intros e; apply keeps_logger].
  apply keeps_bind; [apply keeps_logger|intros _].
  apply keeps_bind; [apply keeps_get|intros w0].
  apply keeps_bind; [apply keeps_silent, silent_process_image|intros img].
  apply keeps_bind; [apply keeps_save_image|intros _]. apply keeps_logger.
Qed.

Lemma process_colorization_returns (env : Env) (i o id : string) (w : World) :
  fst (process_colorization env i o id w) = Ok tt.
Proof.
  unfold process_colorization. py_unfold.
  destruct (colorization_work env i o id w) as [[[]|e] w1]; reflexivity.
Qed.

(** One job leaves its block of log lines, whether its work returned or
    raised. *)
Lemma process_colorization_block (env : Env) (i o id : string) (w : World) :
  exists block, log (snd (process_colorization env i o id w)) = log w ++ block /\
                job_block id block.
Proof.
  unfold process_colorization, colorization_work, job_block. py_unfold.
  set (w0 := add_log (mkLog INFO ("Starting colorization for file " +:+ id)) w).
  destruct (ImageProcessing.process_image env i (colorizer w0) w0) as [[img|e] w1] eqn:E1;
    pose proof (keeps_silent _ (silent_process_image env i (colorizer w0)) _ _ _ E1)
      as (_ & _ & _ & l1 & L1).
  - destruct (ImageProcessing.save_image env img o w1) as [[[]|e] w2] eqn:E2;
      pose proof (keeps_save_image env img o _ _ _ E2) as (_ & _ & _ & l2 & L2);
      cbn [snd log add_log]; rewrite L2, L1; subst w0; cbn [log add_log];
      eexists; (split; [rewrite <- !app_assoc; reflexivity|]);
      exists (l1 ++ l2); eexists; (split; [cbn; rewrite <- app_assoc; reflexivity|]).
    + left. reflexivity.
    + right. exists e. reflexivity.
  - cbn [snd log add_log]. rewrite L1. subst w0. cbn [log add_log].
    eexists. split; [rewrite <- !app_assoc; reflexivity|].
    exists l1. eexists. split; [reflexivity|]. right. exists e. reflexivity.
Qed.

(** The tasks are run one after the other, each on the state the one before
    it left, and none of them stops the run. *)
Lemma run_tasks_returns (env : Env) (ts : list Task) (w : World) :
  run_tasks env ts w = (Ok tt, run_in_turn env ts w) /\
  steady w (run_in_turn env ts w) /\
  exists blocks, log (run_in_turn env ts w) = log w ++ concat blocks /\
                 Forall2 (fun t block => job_block (task_file_id t) block) ts blocks.
Proof.
  revert w. induction ts as [|t rest IH]; intros w.
  - split; [reflexivity|]. split; [apply steady_refl|].
    exists []. split; [cbn; symmetry; apply app_nil_r | constructor].
  - cbn [run_tasks run_in_turn fold_left]. py_unfold.
    pose proof (process_colorization_block env (task_input t) (task_output t)
                  (task_file_id t) w) as (block & Hlog & Hblock).
    destruct (process_colorization env (task_input t) (task_output t) (task_file_id t) w)
      as [r w1] eqn:E.
    pose proof (process_colorization_returns env (task_input t) (task_output t)
                  (task_file_id t) w) as Hr.
    rewrite E in Hr. cbn in Hr, Hlog. subst r. cbn [snd].
    destruct (IH w1) as (Hrun & Hst & blocks & Hlogs & Hall).
    fold (run_in_turn env rest w1).
    split; [exact Hrun|]. split.
    + eapply steady_trans; [|exact Hst]. eapply keeps_process_colorization. exact E.
    + exists (block :: blocks). split; [|constructor; assumption].
      rewrite Hlogs, Hlog. cbn [concat]. symmetry. apply app_assoc.
Qed.

(** X4. Running the background tasks never raises, whatever the jobs do,
    and every queued task is run: the state afterwards is the one that
    running process_colorization on each task of the queue in turn leaves,
    a job that fails not keeping the later ones from running, and the log
    has grown by one block of lines per queued task, in the order of the
    queue, each opening with that job's "Starting" line and closing with its
    "completed" line or its ERROR line. The queue is empty afterwards; the
    Colorizer the service holds and the working directory are the same. *)
Theorem run_background_tasks_drains_queue (env : Env) (w : World) :
  exists w' blocks,
    run_background_tasks env w = (Ok tt, w') /\
    w' = run_in_turn env (background_tasks w) (set_tasks [] w) /\
    log w' = log w ++ concat blocks /\
    Forall2 (fun t block => job_block (task_file_id t) block) (background_tasks w) blocks /\
    background_tasks w' = [] /\
    colorizer w' = colorizer w /\ cwd w' = cwd w /\
    (background_tasks w = [] -> w' = w).
Proof.
  unfold run_background_tasks. py_unfold.
  destruct (run_tasks_returns env (background_tasks w) (set_tasks [] w))
    as (Hrun & (Hc & Hk & Ht & _) & blocks & Hlog & Hall).
  eexists _, blocks. rewrite Hrun. split; [reflexivity|]. split; [reflexivity|].
  cbn in *. repeat split; try assumption.
  intros Hnil. rewrite Hnil. cbn. destruct w; cbn in *; subst; reflexivity.
Qed.

Lemma run_background_tasks_drains_queue_witness :
  let run := run_background_tasks Samples.plain_env Samples.submitted_world in
  background_tasks Samples.submitted_world <> [] /\
  fst run = Ok tt /\ background_tasks (snd run) = [] /\
  (exists rest,
     log (snd run) = log Samples.submitted_world ++
       mkLog INFO ("Starting colorization for file " +:+ Samples.job_id) :: rest) /\
  exists_ (fs (snd run)) (cwd (snd run))
    ("outputs/" +:+ Samples.job_id +:+ "_output.png") = true.
Proof.
  intros run. subst run.
  destruct (run_background_tasks_drains_queue Samples.plain_env Samples.submitted_world)
    as (w' & blocks & Hrun & Hfold & Hlog & Hall & Hq & _).
  rewrite Hrun. cbn [fst snd].
  split; [vm_compute; discriminate|]. split; [reflexivity|]. split; [exact Hq|]. split.
  - change (background_tasks Samples.submitted_world)
      with [mkTask Samples.submitted_input
              ("outputs/" +:+ Samples.job_id +:+ "_output.png") Samples.job_id] in Hall.
    inversion Hall as [|t block ts bs Hblock Hrest]; subst.
    inversion Hrest; subst.
    destruct Hblock as (middle & closing & -> & _).
    exists (middle ++ [closing]). rewrite Hlog. cbn [concat task_file_id].
    rewrite app_nil_r. reflexivity.
  - rewrite Hfold. vm_compute. reflexivity.
Defined.

(** *** Submission and the life of a job *)

(** colorize_image once the three guards are passed. *)
Lemma colorize_image_past_guards (file : UploadFile) (uuid4 : string) (w : World)
    (ct : string) (c : UNetColorizer) :
  content_type file = Some ct -> Py.startswith ct "image/" = true ->
  size file <= MAX_UPLOAD -> colorizer w = Some c ->
  colorize_image file uuid4 w =
    match write_file (fs w) (cwd w) (input_artifact uuid4 (filename file)) (content file) with
    | Some fs' =>
        (Ok (mkColorizeResponse "Image uploaded successfully" uuid4 "processing"
               ("/uploads/" +:+ Py.name (input_artifact uuid4 (filename file)))
               ("/outputs/" +:+ Py.name (output_artifact uuid4 (filename file)))
               ("/api/progress/" +:+ uuid4)),
         set_tasks (background_tasks w ++
                    [mkTask (input_artifact uuid4 (filename file))
                            (output_artifact uuid4 (filename file)) uuid4])
                   (set_fs fs' w))
    | None =>
        (Raise (HTTPException 500 "Internal server error"),
         add_log (mkLog ERROR "Error processing image: open") w)
    end.
Proof.
  intros Hct Himg Hsize Hc. unfold colorize_image, MAX_UPLOAD in *. rewrite Hct. py_unfold.
  rewrite Himg. cbn [negb].
  destruct (Z.gtb_spec (size file) (10 * 1024 * 1024)) as [Hbig|_]; [lia|].
  rewrite Hc. unfold save_upload, add_task, input_artifact, output_artifact, UPLOAD_DIR,
    OUTPUT_DIR. py_unfold.
  destruct (write_file _ _ _ _); reflexivity.
Qed.

(** X5. A valid upload met by an available engine is answered 200 or 500,
    according to whether the input artifact could be written. On 200 the
    artifact holds the uploaded bytes as they came, it is the only entry of
    the file system that changed, exactly one task was queued, for this id
    and this artifact, and nothing was logged. On 500 one ERROR line was
    logged and nothing else happened: no file, no task. *)
Theorem colorize_image_stores_then_schedules (file : UploadFile) (uuid4 : string)
    (w : World) (ct : string) (c : UNetColorizer) :
  content_type file = Some ct -> Py.startswith ct "image/" = true ->
  size file <= MAX_UPLOAD -> colorizer w = Some c ->
  let input_path := input_artifact uuid4 (filename file) in
  let output_path := output_artifact uuid4 (filename file) in
  let run := colorize_image file uuid4 w in
  (status_code_of (fst run) = 200 \/ status_code_of (fst run) = 500) /\
  (status_code_of (fst run) = 200 ->
     exists loc,
       resolve (fs w) (cwd w) input_path = Some loc /\
       fs (snd run) = <[loc := File (content file)]> (fs w) /\
       read_file (fs (snd run)) (cwd (snd run)) input_path = Some (content file) /\
       background_tasks (snd run) =
         background_tasks w ++ [mkTask input_path output_path uuid4] /\
       log (snd run) = log w /\ colorizer (snd run) = colorizer w /\
       (cr_file_id <$> fst_ok run) = Some uuid4) /\
  (status_code_of (fst run) = 500 ->
     snd run = add_log (mkLog ERROR "Error processing image: open") w).
Proof.
  intros Hct Himg Hsize Hc. cbv zeta.
  rewrite (colorize_image_past_guards file uuid4 w ct c Hct Himg Hsize Hc).
  destruct (write_file (fs w) (cwd w) (input_artifact uuid4 (filename file)) (content file))
    as [fs'|] eqn:Hw; cbn [fst snd status_code_of].
  - split; [left; reflexivity|]. split; [|discriminate]. intros _.
    destruct (write_file_inv _ _ _ _ _ Hw) as (loc & Hres & _ & _ & Heq).
    exists loc. cbn. split; [exact Hres|]. split; [exact Heq|].
    split; [apply (read_after_write _ _ _ _ _ Hw)|]. repeat split.
  - split; [right; reflexivity|]. split; [discriminate | reflexivity].
Qed.

Lemma colorize_image_stores_then_schedules_witness :
  read_file (fs Samples.submitted_world) (cwd Samples.submitted_world)
    (input_artifact Samples.job_id "photo.png") = Some [x89; x50; x4e; x47].
Proof.
  assert (Hsize : size Samples.png_upload <= MAX_UPLOAD) by (vm_compute; discriminate).
  assert (Hc : colorizer Samples.started_world = Some Samples.started_colorizer)
    by (vm_compute; reflexivity).
  pose proof (colorize_image_stores_then_schedules Samples.png_upload Samples.job_id
                Samples.started_world "image/png" Samples.started_colorizer
                eq_refl eq_refl Hsize Hc) as (_ & H & _).
  destruct H as (loc & _ & _ & Hread & _); [vm_compute; reflexivity|]. exact Hread.
Defined.

(** The value colorize returns depends on the files only. *)
Lemma postprocess_output_pure (self : UNetColorizer) (out : NdArray) :
  exists r, forall w, Colorizer.postprocess_output self out w = (r, w).
Proof.
  unfold Colorizer.postprocess_output, Colorizer.np_transpose. py_unfold.
  destruct (negb _); eexists; intros; reflexivity.
Qed.

Lemma colorize_value_frame (env : Env) (self : UNetColorizer) (p : string) (w1 w2 : World) :
  fs w1 = fs w2 -> cwd w1 = cwd w2 ->
  fst (Colorizer.colorize env self p w1) = fst (Colorizer.colorize env self p w2).
Proof.
  intros Hf Hc. unfold Colorizer.colorize. py_unfold.
  rewrite !preprocess_image_spec, Hf, Hc.
  destruct (read_file (fs w2) (cwd w2) p) as [data|]; [|reflexivity].
  destruct (cv2_decode env data) as [[h wd]|]; [|reflexivity].
  match goal with |- context [Colorizer.call_model self ?t] =>
    destruct (call_model_spec self t) as [r Hr] end.
  rewrite !Hr. destruct r as [out|e]; [|reflexivity].
  destruct (postprocess_output_pure self out) as [r' Hr']. rewrite !Hr'.
  destruct r'; reflexivity.
Qed.

(** The work of a job, when it returns. *)
Lemma colorization_work_ok_inv (env : Env) (i o id : string) (w w' : World) :
  colorization_work env i o id w = (Ok tt, w') ->
  exists c img data fs1 fs2,
    colorizer w = Some c /\
    fst (Colorizer.colorize env c i w) = Ok img /\
    cv2_encode env (Cv2.extension o) (as_written img) = Some data /\
    mkdir_parents (fs w) (cwd w) (Py.parent o) = Some fs1 /\
    write_file fs1 (cwd w) o data = Some fs2 /\
    fs w' = fs2 /\ cwd w' = cwd w /\
    last (log w') = Some (mkLog INFO ("Colorization completed for file " +:+ id)).
Proof.
  unfold colorization_work, ImageProcessing.process_image. py_unfold. cbn.
  set (wa := add_log _ w).
  destruct (colorizer w) as [c|]; [|discriminate].
  destruct (Colorizer.colorize env c i wa) as [[img|e] wb] eqn:Hcol; [|discriminate].
  assert (Hq : quiet wa wb) by (eapply silent_colorize; exact Hcol).
  assert (Himg : fst (Colorizer.colorize env c i w) = Ok img).
  { rewrite (colorize_value_frame env c i w wa) by reflexivity. rewrite Hcol. reflexivity. }
  destruct Hq as (Hf & Hc & _).
  unfold ImageProcessing.save_image, ImageProcessing.mkdir_parent, Cv2.imwrite. py_unfold.
  cbn. rewrite Hf, Hc. cbn.
  destruct (mkdir_parents (fs w) (cwd w) (Py.parent o)) as [fs1|] eqn:Hmk; [|discriminate].
  cbn. fold (as_written img).
  destruct (cv2_encode env (Cv2.extension o) (as_written img)) as [data|] eqn:Henc;
    [|discriminate].
  cbn. rewrite Hc. cbn.
  destruct (write_file fs1 (cwd w) o data) as [fs2|] eqn:Hwr; [|discriminate].
  cbn. intros [= <-]. exists c, img, data, fs1, fs2. cbn.
  repeat split; try assumption. rewrite last_snoc. reflexivity.
Qed.

Lemma finished_work_inv_exists (env : Env) (i o id : string) (w w' : World) :
  colorization_work env i o id w = (Ok tt, w') ->
  exists data, read_file (fs w') (cwd w') o = Some data /\
               path_exists (fs w') (cwd w') o = Ok true.
Proof.
  intros Hwork.
  destruct (colorization_work_ok_inv env i o id w w' Hwork)
    as (c & img & data & fs1 & fs2 & _ & _ & _ & _ & Hwr & Hfs & Hcwd & _).
  exists data. rewrite Hfs, Hcwd.
  split; [apply (read_after_write _ _ _ _ _ Hwr) | apply (path_exists_after_write _ _ _ _ _ Hwr)].
Qed.

(** X6. When the work of a job returns, the output path holds what the
    encoder for the path's extension made of the colorized image (converted
    to BGR), and reading that path gives it back; every other regular file,
    the input artifact among them, is as it was; and the last log line
    reports the job as completed. *)
Theorem finished_work_leaves_the_result (env : Env) (i o id : string) (w w' : World) :
  colorization_work env i o id w = (Ok tt, w') ->
  exists c img data loc,
    colorizer w = Some c /\
    fst (Colorizer.colorize env c i w) = Ok img /\
    cv2_encode env (Cv2.extension o) (as_written img) = Some data /\
    read_file (fs w') (cwd w') o = Some data /\
    exists_ (fs w') (cwd w') o = true /\
    resolve (fs w') (cwd w') o = Some loc /\
    (forall l d, l <> loc ->
       fs w' !! l = Some (File d) <-> fs w !! l = Some (File d)) /\
    last (log w') = Some (mkLog INFO ("Colorization completed for file " +:+ id)).
Proof.
  intros Hwork.
  destruct (colorization_work_ok_inv env i o id w w' Hwork)
    as (c & img & data & fs1 & fs2 & Hc & Himg & Henc & Hmk & Hwr & Hfs & Hcwd & Hlog).
  destruct (write_file_inv _ _ _ _ _ Hwr) as (loc & Hres & _ & _ & Heq).
  exists c, img, data, loc. rewrite Hfs, Hcwd.
  destruct (read_after_write _ _ _ _ _ Hwr) as [Hread Hex].
  split; [exact Hc|]. split; [exact Himg|]. split; [exact Henc|].
  split; [exact Hread|]. split; [exact Hex|].
  split; [rewrite (resolve_after_write _ _ _ o o _ Hwr); exact Hres|].
  split; [|exact Hlog].
  intros l d Hl. rewrite Heq, lookup_insert_ne by congruence.
  apply (mkdir_parents_same_files _ _ _ _ Hmk).
Qed.

Lemma finished_work_leaves_the_result_witness :
  let w := snd (colorize_image Samples.jpg_upload Samples.job_id Samples.started_world) in
  exists data,
    read_file
      (fs (snd (colorization_work Samples.plain_env
                  (input_artifact Samples.job_id "photo.jpg")
                  (output_artifact Samples.job_id "photo.jpg") Samples.job_id w)))
      (cwd w) (output_artifact Samples.job_id "photo.jpg") = Some data.
Proof.
  intros w.
  destruct (finished_work_leaves_the_result Samples.plain_env
              (input_artifact Samples.job_id "photo.jpg")
              (output_artifact Samples.job_id "photo.jpg") Samples.job_id w
              (snd (colorization_work Samples.plain_env
                      (input_artifact Samples.job_id "photo.jpg")
                      (output_artifact Samples.job_id "photo.jpg") Samples.job_id w)))
    as (c & img & data & loc & _ & _ & _ & Hread & _).
  - vm_compute. reflexivity.
  - exists data. exact Hread.
Defined.

(** colorize_image returns a body only through its last branch. *)
Lemma colorize_image_ok_inv (file : UploadFile) (uuid4 : string) (w w1 : World)
    (resp : ColorizeResponse) :
  colorize_image file uuid4 w = (Ok resp, w1) ->
  exists fs',
    write_file (fs w) (cwd w) (input_artifact uuid4 (filename file)) (content file)
      = Some fs' /\
    w1 = set_tasks (background_tasks w ++
                    [mkTask (input_artifact uuid4 (filename file))
                            (output_artifact uuid4 (filename file)) uuid4])
                   (set_fs fs' w).
Proof.
  intros Hrun.
  destruct (content_type file) as [ct|] eqn:Hct.
  2:{ revert Hrun. unfold colorize_image. rewrite Hct. py_unfold. discriminate. }
  destruct (Py.startswith ct "image/") eqn:Himg.
  2:{ revert Hrun. unfold colorize_image. rewrite Hct. py_unfold. rewrite Himg. discriminate. }
  destruct (Z_le_gt_dec (size file) MAX_UPLOAD) as [Hsize|Hsize].
  2:{ revert Hrun. unfold colorize_image, MAX_UPLOAD in *. rewrite Hct. py_unfold.
      rewrite Himg. cbn [negb]. rewrite (proj2 (Z.gtb_lt _ _)) by lia. discriminate. }
  destruct (colorizer w) as [c|] eqn:Hc.
  2:{ revert Hrun. unfold colorize_image, MAX_UPLOAD in *. rewrite Hct. py_unfold.
      rewrite Himg. cbn [negb].
      destruct (Z.gtb_spec (size file) (10 * 1024 * 1024)); [lia|]. rewrite Hc. discriminate. }
  rewrite (colorize_image_past_guards file uuid4 w ct c Hct Himg Hsize Hc) in Hrun.
  destruct (write_file _ _ _ _) as [fs'|]; [|discriminate].
  injection Hrun as _ <-. exists fs'. split; reflexivity.
Qed.

(** X7. A job submitted with a file name ending in ".jpg" is written where
    status and download look: when nothing else is queued and the run of the
    background tasks ends with the job's completion line in the log, status
    answers "completed" with progress 100 and download answers 200 with the
    result file. *)
Theorem jpg_job_reaches_completed (env : Env) (file : UploadFile) (uuid4 : string)
    (w w1 : World) (resp : ColorizeResponse) :
  Py.suffix (filename file) = ".jpg" ->
  background_tasks w = [] ->
  colorize_image file uuid4 w = (Ok resp, w1) ->
  let w2 := snd (run_background_tasks env w1) in
  last (log w2) = Some (mkLog INFO ("Colorization completed for file " +:+ uuid4)) ->
  fst (get_progress uuid4 w2) =
    Ok (mkProgress uuid4 "completed" 100
          (Some ("/outputs/" +:+ Py.name (result_path uuid4)))) /\
  fst (download_result uuid4 w2) =
    Ok (mkFileResponse (result_path uuid4) ("colorized_" +:+ uuid4 +:+ ".jpg") "image/jpeg") /\
  exists data, read_file (fs w2) (cwd w2) (result_path uuid4) = Some data.
Proof.
  intros Hsfx Hq Hsub w2 Hlog.
  destruct (colorize_image_ok_inv file uuid4 w w1 resp Hsub) as (fs' & Hwr & ->).
  assert (Hout : output_artifact uuid4 (filename file) = result_path uuid4).
  { unfold output_artifact, result_path, OUTPUT_DIR. rewrite Hsfx. reflexivity. }
  subst w2. revert Hlog. rewrite Hout, Hq. cbn [app].
  unfold run_background_tasks. py_unfold.
  cbn [background_tasks set_tasks set_fs run_tasks task_input task_output task_file_id].
  py_unfold. unfold process_colorization. py_unfold.
  match goal with |- context [colorization_work env ?i ?o ?id ?w0] =>
    destruct (colorization_work env i o id w0) as [[[]|e] w3] eqn:Hwork end; cbn [fst snd].
  - intros _.
    destruct (finished_work_inv_exists env _ _ _ _ _ Hwork) as (data & Hread & Hex).
    assert (Ha : artifact_test w3 uuid4 = Ok true) by exact Hex.
    rewrite get_progress_spec, download_result_spec, Ha. cbn [fst].
    split; [reflexivity|]. split; [reflexivity|]. exists data. exact Hread.
  - cbn. rewrite last_snoc. intros [= ?].
Qed.

Lemma jpg_job_reaches_completed_witness :
  let w1 := snd (colorize_image Samples.jpg_upload Samples.job_id Samples.started_world) in
  fst (get_progress Samples.job_id (snd (run_background_tasks Samples.plain_env w1))) =
    Ok (mkProgress Samples.job_id "completed" 100
          (Some ("/outputs/" +:+ Py.name (result_path Samples.job_id)))).
Proof.
  intros w1.
  assert (Hsub : colorize_image Samples.jpg_upload Samples.job_id Samples.started_world =
                 (Ok (mkColorizeResponse "Image uploaded successfully" Samples.job_id
                        "processing"
                        "/uploads/3f2b8c1e-0d4a-4b7e-9c55-1a2b3c4d5e6f_input.jpg"
                        "/outputs/3f2b8c1e-0d4a-4b7e-9c55-1a2b3c4d5e6f_output.jpg"
                        "/api/progress/3f2b8c1e-0d4a-4b7e-9c55-1a2b3c4d5e6f"), w1))
    by (vm_compute; reflexivity).
  assert (Hq : background_tasks Samples.started_world = []) by (vm_compute; reflexivity).
  destruct (jpg_job_reaches_completed Samples.plain_env Samples.jpg_upload Samples.job_id
              Samples.started_world w1 _ eq_refl Hq Hsub) as (H & _).
  - vm_compute. reflexivity.
  - exact H.
Defined.
End FilesMore.

(** ** Where the artifacts go *)

Section PathsMore.
Import Runtime Os Main Props PropsMore.

Lemma no_slash_cons (a : ascii) (s : string) :
  no_slash (String a s) <-> a <> "/"%char /\ no_slash s.
Proof.
  unfold no_slash. cbn. split.
  - intros H. split; [intros ->; apply H; left; reflexivity | intros Hin; apply H; right; exact Hin].
  - intros [Ha Hs] [E|Hin]; [apply Ha; exact E | exact (Hs Hin)].
Qed.

Lemma no_slash_empty : no_slash "".
Proof. intros []. Qed.

Lemma no_slash_app (a b : string) : no_slash a -> no_slash b -> no_slash (a +:+ b).
Proof.
  induction a as [|c a IH]; intros Ha Hb; [exact Hb|].
  apply no_slash_cons in Ha. destruct Ha as [Hc Ha].
  cbn. apply no_slash_cons. split; [exact Hc | apply IH; assumption].
Qed.

Lemma eqb_slash_false (a : ascii) : a <> "/"%char -> Ascii.eqb a "/" = false.
Proof. intros H. apply Ascii.eqb_neq. exact H. Qed.

(** A string without separator is its own single component. *)
Lemma split_no_slash (s : string) : no_slash s -> Py.split "/" s = [s].
Proof.
  induction s as [|a s IH]; intros H; [reflexivity|].
  apply no_slash_cons in H. destruct H as [Ha Hs].
  cbn. rewrite (eqb_slash_false a Ha), (IH Hs). reflexivity.
Qed.

(** The components of any string are free of the separator. *)
Lemma split_components_no_slash (s : string) : Forall no_slash (Py.split "/" s).
Proof.
  induction s as [|a s IH]; [repeat constructor; apply no_slash_empty|].
  cbn. destruct (Ascii.eqb_spec a "/") as [->|Ha].
  - constructor; [apply no_slash_empty | exact IH].
  - destruct (Py.split "/" s) as [|h t].
    + repeat constructor. apply no_slash_cons. split; [exact Ha | apply no_slash_empty].
    + inversion IH; subst. constructor; [|assumption].
      apply no_slash_cons. split; assumption.
Qed.

Lemma substring_no_slash (s : string) (n m : nat) :
  no_slash s -> no_slash (String.substring n m s).
Proof.
  revert n m. induction s as [|a s IH]; intros n m H.
  - destruct n, m; exact no_slash_empty.
  - apply no_slash_cons in H. destruct H as [Ha Hs].
    destruct n as [|n]; cbn.
    + destruct m as [|m]; [exact no_slash_empty|].
      apply no_slash_cons. split; [exact Ha | apply IH; exact Hs].
    + apply IH. exact Hs.
Qed.

Lemma name_no_slash (p : string) : no_slash (Py.name p).
Proof.
  unfold Py.name, Py.parts.
  assert (H : Forall no_slash (filter (fun c => Py.is_current c = false) (Py.split "/" p))).
  { apply List.Forall_forall. intros x Hx. apply list_elem_of_In in Hx.
    apply list_elem_of_filter in Hx. destruct Hx as [_ Hx].
    pose proof (split_components_no_slash p) as Hall.
    rewrite List.Forall_forall in Hall. apply Hall. apply list_elem_of_In. exact Hx. }
  induction H as [|x l Hx Hl IH]; [exact no_slash_empty|].
  destruct l; [exact Hx | exact IH].
Qed.

Lemma suffix_no_slash (p : string) : no_slash (Py.suffix p).
Proof.
  unfold Py.suffix. destruct (_ && _); [|exact no_slash_empty].
  unfold Py.slice_from. apply substring_no_slash, name_no_slash.
Qed.

Lemma not_absolute_no_slash (s : string) : no_slash s -> Py.is_absolute s = false.
Proof.
  intros H. unfold Py.is_absolute, Py.startswith. destruct s as [|a s]; [reflexivity|].
  apply no_slash_cons in H. destruct H as [Ha _]. cbn [String.prefix].
  destruct (Ascii.ascii_dec "/" a) as [E|_]; [congruence | reflexivity].
Qed.

Lemma length_app_string (a b : string) :
  String.length (a +:+ b) = (String.length a + String.length b)%nat.
Proof.
  induction a as [|c a IH]; [reflexivity|].
  simpl. f_equal. exact IH.
Qed.

Lemma long_not_special (s : string) :
  (3 <= String.length s)%nat -> Py.is_current s = false /\ String.eqb s ".." = false.
Proof.
  intros H. destruct s as [|a [|b [|c s]]]; cbn in H; try lia.
  unfold Py.is_current. cbn.
  split; [destruct (Ascii.eqb a "."); reflexivity|].
  destruct (Ascii.eqb a "."), (Ascii.eqb b "."); reflexivity.
Qed.

(** A relative path has no root. *)
Lemma root_not_absolute (p : string) : Py.is_absolute p = false -> Py.root p = "".
Proof.
  unfold Py.root, Py.is_absolute, Py.startswith. intros H. rewrite H.
  destruct p as [|a p]; [reflexivity|]. cbn [String.prefix] in *.
  destruct (Ascii.ascii_dec "/" a); [|reflexivity].
  destruct p; discriminate H.
Qed.

Lemma parts_word (s : string) :
  no_slash s -> (3 <= String.length s)%nat -> Py.parts s = [s].
Proof.
  intros Hs Hl. unfold Py.parts. rewrite (split_no_slash s Hs).
  destruct (long_not_special s Hl) as [H1 _].
  rewrite filter_cons_True by exact H1. reflexivity.
Qed.

(** The pathlib view of a child of a one-word directory. *)
Lemma child_path (dir child : string) :
  no_slash dir -> (3 <= String.length dir)%nat ->
  no_slash child -> (3 <= String.length child)%nat ->
  Py.joinpath dir child = dir +:+ "/" +:+ child /\
  Py.split "/" (dir +:+ "/" +:+ child) = [dir; child] /\
  Py.parent (dir +:+ "/" +:+ child) = dir /\
  Py.name (dir +:+ "/" +:+ child) = child.
Proof.
  intros Hd Hdl Hc Hcl.
  assert (Hsplit : Py.split "/" (dir +:+ "/" +:+ child) = [dir; child]).
  { clear Hdl. induction dir as [|a d IH].
    - simpl. change ("" +:+ child) with child.
      rewrite (split_no_slash child Hc). reflexivity.
    - apply no_slash_cons in Hd. destruct Hd as [Ha Hd]. simpl.
      rewrite (eqb_slash_false a Ha), (IH Hd). reflexivity. }
  assert (Hparts : Py.parts (dir +:+ "/" +:+ child) = [dir; child]).
  { unfold Py.parts. rewrite Hsplit.
    destruct (long_not_special dir Hdl) as [Hd1 _].
    destruct (long_not_special child Hcl) as [Hc1 _].
    rewrite filter_cons_True by exact Hd1. rewrite filter_cons_True by exact Hc1.
    reflexivity. }
  assert (Habs : Py.is_absolute (dir +:+ "/" +:+ child) = false).
  { destruct dir as [|a d]; [cbn in Hdl; lia|].
    apply no_slash_cons in Hd. destruct Hd as [Ha _].
    unfold Py.is_absolute, Py.startswith.
    change (String a d +:+ "/" +:+ child) with (String a (d +:+ "/" +:+ child)).
    cbn [String.prefix].
    destruct (Ascii.ascii_dec "/" a) as [E|_]; [congruence | reflexivity]. }
  split.
  { unfold Py.joinpath. rewrite (not_absolute_no_slash child Hc).
    rewrite (root_not_absolute dir (not_absolute_no_slash dir Hd)).
    rewrite (parts_word dir Hd Hdl), (parts_word child Hc Hcl). reflexivity. }
  split; [exact Hsplit|]. split.
  - unfold Py.parent. rewrite Hparts, (root_not_absolute _ Habs). reflexivity.
  - unfold Py.name. rewrite Hparts. reflexivity.
Qed.

(** Resolution of a one-word directory and of a child of it. *)
Lemma child_not_absolute (dir child : string) :
  no_slash dir -> (3 <= String.length dir)%nat ->
  Py.is_absolute (dir +:+ "/" +:+ child) = false.
Proof.
  intros Hd Hdl. destruct dir as [|a d]; [cbn in Hdl; lia|].
  apply no_slash_cons in Hd. destruct Hd as [Ha _].
  unfold Py.is_absolute, Py.startswith.
  change (String a d +:+ "/" +:+ child) with (String a (d +:+ "/" +:+ child)).
  cbn [String.prefix]. destruct (Ascii.ascii_dec "/" a); [congruence | reflexivity].
Qed.

Lemma resolve_word (f : FS) (wd : list string) (dir : string) :
  no_slash dir -> (3 <= String.length dir)%nat ->
  resolve f wd dir = if is_dir f wd then Some (wd ++ [dir]) else None.
Proof.
  intros Hd Hdl. destruct (long_not_special dir Hdl) as [Hd1 Hd2].
  unfold resolve. rewrite (not_absolute_no_slash dir Hd), (split_no_slash dir Hd).
  cbn [walk]. rewrite Hd1, Hd2. destruct (is_dir f wd); reflexivity.
Qed.

Lemma resolve_child_cases (f : FS) (wd : list string) (dir child : string) :
  no_slash dir -> (3 <= String.length dir)%nat ->
  no_slash child -> (3 <= String.length child)%nat ->
  resolve f wd (dir +:+ "/" +:+ child) =
    if is_dir f wd && is_dir f (wd ++ [dir]) then Some (wd ++ [dir] ++ [child]) else None.
Proof.
  intros Hd Hdl Hc Hcl.
  destruct (child_path dir child Hd Hdl Hc Hcl) as (_ & Hsplit & _ & _).
  destruct (long_not_special dir Hdl) as [Hd1 Hd2].
  destruct (long_not_special child Hcl) as [Hc1 Hc2].
  unfold resolve. rewrite Hsplit, (child_not_absolute dir child Hd Hdl).
  cbn [walk]. rewrite Hd1, Hd2, Hc1, Hc2.
  destruct (is_dir f wd); [|reflexivity]. cbn [andb].
  destruct (is_dir f (wd ++ [dir])); [|reflexivity].
  rewrite <- app_assoc. reflexivity.
Qed.

Lemma resolve_child (f : FS) (wd loc : list string) (dir child : string) :
  no_slash dir -> (3 <= String.length dir)%nat ->
  no_slash child -> (3 <= String.length child)%nat ->
  resolve f wd dir = Some loc -> is_dir f loc = true ->
  resolve f wd (dir +:+ "/" +:+ child) = Some (loc ++ [child]).
Proof.
  intros Hd Hdl Hc Hcl Hres Hloc.
  rewrite (resolve_word f wd dir Hd Hdl) in Hres.
  rewrite (resolve_child_cases f wd dir child Hd Hdl Hc Hcl).
  destruct (is_dir f wd); [|discriminate]. injection Hres as <-.
  rewrite Hloc. cbn [andb]. rewrite app_assoc. reflexivity.
Qed.

Lemma artifact_name_long (id tag sfx : string) :
  (3 <= String.length tag)%nat -> (3 <= String.length (id +:+ tag +:+ sfx))%nat.
Proof. intros H. rewrite !length_app_string. lia. Qed.

(** X8. The uploaded file's name cannot steer where the artifacts go: only
    its suffix is used and a suffix holds no separator. With a job id free
    of separators, as a UUID is, both artifacts are direct children of the
    uploads and outputs directories, named by the id, for every file name
    whatsoever. *)
Theorem upload_name_cannot_steer_artifacts (uuid4 fname : string) :
  no_slash uuid4 ->
  let input_name := uuid4 +:+ "_input" +:+ Py.suffix fname in
  let output_name := uuid4 +:+ "_output" +:+ Py.suffix fname in
  no_slash (Py.suffix fname) /\
  input_artifact uuid4 fname = "uploads/" +:+ input_name /\
  output_artifact uuid4 fname = "outputs/" +:+ output_name /\
  Py.parent (input_artifact uuid4 fname) = "uploads" /\
  Py.parent (output_artifact uuid4 fname) = "outputs" /\
  Py.name (input_artifact uuid4 fname) = input_name /\
  Py.name (output_artifact uuid4 fname) = output_name /\
  (forall (f : FS) (wd loc : list string),
      resolve f wd "uploads" = Some loc -> is_dir f loc = true ->
      resolve f wd (input_artifact uuid4 fname) = Some (loc ++ [input_name])) /\
  (forall (f : FS) (wd loc : list string),
      resolve f wd "outputs" = Some loc -> is_dir f loc = true ->
      resolve f wd (output_artifact uuid4 fname) = Some (loc ++ [output_name])).
Proof.
  intros Hid. cbv zeta.
  pose proof (suffix_no_slash fname) as Hsfx.
  assert (Hin : no_slash (uuid4 +:+ "_input" +:+ Py.suffix fname)).
  { apply no_slash_app; [exact Hid|]. apply no_slash_app; [|exact Hsfx].
    intros H. cbn in H. intuition discriminate. }
  assert (Hout : no_slash (uuid4 +:+ "_output" +:+ Py.suffix fname)).
  { apply no_slash_app; [exact Hid|]. apply no_slash_app; [|exact Hsfx].
    intros H. cbn in H. intuition discriminate. }
  assert (Hlin : (3 <= String.length (uuid4 +:+ "_input" +:+ Py.suffix fname))%nat)
    by (apply artifact_name_long; cbn; lia).
  assert (Hlout : (3 <= String.length (uuid4 +:+ "_output" +:+ Py.suffix fname))%nat)
    by (apply artifact_name_long; cbn; lia).
  assert (Hup : no_slash "uploads") by (intros H; cbn in H; intuition discriminate).
  assert (Hop : no_slash "outputs") by (intros H; cbn in H; intuition discriminate).
  assert (Hl7 : (3 <= String.length "uploads")%nat) by (cbn; lia).
  assert (Hl7' : (3 <= String.length "outputs")%nat) by (cbn; lia).
  destruct (child_path "uploads" _ Hup Hl7 Hin Hlin) as (Hj1 & _ & Hp1 & Hn1).
  destruct (child_path "outputs" _ Hop Hl7' Hout Hlout) as (Hj2 & _ & Hp2 & Hn2).
  unfold input_artifact, output_artifact. rewrite Hj1, Hj2.
  split; [exact Hsfx|]. split; [reflexivity|]. split; [reflexivity|].
  split; [exact Hp1|]. split; [exact Hp2|]. split; [exact Hn1|]. split; [exact Hn2|].
  split; intros f wd loc Hres Hloc.
  - apply (resolve_child f wd loc "uploads" _ Hup Hl7 Hin Hlin Hres Hloc).
  - apply (resolve_child f wd loc "outputs" _ Hop Hl7' Hout Hlout Hres Hloc).
Qed.

Lemma upload_name_cannot_steer_artifacts_witness :
  Py.parent (input_artifact Samples.job_id "../../etc/cron.d/evil.sh") = "uploads" /\
  Py.name (output_artifact Samples.job_id "../../etc/cron.d/evil.sh") =
    Samples.job_id +:+ "_output" +:+ Py.suffix "../../etc/cron.d/evil.sh".
Proof.
  assert (Hid : no_slash Samples.job_id).
  { intros H. vm_compute in H. intuition discriminate. }
  pose proof (upload_name_cannot_steer_artifacts Samples.job_id "../../etc/cron.d/evil.sh" Hid)
    as (_ & _ & _ & Hp & _ & _ & Hn & _).
  split; [exact Hp | exact Hn].
Defined.
End PathsMore.

(** ** The Colorizer: construction, post-processing, repeated calls *)

Section ColorizerMore.
Import Torch UNetModel Runtime Os Colorizer Props PropsMore.

(** X9. Construction: when it returns, how it raises, what it returns.
    With [d] the requested device if CUDA is available and "cpu" otherwise,
    it returns exactly when torch.device accepts [d], the weights location
    is empty or torch.load returns an object whose truth test returns, and
    the network can be moved to [d]. A refused device name raises before
    anything else; torch.load, or the truth test of what it returned, raises
    its own exception outside the try; in both cases the state is left as it
    was. The move to the device is the only failure that comes after the
    loading has logged. A returned Colorizer is on [d]; its weights are the
    loaded ones exactly when the location is non-empty and the file holds a
    non-empty state dict that fits the network; an empty location or an
    object that tests false is taken as no weights at all, with no
    warning. *)
Theorem Colorizer_init_outcomes
    (env : Env) (model_path : option string) (dev : string) (w : World) :
  let path := default "" model_path in
  let d := if cuda_is_available env then dev else "cpu" in
  let run := init env model_path dev w in
  (is_ok (fst run) = true <->
     String.eqb d "cpu" || device_parses env d = true /\
     (truthy_path model_path = true ->
        exists obj b, torch_load env path d = Ok obj /\ truth_of obj = Ok b) /\
     String.eqb d "cpu" || device_holds env d = true) /\
  (String.eqb d "cpu" || device_parses env d = false ->
     run = (Raise (TorchRuntimeError (InvalidDevice d)), w)) /\
  (forall e, String.eqb d "cpu" || device_parses env d = true ->
     truthy_path model_path = true ->
     torch_load env path d = Raise e \/
       (exists obj, torch_load env path d = Ok obj /\ truth_of obj = Raise e) ->
     run = (Raise e, w)) /\
  (forall e, fst run = Raise e ->
     snd run = w \/ e = TorchRuntimeError (DeviceUnavailable d)) /\
  (forall c, fst run = Ok c ->
     device c = d /\ model c = UNet_init 1 3 false /\
     (forall ckpt, weights c = LoadedWeights ckpt <->
        truthy_path model_path = true /\ torch_load env path d = Ok (StateDict ckpt) /\
        ckpt <> [] /\ state_dict_fits env ckpt = true) /\
     (truthy_path model_path = false \/
        (exists obj, torch_load env path d = Ok obj /\ truth_of obj = Ok false) ->
        weights c = InitialWeights /\
        snd run = add_log (mkLog INFO ("U-Net model initialized on device: "
                                       +:+ device c)) w)).
Proof.
  intros path d run. subst path run.
  unfold init, torch_device, module_to, lift_result, load_state_dict. py_unfold.
  fold d. clearbody d.
  destruct (String.eqb d "cpu" || device_parses env d) eqn:Hd.
  2:{ cbn. split; [split; [discriminate | intros [? _]; discriminate]|].
      split; [reflexivity|]. split; [discriminate|].
      split; [intros e _; left; reflexivity | discriminate]. }
  cbn beta iota.
  destruct (truthy_path model_path) eqn:Hp.
  2:{ destruct (String.eqb d "cpu" || device_holds env d) eqn:Hh; cbn.
      - split; [split; [intros _; repeat split; discriminate | reflexivity]|].
        split; [discriminate|]. split; [discriminate|]. split; [discriminate|].
        intros c [= <-]. cbn. repeat split; try discriminate.
        intros [? _]; discriminate.
      - split; [split; [discriminate | intros (_ & _ & ?); discriminate]|].
        split; [discriminate|]. split; [discriminate|].
        split; [intros e _; left; reflexivity | discriminate]. }
  destruct (torch_load env (default "" model_path) d) as [obj|e0] eqn:Hload.
  2:{ cbn. split; [split; [discriminate|]|].
      { intros (_ & H & _). destruct (H eq_refl) as (? & ? & ? & _). discriminate. }
      split; [discriminate|].
      split; [intros e _ _ [[= <-]|(? & ? & _)]; [reflexivity | discriminate]|].
      split; [intros e _; left; reflexivity | discriminate]. }
  cbn beta iota.
  destruct (truth_of obj) as [b|e0] eqn:Htr.
  2:{ cbn. split; [split; [discriminate|]|].
      { intros (_ & H & _). destruct (H eq_refl) as (? & ? & [= <-] & Ht).
        rewrite Htr in Ht. discriminate. }
      split; [discriminate|].
      split; [intros e _ _ [?|(? & [= <-] & Ht)]; [discriminate|]|].
      { rewrite Htr in Ht. injection Ht as <-. reflexivity. }
      split; [intros e _; left; reflexivity | discriminate]. }
  cbn beta iota.
  assert (Hno : forall e, ~ ((Ok obj : result Exn Loaded) = Raise e \/
              (exists o : Loaded, (Ok obj : result Exn Loaded) = Ok o /\
                                  truth_of o = Raise e))).
  { intros e [?|(o & [= <-] & Ht)]; [discriminate|]. rewrite Htr in Ht. discriminate. }
  destruct b.
  2:{ destruct (String.eqb d "cpu" || device_holds env d) eqn:Hh; cbn.
      - split; [split; [intros _; repeat split; eauto | reflexivity]|].
        split; [discriminate|].
        split; [intros e _ _ H; destruct (Hno e H)|]. split; [discriminate|].
        intros c [= <-]. cbn. repeat split; try discriminate.
        intros (_ & [= ->] & Hne & _). destruct ckpt; [contradiction | discriminate].
      - split; [split; [discriminate | intros (_ & _ & ?); discriminate]|].
        split; [discriminate|].
        split; [intros e _ _ H; destruct (Hno e H)|].
        split; [intros e _; left; reflexivity | discriminate]. }
  assert (Hnf : ~ (true = false \/
                   (exists o : Loaded, (Ok obj : result Exn Loaded) = Ok o /\
                                       truth_of o = Ok false))).
  { intros [?|(o & [= <-] & Ht)]; [discriminate|]. rewrite Htr in Ht. discriminate. }
  unfold try_except. py_unfold. cbn beta iota.
  destruct obj as [ckpt|t].
  - destruct ckpt as [|entry ckpt]; [discriminate|].
    destruct (state_dict_fits env (entry :: ckpt)) eqn:Hfit;
      destruct (String.eqb d "cpu" || device_holds env d) eqn:Hh; cbn.
    + split; [split; [intros _; repeat split; eauto | reflexivity]|].
      split; [discriminate|].
      split; [intros e _ _ H; destruct (Hno e H)|]. split; [discriminate|].
      intros c [= <-]. cbn. split; [reflexivity|]. split; [reflexivity|].
      split; [|intros H; destruct (Hnf H)].
      intros ck. split.
      * intros [= <-]. repeat split; try assumption. discriminate.
      * intros (_ & [= <-] & _). reflexivity.
    + split; [split; [discriminate | intros (_ & _ & ?); discriminate]|].
      split; [discriminate|].
      split; [intros e _ _ H; destruct (Hno e H)|].
      split; [intros e [= <-]; right; reflexivity | discriminate].
    + split; [split; [intros _; repeat split; eauto | reflexivity]|].
      split; [discriminate|].
      split; [intros e _ _ H; destruct (Hno e H)|]. split; [discriminate|].
      intros c [= <-]. cbn. split; [reflexivity|]. split; [reflexivity|].
      split; [|intros H; destruct (Hnf H)].
      intros ck. split; [discriminate|].
      intros (_ & [= <-] & _ & Hf). rewrite Hfit in Hf. discriminate.
    + split; [split; [discriminate | intros (_ & _ & ?); discriminate]|].
      split; [discriminate|].
      split; [intros e _ _ H; destruct (Hno e H)|].
      split; [intros e [= <-]; right; reflexivity | discriminate].
  - destruct (String.eqb d "cpu" || device_holds env d) eqn:Hh; cbn.
    + split; [split; [intros _; repeat split; eauto | reflexivity]|].
      split; [discriminate|].
      split; [intros e _ _ H; destruct (Hno e H)|]. split; [discriminate|].
      intros c [= <-]. cbn. split; [reflexivity|]. split; [reflexivity|].
      split; [|intros H; destruct (Hnf H)].
      intros ck. split; [discriminate | intros (_ & ? & _); discriminate].
    + split; [split; [discriminate | intros (_ & _ & ?); discriminate]|].
      split; [discriminate|].
      split; [intros e _ _ H; destruct (Hno e H)|].
      split; [intros e [= <-]; right; reflexivity | discriminate].
Qed.

Lemma Colorizer_init_outcomes_witness :
  init Samples.plain_env (Some "weights.pth") "cuda" Samples.fresh_world
    = (Raise (LoadError "No such file or directory"), Samples.fresh_world) /\
  init Samples.cuda_env None "cuda:x" Samples.fresh_world
    = (Raise (TorchRuntimeError (InvalidDevice "cuda:x")), Samples.fresh_world).
Proof.
  split.
  - destruct (Colorizer_init_outcomes Samples.plain_env (Some "weights.pth") "cuda"
                Samples.fresh_world) as (_ & _ & Hraise & _).
    apply Hraise; [reflexivity | reflexivity | left; reflexivity].
  - destruct (Colorizer_init_outcomes Samples.cuda_env None "cuda:x"
                Samples.fresh_world) as (_ & Hdev & _).
    apply Hdev. reflexivity.
Defined.

(** X10. postprocess_output turns a batch of one channel-first image,
    [1, C, H, W], into an H x W x C array of 8-bit values and touches no
    state; a batch of any other size is not squeezed and the transposition
    raises ValueError. *)
Theorem postprocess_output_needs_a_batch_of_one
    (self : UNetColorizer) (out : NdArray) (n c h wd : Z) (w : World) :
  shape out = [n; c; h; wd] ->
  (n = 1 ->
     exists r, postprocess_output self out w = (Ok r, w) /\
               shape r = [h; wd; c] /\ dtype r = uint8) /\
  (n <> 1 ->
     postprocess_output self out w = (Raise (ValueError "axes don't match array"), w)).
Proof.
  intros Hs. unfold postprocess_output, np_transpose, squeeze0. py_unfold. rewrite Hs.
  split.
  - intros ->. cbn. eexists. split; [reflexivity|]. split; reflexivity.
  - intros Hn. destruct n as [|[p|p|]|p]; try contradiction; cbn; rewrite Hs; reflexivity.
Qed.

Lemma postprocess_output_needs_a_batch_of_one_witness :
  postprocess_output Samples.started_colorizer
    (mkArray [2; 3; 256; 256] float32 (Decoded IMREAD_GRAYSCALE [])) Samples.fresh_world
  = (Raise (ValueError "axes don't match array"), Samples.fresh_world).
Proof.
  destruct (postprocess_output_needs_a_batch_of_one Samples.started_colorizer
              (mkArray [2; 3; 256; 256] float32 (Decoded IMREAD_GRAYSCALE []))
              2 3 256 256 Samples.fresh_world eq_refl) as [_ H].
  apply H. discriminate.
Defined.

(** X11. colorize writes nothing. Files, working directory, log, printed
    output, the stored Colorizer and the queue are after the call what they
    were before it, whatever is returned or raised; the only trace is one
    call of the network, on a 1 x 1 x 256 x 256 tensor, recorded exactly
    when the file could be read and decoded. When it could not, ValueError
    is raised and there is no trace at all. *)
Theorem colorize_only_reads
    (env : Env) (self : UNetColorizer) (path : string) (w : World) :
  let run := colorize env self path w in
  let readable :=
    match read_file (fs w) (cwd w) path with
    | Some data => match cv2_decode env data with Some _ => true | None => false end
    | None => false
    end in
  snd run = mkWorld (fs w) (cwd w) (log w) (stdout w)
                    (events w ++ (if readable then [ModelCall [1; 1; 256; 256]] else []))
                    (colorizer w) (background_tasks w) /\
  (readable = false ->
     run = (Raise (ValueError ("Could not load image from " +:+ path)), w)).
Proof.
  intros run readable. subst run readable.
  unfold colorize. py_unfold. rewrite preprocess_image_spec.
  destruct (read_file (fs w) (cwd w) path) as [data|].
  2:{ cbn. rewrite app_nil_r. destruct w; split; reflexivity. }
  destruct (cv2_decode env data) as [[h wd]|].
  2:{ cbn. rewrite app_nil_r. destruct w; split; reflexivity. }
  split; [|discriminate].
  match goal with |- context [call_model self ?t] =>
    destruct (call_model_spec self t) as [r Hr] end.
  rewrite Hr. destruct r as [out|e]; [|reflexivity].
  destruct (postprocess_output_pure self out) as [r' Hr']. rewrite Hr'.
  destruct r'; reflexivity.
Qed.

Lemma colorize_only_reads_witness :
  snd (colorize Samples.plain_env Samples.started_colorizer Samples.submitted_input
         Samples.submitted_world)
    = add_event (ModelCall [1; 1; 256; 256]) Samples.submitted_world /\
  colorize Samples.plain_env Samples.started_colorizer "uploads/missing.png"
    Samples.submitted_world
    = (Raise (ValueError "Could not load image from uploads/missing.png"),
       Samples.submitted_world).
Proof.
  split.
  - exact (proj1 (colorize_only_reads Samples.plain_env Samples.started_colorizer
                    Samples.submitted_input Samples.submitted_world)).
  - apply (proj2 (colorize_only_reads Samples.plain_env Samples.started_colorizer
                    "uploads/missing.png" Samples.submitted_world)).
    vm_compute. reflexivity.
Defined.

End ColorizerMore.

(** ** colorize_pil and its temporary file *)

Section PilMore.
Import Runtime Os ColorizerPil Props PropsMore.

Lemma resolve_temp (f : FS) (wd : list string) :
  resolve f wd temp_path = if is_dir f ["tmp"] then Some temp_loc else None.
Proof. reflexivity. Qed.

Lemma usable_temp (f : FS) (wd : list string) : usable f wd temp_path = true.
Proof.
  unfold usable, name_too_long. cbn.
  destruct (f !! ["tmp"]) as [[|d]|]; reflexivity.
Qed.

Lemma is_dir_delete_file (f : FS) (loc l : list string) (d : Blob) :
  f !! loc = Some (File d) -> is_dir (delete loc f) l = is_dir f l.
Proof.
  intros Hf. unfold is_dir. destruct l as [|x l']; [reflexivity|].
  destruct (decide (loc = x :: l')) as [->|Hne].
  - rewrite lookup_delete_eq, Hf. reflexivity.
  - rewrite lookup_delete_ne by exact Hne. reflexivity.
Qed.

(** The cleanup of the finally block, from any state. *)
Lemma remove_temp_spec (w : World) :
  exists r w',
    remove_temp w = (r, w') /\ cwd w' = cwd w /\ log w' = log w /\
    read_file (fs w') (cwd w') temp_path = None /\
    (forall l, l <> temp_loc -> fs w' !! l = fs w !! l).
Proof.
  unfold remove_temp, exists_, read_file, lookup_path, OsMore.remove. py_unfold.
  rewrite !usable_temp, !resolve_temp.
  destruct (is_dir (fs w) ["tmp"]) eqn:Htmp.
  2:{ eexists _, _. split; [reflexivity|]. rewrite usable_temp, resolve_temp, Htmp.
      repeat split. }
  unfold temp_loc at 1 2 3.
  destruct (fs w !! ["tmp"; "temp_image.jpg"]) as [[|d]|] eqn:Hloc.
  - eexists _, _. split; [reflexivity|]. rewrite usable_temp, resolve_temp, Htmp.
    unfold temp_loc. rewrite Hloc. repeat split.
  - eexists _, _. split; [reflexivity|]. cbn [fs cwd log set_fs].
    rewrite usable_temp, resolve_temp, (is_dir_delete_file _ _ _ d Hloc), Htmp.
    unfold temp_loc. rewrite lookup_delete_eq. repeat split.
    intros l Hl. apply lookup_delete_ne. congruence.
  - eexists _, _. split; [reflexivity|]. rewrite usable_temp, resolve_temp, Htmp.
    unfold temp_loc. rewrite Hloc. repeat split.
Qed.

Lemma silent_lift_result {A} (r : result Exn A) : silent (Colorizer.lift_result r).
Proof. destruct r; [apply silent_ret | apply silent_raise]. Qed.

(** X12. colorize_pil cleans up after itself. When OpenCV has no JPEG
    encoder the call raises at once and nothing has happened. Otherwise,
    whether colorizing and the conversion back returned or raised, no
    regular file is left at /tmp/temp_image.jpg afterwards (one that was
    there before the call is gone too) and every other entry of the file
    system is as it was. *)
Theorem colorize_pil_leaves_no_temp_file
    (env : Env) (fromarray : NdArray -> result Exn PilImage)
    (self : UNetColorizer) (image : PilImage) (w : World) :
  let run := colorize_pil env fromarray self image w in
  (cv2_encode env ".jpg" (pil_array image) = None ->
     run = (Raise (Cv2Error "could not find a writer for the specified extension"), w)) /\
  (cv2_encode env ".jpg" (pil_array image) <> None ->
     read_file (fs (snd run)) (cwd (snd run)) temp_path = None /\
     (forall l, l <> temp_loc -> fs (snd run) !! l = fs w !! l) /\
     cwd (snd run) = cwd w).
Proof.
  intros run. subst run. unfold colorize_pil, Cv2.imwrite.
  change (Cv2.extension temp_path) with ".jpg".
  destruct (cv2_encode env ".jpg" (pil_array image)) as [data|];
    [|split; [reflexivity | intros H; contradiction]].
  split; [discriminate|]. intros _.
  set (body := Colorizer.colorize env self temp_path ≫=
               (fun colorized_array => Colorizer.lift_result (fromarray colorized_array))).
  assert (Hbody : silent body).
  { apply silent_bind; [apply silent_colorize | intros a; apply silent_lift_result]. }
  assert (Hstep : forall w1 : World,
             cwd w1 = cwd w -> (forall l, l <> temp_loc -> fs w1 !! l = fs w !! l) ->
             let run1 := try_finally body remove_temp w1 in
             read_file (fs (snd run1)) (cwd (snd run1)) temp_path = None /\
             (forall l, l <> temp_loc -> fs (snd run1) !! l = fs w !! l) /\
             cwd (snd run1) = cwd w).
  { intros w1 Hc1 Hf1. cbv zeta. unfold try_finally.
    destruct (body w1) as [r1 w2] eqn:Hrun.
    destruct (Hbody w1 r1 w2 Hrun) as (Hf2 & Hc2 & _).
    destruct (remove_temp_spec w2) as (r3 & w3 & Hrm & Hc3 & _ & Hread & Hothers).
    rewrite Hrm. destruct r3 as [[]|e3]; cbn [fst snd];
      (split; [exact Hread|]); (split; [|congruence]);
      intros l Hl; rewrite (Hothers l Hl), Hf2; apply Hf1; exact Hl. }
  clearbody body. py_unfold.
  destruct (write_file (fs w) (cwd w) temp_path data) as [fs1|] eqn:Hwr; cbn.
  - apply (Hstep (set_fs fs1 w)); [reflexivity|].
    intros l Hl. cbn.
    destruct (write_file_inv _ _ _ _ _ Hwr) as (loc & Hres & _ & _ & ->).
    rewrite resolve_temp in Hres. destruct (is_dir (fs w) ["tmp"]); [|discriminate].
    injection Hres as <-. apply lookup_insert_ne. congruence.
  - apply (Hstep w); [reflexivity | reflexivity].
Qed.

Lemma colorize_pil_leaves_no_temp_file_witness :
  let image := mkPil (mkArray [100; 100] uint8 (Decoded IMREAD_GRAYSCALE [])) in
  let run := colorize_pil Samples.plain_env (fun a => Ok (mkPil a))
               Samples.started_colorizer image Samples.world_with_tmp in
  read_file (fs (snd (Cv2.imwrite Samples.plain_env temp_path (pil_array image)
                        Samples.world_with_tmp)))
            (cwd Samples.world_with_tmp) temp_path = Some [x89; x50] /\
  is_ok (fst run) = true /\
  read_file (fs (snd run)) (cwd Samples.world_with_tmp) temp_path = None /\
  fs (snd run) !! ["tmp"] = Some Dir.
Proof.
  intros image run.
  split; [vm_compute; reflexivity|]. split; [vm_compute; reflexivity|].
  destruct (colorize_pil_leaves_no_temp_file Samples.plain_env (fun a => Ok (mkPil a))
              Samples.started_colorizer image Samples.world_with_tmp) as (_ & H).
  destruct H as (Hread & Hrest & Hc); [vm_compute; discriminate|].
  fold run in Hread, Hrest, Hc. rewrite Hc in Hread. split; [exact Hread|].
  rewrite Hrest by discriminate. vm_compute. reflexivity.
Defined.

End PilMore.

(** ** utils/image_processing.py: validate_image, resize_image *)

Section UtilsMore.
Import Runtime Os ImageUtils Props PropsMore.

(** X13. validate_image never raises: whatever goes wrong inside (a
    directory at the path, a file PIL rejects) is logged as one WARNING and
    answered with False. It answers True exactly for a regular file that PIL
    verifies and that is not larger than 10 MiB, and then leaves the state
    as it was; in every case it changes no file. *)
Theorem validate_image_never_raises
    (pil_verify : Blob -> result Exn unit) (image_path : string) (w : World) :
  exists b w',
    validate_image pil_verify image_path w = (Ok b, w') /\
    quiet w w' /\
    (b = true <->
       exists data, read_file (fs w) (cwd w) image_path = Some data /\
                    pil_verify data = Ok tt /\
                    Z.of_nat (length data) <= MAX_UPLOAD) /\
    (b = true -> w' = w) /\
    (w' = w \/ exists line, w' = add_log (mkLog WARNING line) w).
Proof.
  unfold validate_image, Path_exists, path_exists, exists_, read_file, MAX_UPLOAD.
  unfold try_except. py_unfold.
  destruct (has_nul image_path) eqn:Hn.
  { assert (Hl : lookup_path (fs w) (cwd w) image_path = None).
    { unfold lookup_path, usable. rewrite Hn. reflexivity. }
    rewrite Hl. cbn. eexists false, w. split; [reflexivity|]. split; [apply quiet_refl|].
    split; [split; [discriminate | intros (d & [=] & _)]|].
    split; [reflexivity | left; reflexivity]. }
  destruct (name_too_long (fs w) (cwd w) image_path) eqn:Ht.
  { assert (Hl : lookup_path (fs w) (cwd w) image_path = None).
    { unfold lookup_path, usable. rewrite Ht, andb_false_r. reflexivity. }
    rewrite Hl. cbn. eexists false, _. split; [reflexivity|].
    split; [repeat split; eexists; reflexivity|].
    split; [split; [discriminate | intros (d & [=] & _)]|].
    split; [discriminate | right; eexists; reflexivity]. }
  destruct (lookup_path (fs w) (cwd w) image_path) as [[|data]|] eqn:Hl;
    cbn; rewrite ?Hl; cbn.
  - eexists false, _. split; [reflexivity|].
    split; [repeat split; eexists; reflexivity|].
    split; [split; [discriminate | intros (d & [=] & _)]|].
    split; [discriminate | right; eexists; reflexivity].
  - destruct (pil_verify data) as [[]|e] eqn:Hv; cbn.
    + destruct (Z.gtb_spec (Z.of_nat (length data)) (10 * 1024 * 1024)) as [Hbig|Hfit].
      * eexists false, w. split; [reflexivity|]. split; [apply quiet_refl|].
        split; [split; [discriminate | intros (d & [= <-] & _ & Hle); lia]|].
        split; [reflexivity | left; reflexivity].
      * eexists true, w. split; [reflexivity|]. split; [apply quiet_refl|].
        split; [split; [intros _; exists data; repeat split; [exact Hv | lia] | reflexivity]|].
        split; [reflexivity | left; reflexivity].
    + eexists false, _. split; [reflexivity|].
      split; [repeat split; eexists; reflexivity|].
      split; [split; [discriminate | intros (d & [= <-] & Hd & _); congruence]|].
      split; [discriminate | right; eexists; reflexivity].
  - eexists false, w. split; [reflexivity|]. split; [apply quiet_refl|].
    split; [split; [discriminate | intros (d & [=] & _)]|].
    split; [reflexivity | left; reflexivity].
Qed.

Lemma validate_image_never_raises_witness :
  let w := mkWorld {[ ["photo.png"] := File [x89; x50; x4e; x47]; ["album"] := Dir ]}
                   [] [] [] [] None [] in
  let accept : Blob -> result Exn unit := fun _ => Ok tt in
  validate_image accept "photo.png" w = (Ok true, w) /\
  fst (validate_image accept "album" w) = Ok false.
Proof.
  intros w accept.
  destruct (validate_image_never_raises accept "photo.png" w)
    as (b & w' & Hrun & _ & Hb & Hsame & _).
  destruct (validate_image_never_raises accept "album" w)
    as (b2 & w2 & Hrun2 & _ & Hb2 & _).
  assert (Htrue : b = true).
  { apply Hb. exists [x89; x50; x4e; x47].
    split; [vm_compute; reflexivity|]. split; [reflexivity|]. vm_compute. discriminate. }
  assert (Hfalse : b2 = false).
  { destruct b2; [|reflexivity]. destruct Hb2 as [Hd _].
    destruct (Hd eq_refl) as (data & Hread & _). vm_compute in Hread. discriminate. }
  rewrite Hrun, Hrun2, (Hsame Htrue), Htrue, Hfalse. split; reflexivity.
Defined.

(** The size resize_image computes: the longer side becomes [max_size], the
    shorter one the floor of what the aspect ratio gives. *)
Lemma new_size_fits (height width max_size : Z) :
  0 < height -> 0 < width -> 0 < max_size ->
  let '(new_width, new_height) := new_size height width max_size in
  0 <= new_width <= max_size /\ 0 <= new_height <= max_size /\
  Z.max new_width new_height = max_size /\
  ((new_height = max_size /\
    new_width * height <= width * max_size < (new_width + 1) * height) \/
   (new_width = max_size /\
    new_height * width <= height * max_size < (new_height + 1) * width)).
Proof.
  intros Hh Hw Hm. unfold new_size.
  destruct (Z.gtb_spec height width) as [Hgt|Hle].
  - set (q := width * max_size / height).
    assert (Hq : q * height <= width * max_size < (q + 1) * height).
    { subst q. pose proof (Z.mul_div_le (width * max_size) height Hh).
      pose proof (Z.mul_succ_div_gt (width * max_size) height Hh). lia. }
    clearbody q. assert (0 <= q <= max_size) by nia.
    repeat split; lia.
  - set (q := height * max_size / width).
    assert (Hq : q * width <= height * max_size < (q + 1) * width).
    { subst q. pose proof (Z.mul_div_le (height * max_size) width Hw).
      pose proof (Z.mul_succ_div_gt (height * max_size) width Hw). lia. }
    clearbody q. assert (0 <= q <= max_size) by nia.
    repeat split; lia.
Qed.

(** X14. When resize_image returns, the array it handed to the encoder is
    the area-resampled colour image whose longer side is [max_size] and
    whose shorter side is the floor of what the aspect ratio gives, at least
    one pixel. The result of the write is not looked at: the call returns
    and logs its INFO line whether or not the file could be created. *)
Theorem resize_image_fits_the_box
    (env : Env) (image_path output_path : string) (max_size : Z) (w w' : World)
    (data : Blob) (h wd : positive) :
  read_file (fs w) (cwd w) image_path = Some data ->
  cv2_decode env data = Some (h, wd) ->
  0 < max_size -> Z.pos h * max_size < 2 ^ 52 -> Z.pos wd * max_size < 2 ^ 52 ->
  resize_image env image_path output_path max_size w = (Ok tt, w') ->
  exists new_width new_height encoded line,
    Z.max new_width new_height = max_size /\ 0 < Z.min new_width new_height /\
    ((new_height = max_size /\
      new_width * Z.pos h <= Z.pos wd * max_size < (new_width + 1) * Z.pos h) \/
     (new_width = max_size /\
      new_height * Z.pos wd <= Z.pos h * max_size < (new_height + 1) * Z.pos wd)) /\
    cv2_encode env (Cv2.extension output_path)
      (mkArray [new_height; new_width; 3] uint8
         (Resized INTER_AREA (new_width, new_height) (Decoded IMREAD_COLOR data)))
      = Some encoded /\
    w' = add_log (mkLog INFO line)
           (match write_file (fs w) (cwd w) output_path encoded with
            | Some fs' => set_fs fs' w
            | None => w
            end).
Proof.
  intros Hread Hdec Hm _ _.
  pose proof (new_size_fits (Z.pos h) (Z.pos wd) max_size
                ltac:(lia) ltac:(lia) Hm) as Hfit.
  unfold resize_image, Cv2.imread, Cv2.resize, Cv2.imwrite. py_unfold.
  rewrite Hread, Hdec. cbn [nth shape dtype pixels default].
  destruct (new_size (Z.pos h) (Z.pos wd) max_size) as [nw nh].
  destruct Hfit as (Hnw & Hnh & Hmax & Hasp). cbn [fst snd].
  destruct ((Cv2.INT_MAX <? nw) || (Cv2.INT_MAX <? nh) ||
            (nw <? - Cv2.INT_MAX - 1) || (nh <? - Cv2.INT_MAX - 1)); [discriminate|].
  replace (Z.pos h <=? 0) with false by (symmetry; apply Z.leb_gt; lia).
  replace (Z.pos wd <=? 0) with false by (symmetry; apply Z.leb_gt; lia).
  cbn [orb].
  destruct (Z.leb_spec nw 0) as [Hw0|Hw0]; [discriminate|].
  destruct (Z.leb_spec nh 0) as [Hh0|Hh0]; [discriminate|]. cbn [orb].
  destruct (cv2_encode env (Cv2.extension output_path) _) as [encoded|] eqn:Henc;
    [|discriminate].
  intros Hrun. exists nw, nh, encoded.
  destruct (write_file (fs w) (cwd w) output_path encoded) as [fs'|];
    cbn in Hrun; injection Hrun as <-; eexists;
    (split; [exact Hmax|]); (split; [lia|]); (split; [exact Hasp|]);
    (split; [exact Henc | reflexivity]).
Qed.

Lemma resize_image_fits_the_box_witness :
  let blob : Blob := [] in
  let env := mkEnv (fun _ => Some (300, 400)%positive) (fun _ _ => Some [])
                   false 0 (fun _ => false) (fun _ => false)
                   (fun _ _ => Raise (LoadError "none")) (fun _ => true) in
  let w := mkWorld {[ ["in.png"] := File blob ]} [] [] [] [] None [] in
  exists new_width new_height,
    Z.max new_width new_height = 512 /\ 0 < Z.min new_width new_height /\
    fs (snd (resize_image env "in.png" "out.png" 512 w)) !! ["out.png"] = Some (File []).
Proof.
  intros blob env w.
  destruct (resize_image env "in.png" "out.png" 512 w) as [r w'] eqn:Hrun.
  assert (Hr : r = Ok tt) by (vm_compute in Hrun; congruence). subst r.
  destruct (resize_image_fits_the_box env "in.png" "out.png" 512 w w' blob 300 400
              eq_refl eq_refl ltac:(lia) ltac:(lia) ltac:(lia) Hrun)
    as (nw & nh & enc & line & Hmax & Hmin & _ & Henc & ->).
  exists nw, nh. split; [exact Hmax|]. split; [exact Hmin|].
  injection Henc as <-. reflexivity.
Defined.

(** X15. An image so elongated that its shorter side would come out as zero
    pixels cannot be resized: OpenCV refuses the empty target size (or, for
    a [max_size] beyond a C int, the size as such), and resize_image logs
    one ERROR line and re-raises that error, having written nothing. *)
Theorem resize_image_rejects_a_sliver
    (env : Env) (image_path output_path : string) (max_size : Z) (w : World)
    (data : Blob) (h wd : positive) :
  read_file (fs w) (cwd w) image_path = Some data ->
  cv2_decode env data = Some (h, wd) ->
  0 < max_size ->
  Z.pos wd * max_size < Z.pos h \/ Z.pos h * max_size < Z.pos wd ->
  exists msg,
    resize_image env image_path output_path max_size w =
      (Raise (Cv2Error msg), add_log (mkLog ERROR ("Error resizing image: " +:+ msg)) w).
Proof.
  intros Hread Hdec Hm Hsliver.
  unfold resize_image, Cv2.imread, Cv2.resize, new_size. py_unfold.
  rewrite Hread, Hdec. cbn [nth shape dtype pixels default].
  assert (Hzero : (if Z.pos h >? Z.pos wd
                   then (Z.pos wd * max_size / Z.pos h, max_size)
                   else (max_size, Z.pos h * max_size / Z.pos wd)) =
                  (if Z.pos h >? Z.pos wd then (0, max_size) else (max_size, 0))).
  { destruct (Z.gtb_spec (Z.pos h) (Z.pos wd)) as [Hgt|Hle]; f_equal.
    - apply Z.div_small. nia.
    - apply Z.div_small. nia. }
  rewrite Hzero.
  destruct (Z.pos h >? Z.pos wd); cbn [fst snd];
    (destruct ((Cv2.INT_MAX <? _) || (Cv2.INT_MAX <? _) ||
               (_ <? - Cv2.INT_MAX - 1) || (_ <? - Cv2.INT_MAX - 1));
     [eexists; reflexivity|]);
    replace (Z.pos h <=? 0) with false by (symmetry; apply Z.leb_gt; lia);
    replace (Z.pos wd <=? 0) with false by (symmetry; apply Z.leb_gt; lia);
    cbn [orb]; rewrite ?Z.leb_refl, ?orb_true_r; cbn [orb];
    eexists; reflexivity.
Qed.

Lemma resize_image_rejects_a_sliver_witness :
  let blob : Blob := [] in
  let env := mkEnv (fun _ => Some (1000, 1)%positive) (fun _ _ => Some [])
                   false 0 (fun _ => false) (fun _ => false)
                   (fun _ _ => Raise (LoadError "none")) (fun _ => true) in
  let w := mkWorld {[ ["in.png"] := File blob ]} [] [] [] [] None [] in
  is_ok (fst (resize_image env "in.png" "out.png" 512 w)) = false /\
  fs (snd (resize_image env "in.png" "out.png" 512 w)) = fs w.
Proof.
  intros blob env w.
  destruct (resize_image_rejects_a_sliver env "in.png" "out.png" 512 w blob 1000 1
              eq_refl eq_refl ltac:(lia) ltac:(left; lia)) as (msg & ->).
  split; reflexivity.
Defined.
End UtilsMore.

(** ** utils/config.py: get_settings, ensure_directories *)

Section ConfigMore.
Import Runtime Os Config Props PropsMore.

Lemma get_settings_cases (environ : gmap string string) (s : Settings) :
  get_settings environ s = s \/
  get_settings environ s =
    set_RELOAD false (set_LOG_LEVEL "WARNING"
      (set_DEVICE (if String.eqb (lower (getenv environ "CUDA_AVAILABLE" "false")) "true"
                   then "cuda" else "cpu") s)) \/
  get_settings environ s = set_SAVE_INTERMEDIATE true (set_LOG_LEVEL "DEBUG" s).
Proof.
  unfold get_settings.
  destruct (String.eqb (getenv environ "ENVIRONMENT" "development") "production");
    [right; left; reflexivity|].
  destruct (String.eqb (getenv environ "ENVIRONMENT" "development") "testing");
    [right; right; reflexivity | left; reflexivity].
Qed.

(** X16. get_settings only ever assigns DEVICE, LOG_LEVEL, RELOAD and
    SAVE_INTERMEDIATE: the paths, limits, server address and every other
    field of the settings object are as before. With the same environment a
    second call changes nothing more. *)
Theorem get_settings_only_tunes (environ : gmap string string) (s : Settings) :
  let s' := get_settings environ s in
  get_settings environ s' = s' /\
  API_V1_STR s' = API_V1_STR s /\ PROJECT_NAME s' = PROJECT_NAME s /\
  VERSION s' = VERSION s /\ HOST s' = HOST s /\ PORT s' = PORT s /\
  BACKEND_CORS_ORIGINS s' = BACKEND_CORS_ORIGINS s /\
  MAX_FILE_SIZE s' = MAX_FILE_SIZE s /\ ALLOWED_EXTENSIONS s' = ALLOWED_EXTENSIONS s /\
  UPLOAD_DIR s' = UPLOAD_DIR s /\ OUTPUT_DIR s' = OUTPUT_DIR s /\
  MODEL_PATH s' = MODEL_PATH s /\ INPUT_SIZE s' = INPUT_SIZE s /\
  BATCH_SIZE s' = BATCH_SIZE s /\ ENABLE_ENHANCEMENT s' = ENABLE_ENHANCEMENT s /\
  CREATE_COMPARISON s' = CREATE_COMPARISON s /\ LOG_FORMAT s' = LOG_FORMAT s /\
  SECRET_KEY s' = SECRET_KEY s /\
  ACCESS_TOKEN_EXPIRE_MINUTES s' = ACCESS_TOKEN_EXPIRE_MINUTES s.
Proof.
  intros s'. subst s'. split.
  - unfold get_settings.
    destruct (String.eqb (getenv environ "ENVIRONMENT" "development") "production");
      [reflexivity|].
    destruct (String.eqb (getenv environ "ENVIRONMENT" "development") "testing");
      reflexivity.
  - destruct (get_settings_cases environ s) as [-> | [-> | ->]]; repeat split.
Qed.

(** X17. The settings object is shared and get_settings assigns to it in
    place, so what a call in production set stays set: a later call made
    with no ENVIRONMENT (development) still returns RELOAD off, LOG_LEVEL
    WARNING and the device production chose. *)
Theorem production_settings_linger
    (environ1 environ2 : gmap string string) (s : Settings) :
  environ1 !! "ENVIRONMENT" = Some "production" ->
  environ2 !! "ENVIRONMENT" = None ->
  let s2 := get_settings environ2 (get_settings environ1 s) in
  RELOAD s2 = false /\ LOG_LEVEL s2 = "WARNING" /\
  DEVICE s2 = (if String.eqb (lower (getenv environ1 "CUDA_AVAILABLE" "false")) "true"
               then "cuda" else "cpu") /\
  SAVE_INTERMEDIATE s2 = SAVE_INTERMEDIATE s.
Proof.
  intros H1 H2 s2. subst s2.
  assert (E1 : getenv environ1 "ENVIRONMENT" "development" = "production")
    by (unfold getenv; rewrite H1; reflexivity).
  assert (E2 : getenv environ2 "ENVIRONMENT" "development" = "development")
    by (unfold getenv; rewrite H2; reflexivity).
  unfold get_settings. rewrite E1, E2.
  change (String.eqb "production" "production") with true.
  change (String.eqb "development" "production") with false.
  change (String.eqb "development" "testing") with false.
  cbv iota. repeat split.
Qed.

Lemma production_settings_linger_witness :
  let production : gmap string string :=
    {[ "ENVIRONMENT" := "production"; "CUDA_AVAILABLE" := "True" ]} in
  let s2 := get_settings ∅ (get_settings production defaults) in
  RELOAD defaults = true /\ RELOAD s2 = false /\ DEVICE s2 = "cuda".
Proof.
  intros production s2.
  assert (H1 : production !! "ENVIRONMENT" = Some "production")
    by (vm_compute; reflexivity).
  assert (H2 : (∅ : gmap string string) !! "ENVIRONMENT" = None) by reflexivity.
  destruct (production_settings_linger production ∅ defaults H1 H2)
    as (Hr & _ & Hd & _).
  split; [reflexivity|]. split; [exact Hr|].
  etransitivity; [exact Hd | vm_compute; reflexivity].
Defined.

(** Resolution only looks at directories: more entries resolve at least the
    same paths to the same places. *)
Lemma is_dir_mono (f f' : FS) (l : list string) :
  f ⊆ f' -> is_dir f l = true -> is_dir f' l = true.
Proof.
  intros Hsub. unfold is_dir. destruct l as [|x l']; [reflexivity|].
  destruct (f !! (x :: l')) as [[|d]|] eqn:E; try discriminate.
  rewrite (lookup_weaken _ _ _ _ E Hsub). reflexivity.
Qed.

Lemma walk_mono (f f' : FS) (comps cur loc : list string) :
  f ⊆ f' -> walk f cur comps = Some loc -> walk f' cur comps = Some loc.
Proof.
  intros Hsub. revert cur. induction comps as [|c rest IH]; intros cur; cbn [walk];
    [trivial|].
  destruct (is_dir f cur) eqn:E; [|discriminate].
  rewrite (is_dir_mono _ _ _ Hsub E).
  destruct (Py.is_current c); [apply IH|].
  destruct (String.eqb c ".."); apply IH.
Qed.

Lemma walk_too_long_mono (f f' : FS) (comps cur loc : list string) :
  f ⊆ f' -> walk f cur comps = Some loc ->
  walk_too_long f' cur comps = walk_too_long f cur comps.
Proof.
  intros Hsub. revert cur. induction comps as [|c rest IH]; intros cur; cbn [walk walk_too_long];
    [trivial|].
  destruct (is_dir f cur) eqn:E; [|discriminate].
  rewrite (is_dir_mono _ _ _ Hsub E).
  destruct (Py.is_current c); [apply IH|].
  destruct (String.eqb c ".."); [apply IH|].
  destruct (NAME_MAX <? Py.len c); [reflexivity | apply IH].
Qed.

Lemma usable_mono (f f' : FS) (wd : list string) (p : string) (loc : list string) :
  f ⊆ f' -> resolve f wd p = Some loc -> usable f' wd p = usable f wd p.
Proof.
  intros Hsub Hres. unfold usable, name_too_long.
  rewrite (walk_too_long_mono _ _ _ _ _ Hsub Hres). reflexivity.
Qed.

Lemma isdir_mono (f f' : FS) (wd : list string) (p : string) :
  f ⊆ f' -> isdir f wd p = true -> isdir f' wd p = true.
Proof.
  intros Hsub H. destruct (isdir_inv _ _ _ H) as (Hu & loc & Hres & Hloc).
  unfold isdir, lookup_path.
  rewrite (usable_mono _ _ _ _ _ Hsub Hres), Hu.
  unfold resolve in *. rewrite (walk_mono _ _ _ _ _ Hsub Hres).
  destruct loc as [|x l]; [reflexivity|].
  pose proof (is_dir_mono _ _ _ Hsub Hloc) as Hloc'. unfold is_dir in Hloc'.
  destruct (f' !! (x :: l)) as [[|d]|]; [reflexivity | discriminate | discriminate].
Qed.

Lemma mkdir_exist_ok_inv (f f' : FS) (wd : list string) (p : string) :
  OsMore.mkdir_exist_ok f wd p = Some f' ->
  f ⊆ f' /\ isdir f' wd p = true /\ same_files f f'.
Proof.
  unfold OsMore.mkdir_exist_ok, isdir, lookup_path.
  destruct (usable f wd p) eqn:Hu; [|discriminate].
  destruct (resolve f wd p) as [loc|] eqn:Hres; [|discriminate].
  destruct loc as [|x l].
  { intros [= <-]. rewrite Hu, Hres. split; [reflexivity|]. split; [reflexivity|].
    apply same_files_refl. }
  destruct (f !! (x :: l)) as [[|d]|] eqn:El; [| discriminate |].
  - intros [= <-]. rewrite Hu, Hres, El. split; [reflexivity|]. split; [reflexivity|].
    apply same_files_refl.
  - destruct (is_dir f (removelast (x :: l))); [|discriminate]. intros [= <-].
    assert (Hsub : f ⊆ <[x :: l := Dir]> f) by (apply insert_subseteq; exact El).
    split; [exact Hsub|]. split.
    + rewrite (usable_mono _ _ _ _ _ Hsub Hres), Hu.
      unfold resolve in *. rewrite (walk_mono _ _ _ _ _ Hsub Hres), lookup_insert_eq.
      reflexivity.
    + intros loc d. destruct (decide (x :: l = loc)) as [<-|Hne].
      * rewrite lookup_insert_eq, El. split; discriminate.
      * rewrite lookup_insert_ne by exact Hne. reflexivity.
Qed.

Lemma mkdir_exist_ok_existing (f : FS) (wd : list string) (p : string) :
  isdir f wd p = true -> OsMore.mkdir_exist_ok f wd p = Some f.
Proof.
  unfold OsMore.mkdir_exist_ok, isdir, lookup_path.
  destruct (usable f wd p); [|discriminate].
  destruct (resolve f wd p) as [[|x l]|]; [reflexivity | | discriminate].
  destruct (f !! (x :: l)) as [[|d]|]; [reflexivity | discriminate | discriminate].
Qed.

(** X18. When ensure_directories returns, the upload, output and logs
    directories all exist; nothing that was in the file system is gone or
    changed, no regular file was created, and calling it again returns
    without changing anything. *)
Theorem ensure_directories_then_they_exist (settings : Settings) (w w' : World) :
  ensure_directories settings w = (Ok tt, w') ->
  isdir (fs w') (cwd w') (UPLOAD_DIR settings) = true /\
  isdir (fs w') (cwd w') (OUTPUT_DIR settings) = true /\
  isdir (fs w') (cwd w') "logs" = true /\
  fs w ⊆ fs w' /\ hushed w w' /\
  ensure_directories settings w' = (Ok tt, w').
Proof.
  unfold ensure_directories. py_unfold.
  destruct (OsMore.mkdir_exist_ok (fs w) (cwd w) (UPLOAD_DIR settings)) as [fs1|] eqn:H1;
    [|discriminate]. cbn [fs cwd set_fs].
  destruct (OsMore.mkdir_exist_ok fs1 (cwd w) (OUTPUT_DIR settings)) as [fs2|] eqn:H2;
    [|discriminate]. cbn [fs cwd set_fs].
  destruct (OsMore.mkdir_exist_ok fs2 (cwd w) "logs") as [fs3|] eqn:H3; [|discriminate].
  intros [= <-]. cbn [fs cwd set_fs log colorizer background_tasks].
  destruct (mkdir_exist_ok_inv _ _ _ _ H1) as (S1 & D1 & F1).
  destruct (mkdir_exist_ok_inv _ _ _ _ H2) as (S2 & D2 & F2).
  destruct (mkdir_exist_ok_inv _ _ _ _ H3) as (S3 & D3 & F3).
  assert (U3 : isdir fs3 (cwd w) (UPLOAD_DIR settings) = true).
  { apply (isdir_mono fs1); [etrans; eassumption | exact D1]. }
  assert (O3 : isdir fs3 (cwd w) (OUTPUT_DIR settings) = true).
  { apply (isdir_mono fs2); assumption. }
  split; [exact U3|]. split; [exact O3|]. split; [exact D3|].
  split; [etrans; [exact S1 | etrans; eassumption]|].
  split.
  { split; [|repeat split; exists []; cbn; symmetry; apply app_nil_r].
    eapply same_files_trans; [exact F1 | eapply same_files_trans; eassumption]. }
  rewrite (mkdir_exist_ok_existing _ _ _ U3). cbn [fs cwd set_fs].
  rewrite (mkdir_exist_ok_existing _ _ _ O3). cbn [fs cwd set_fs].
  rewrite (mkdir_exist_ok_existing _ _ _ D3). reflexivity.
Qed.

Lemma ensure_directories_then_they_exist_witness :
  let w' := snd (ensure_directories defaults Samples.bare_world) in
  isdir (fs w') (cwd w') "uploads" = true /\ isdir (fs w') (cwd w') "logs" = true.
Proof.
  intros w'.
  destruct (ensure_directories_then_they_exist defaults Samples.bare_world w')
    as (Hu & _ & Hl & _); [vm_compute; reflexivity|].
  split; [exact Hu | exact Hl].
Defined.
End ConfigMore.

(** ** main.py: the directories and the uploads they take *)

Section DirectoriesMore.
Import Runtime Os Main Props PropsMore.

Lemma is_dir_snoc (f : FS) (l : list string) (x : string) :
  is_dir f (l ++ [x]) = match f !! (l ++ [x]) with Some Dir => true | _ => false end.
Proof. unfold is_dir. destruct l; reflexivity. Qed.

Lemma lookup_path_snoc (f : FS) (wd : list string) (p : string) (l : list string)
    (x : string) :
  usable f wd p = true ->
  resolve f wd p = Some (l ++ [x]) -> lookup_path f wd p = f !! (l ++ [x]).
Proof. intros Hu H. unfold lookup_path. rewrite Hu, H. destruct l; reflexivity. Qed.

Lemma has_nul_app (a b : string) : has_nul (a +:+ b) = has_nul a || has_nul b.
Proof.
  induction a as [|c a IH]; [reflexivity|].
  change (String c a +:+ b) with (String c (a +:+ b)).
  cbn [has_nul]. rewrite IH. apply orb_assoc.
Qed.

Lemma len_app (a b : string) : Py.len (a +:+ b) = Py.len a + Py.len b.
Proof. unfold Py.len. rewrite length_app_string. lia. Qed.

Lemma name_fits_inv (n : string) :
  name_fits n = true -> has_nul n = false /\ Py.len n <= NAME_MAX.
Proof.
  unfold name_fits. intros H. apply andb_prop in H. destruct H as [Hn Hl].
  split; [apply negb_true_iff; exact Hn | apply Z.leb_le; exact Hl].
Qed.

(** A one-word path can always be looked up. *)
Lemma usable_word (f : FS) (wd : list string) (dir : string) :
  no_slash dir -> (3 <= String.length dir)%nat -> name_fits dir = true ->
  usable f wd dir = true.
Proof.
  intros Hd Hdl Hfit. destruct (name_fits_inv dir Hfit) as [Hn Hl].
  destruct (long_not_special dir Hdl) as [Hd1 Hd2].
  unfold usable, name_too_long. rewrite Hn.
  rewrite (not_absolute_no_slash dir Hd), (split_no_slash dir Hd).
  cbn [walk_too_long]. rewrite Hd1, Hd2.
  rewrite (proj2 (Z.ltb_ge _ _) Hl).
  replace (PATH_MAX <=? Py.len dir) with false
    by (symmetry; apply Z.leb_gt; unfold PATH_MAX, NAME_MAX in *; lia).
  destruct (is_dir f wd); reflexivity.
Qed.

(** A child of a one-word directory can be looked up unless its name has a
    NUL or, the directory being there, is too long for an entry. *)
Lemma usable_child (f : FS) (wd : list string) (dir child : string) :
  no_slash dir -> (3 <= String.length dir)%nat -> name_fits dir = true ->
  no_slash child -> (3 <= String.length child)%nat ->
  usable f wd (dir +:+ "/" +:+ child) =
    if is_dir f wd && is_dir f (wd ++ [dir]) then name_fits child
    else negb (has_nul child) && (Py.len (dir +:+ "/" +:+ child) <? PATH_MAX).
Proof.
  intros Hd Hdl Hfit Hc Hcl. destruct (name_fits_inv dir Hfit) as [Hn Hl].
  destruct (long_not_special dir Hdl) as [Hd1 Hd2].
  destruct (long_not_special child Hcl) as [Hc1 Hc2].
  destruct (child_path dir child Hd Hdl Hc Hcl) as (_ & Hsplit & _).
  unfold usable, name_too_long, name_fits.
  rewrite !has_nul_app, Hn, (child_not_absolute dir child Hd Hdl), Hsplit.
  change (has_nul "/") with false. cbn [orb walk_too_long]. rewrite Hd1, Hd2, Hc1, Hc2.
  rewrite (proj2 (Z.ltb_ge _ _) Hl).
  pose proof (len_app dir ("/" +:+ child)) as Hlen.
  pose proof (len_app "/" child) as Hlen'. change (Py.len "/") with 1 in Hlen'.
  assert (0 <= Py.len dir) by (unfold Py.len; lia).
  unfold PATH_MAX, NAME_MAX in *.
  destruct (is_dir f wd); cbn [andb].
  - destruct (is_dir f (wd ++ [dir])).
    + destruct (Z.ltb_spec 255 (Py.len child)) as [Hlong|Hshort].
      * rewrite orb_true_r. cbn [negb]. rewrite andb_false_r.
        rewrite (proj2 (Z.leb_gt _ _) Hlong). symmetry. apply andb_false_r.
      * rewrite orb_false_r, (proj2 (Z.leb_le _ _) Hshort), andb_true_r.
        replace (4096 <=? Py.len (dir +:+ "/" +:+ child)) with false
          by (symmetry; apply Z.leb_gt; lia).
        cbn [negb]. apply andb_true_r.
    + rewrite orb_false_r, Z.leb_antisym, negb_involutive. reflexivity.
  - rewrite orb_false_r, Z.leb_antisym, negb_involutive. reflexivity.
Qed.

Lemma isdir_word (f : FS) (wd : list string) (dir : string) :
  no_slash dir -> (3 <= String.length dir)%nat -> name_fits dir = true ->
  isdir f wd dir = is_dir f wd && is_dir f (wd ++ [dir]).
Proof.
  intros Hd Hdl Hfit. unfold isdir.
  pose proof (resolve_word f wd dir Hd Hdl) as Hres.
  pose proof (usable_word f wd dir Hd Hdl Hfit) as Hu.
  destruct (is_dir f wd); cbn [andb].
  - rewrite (lookup_path_snoc _ _ _ _ _ Hu Hres), is_dir_snoc. reflexivity.
  - unfold lookup_path. rewrite Hu, Hres. reflexivity.
Qed.

Lemma input_name_facts (uuid4 fname : string) :
  no_slash uuid4 ->
  no_slash (uuid4 +:+ "_input" +:+ Py.suffix fname) /\
  (3 <= String.length (uuid4 +:+ "_input" +:+ Py.suffix fname))%nat /\
  input_artifact uuid4 fname = "uploads" +:+ "/" +:+ (uuid4 +:+ "_input" +:+ Py.suffix fname).
Proof.
  intros Hid.
  assert (Hin : no_slash (uuid4 +:+ "_input" +:+ Py.suffix fname)).
  { apply no_slash_app; [exact Hid|]. apply no_slash_app; [|apply suffix_no_slash].
    intros H. cbn in H. intuition discriminate. }
  assert (Hlin : (3 <= String.length (uuid4 +:+ "_input" +:+ Py.suffix fname))%nat)
    by (apply artifact_name_long; cbn; lia).
  assert (Hup : no_slash "uploads") by (intros H; cbn in H; intuition discriminate).
  assert (Hl7 : (3 <= String.length "uploads")%nat) by (cbn; lia).
  destruct (child_path "uploads" _ Hup Hl7 Hin Hlin) as (Hj & _).
  split; [exact Hin|]. split; [exact Hlin|]. exact Hj.
Qed.

(** Writing the input artifact: possible exactly when the uploads directory
    is there, the name of the artifact fits a directory entry and no
    directory sits at the artifact's place. *)
Lemma write_input_artifact (f : FS) (wd : list string) (uuid4 fname : string) (d : Blob) :
  no_slash uuid4 ->
  is_ok (match write_file f wd (input_artifact uuid4 fname) d with
         | Some _ => Ok tt | None => Raise (OSError "open") end) =
  isdir f wd "uploads" && name_fits (uuid4 +:+ "_input" +:+ Py.suffix fname) &&
  negb (isdir f wd (input_artifact uuid4 fname)).
Proof.
  intros Hid. destruct (input_name_facts uuid4 fname Hid) as (Hin & Hlin & ->).
  assert (Hup : no_slash "uploads") by (intros H; cbn in H; intuition discriminate).
  assert (Hl7 : (3 <= String.length "uploads")%nat) by (cbn; lia).
  rewrite (isdir_word f wd "uploads" Hup Hl7 eq_refl).
  pose proof (resolve_child_cases f wd "uploads" _ Hup Hl7 Hin Hlin) as Hres.
  pose proof (usable_child f wd "uploads" _ Hup Hl7 eq_refl Hin Hlin) as Hus.
  unfold write_file, isdir at 1.
  destruct (is_dir f wd && is_dir f (wd ++ ["uploads"])) eqn:Hdirs; cbn [andb].
  - destruct (name_fits (uuid4 +:+ "_input" +:+ Py.suffix fname)); rewrite Hus;
      [|reflexivity]. cbn [andb].
    rewrite app_assoc in Hres. rewrite (lookup_path_snoc _ _ _ _ _ Hus Hres), Hres.
    destruct ((wd ++ ["uploads"]) ++ [uuid4 +:+ "_input" +:+ Py.suffix fname])
      as [|x l] eqn:E; [destruct (wd ++ ["uploads"]); discriminate|].
    rewrite <- E. destruct (f !! _) as [[|d0]|]; [reflexivity| |];
      rewrite removelast_last;
      apply andb_prop in Hdirs; destruct Hdirs as [_ ->]; reflexivity.
  - rewrite Hres. destruct (usable _ _ _); reflexivity.
Qed.

(** X19. For a valid upload met by an available engine, with a job id free
    of separators: it is accepted (200) exactly when the uploads directory
    exists, the name of the input artifact (the id, "_input" and the suffix
    of the uploaded file's name) has no NUL and at most 255 bytes, and no
    directory sits at the place of the input artifact; in every other case
    the answer is 500. The name of the uploaded file plays a part through
    its suffix only: a suffix that is too long, or holds a NUL, is answered
    with 500. *)
Theorem upload_needs_its_directory (file : UploadFile) (uuid4 : string) (w : World)
    (ct : string) (c : UNetColorizer) :
  content_type file = Some ct -> Py.startswith ct "image/" = true ->
  size file <= MAX_UPLOAD -> colorizer w = Some c ->
  no_slash uuid4 ->
  status_code_of (fst (colorize_image file uuid4 w)) =
    if isdir (fs w) (cwd w) "uploads" &&
       name_fits (uuid4 +:+ "_input" +:+ Py.suffix (filename file)) &&
       negb (isdir (fs w) (cwd w) (input_artifact uuid4 (filename file)))
    then 200 else 500.
Proof.
  intros Hct Himg Hsize Hc Hid.
  rewrite (colorize_image_past_guards file uuid4 w ct c Hct Himg Hsize Hc).
  rewrite <- (write_input_artifact (fs w) (cwd w) uuid4 (filename file) (content file) Hid).
  destruct (write_file _ _ _ _); reflexivity.
Qed.

Lemma upload_needs_its_directory_witness :
  status_code_of (fst (colorize_image Samples.jpg_upload Samples.job_id
                         (set_colorizer (Some Samples.started_colorizer)
                            Samples.bare_world))) = 500 /\
  status_code_of (fst (colorize_image Samples.jpg_upload Samples.job_id
                         Samples.started_world)) = 200 /\
  status_code_of (fst (colorize_image Samples.long_suffix_upload Samples.job_id
                         Samples.started_world)) = 500.
Proof.
  assert (Hid : no_slash Samples.job_id).
  { intros H. vm_compute in H. intuition discriminate. }
  rewrite (upload_needs_its_directory Samples.jpg_upload Samples.job_id
             (set_colorizer (Some Samples.started_colorizer) Samples.bare_world)
             "image/jpeg" Samples.started_colorizer eq_refl eq_refl
             ltac:(vm_compute; discriminate) eq_refl Hid).
  rewrite (upload_needs_its_directory Samples.jpg_upload Samples.job_id
             Samples.started_world
             "image/jpeg" Samples.started_colorizer eq_refl eq_refl
             ltac:(vm_compute; discriminate) eq_refl Hid).
  rewrite (upload_needs_its_directory Samples.long_suffix_upload Samples.job_id
             Samples.started_world
             "image/jpeg" Samples.started_colorizer eq_refl eq_refl
             ltac:(vm_compute; discriminate) eq_refl Hid).
  repeat split; vm_compute; reflexivity.
Defined.

(** One [mkdir] of a one-word directory, as the module level does it. *)
Lemma mkdir_parents_word (f f' : FS) (wd : list string) (dir : string) :
  no_slash dir -> (3 <= String.length dir)%nat -> name_fits dir = true ->
  mkdir_parents f wd dir = Some f' ->
  f ⊆ f' /\ isdir f' wd dir = true /\ same_files f f' /\
  (forall l, l <> wd ++ [dir] -> f' !! l = f !! l).
Proof.
  intros Hd Hdl Hfit. destruct (long_not_special dir Hdl) as [Hd1 Hd2].
  destruct (name_fits_inv dir Hfit) as [Hn Hlen].
  rewrite (isdir_word f' wd dir Hd Hdl Hfit), is_dir_snoc.
  unfold mkdir_parents. rewrite Hn.
  replace (PATH_MAX <=? Py.len dir) with false
    by (symmetry; apply Z.leb_gt; unfold PATH_MAX, NAME_MAX in *; lia).
  cbn [orb]. rewrite (not_absolute_no_slash dir Hd), (split_no_slash dir Hd).
  cbn [mkdirs]. destruct (is_dir f wd) eqn:Hwd; [|discriminate]. cbn [negb].
  rewrite Hd1, Hd2, (proj2 (Z.ltb_ge _ _) Hlen).
  destruct (f !! (wd ++ [dir])) as [[|d]|] eqn:E; [| discriminate |]; intros [= <-].
  - rewrite Hwd, E. split; [reflexivity|]. split; [reflexivity|].
    split; [apply same_files_refl | reflexivity].
  - assert (Hsub : f ⊆ <[wd ++ [dir] := Dir]> f) by (apply insert_subseteq; exact E).
    rewrite (is_dir_mono _ _ _ Hsub Hwd), lookup_insert_eq.
    split; [exact Hsub|]. split; [reflexivity|]. split.
    + intros loc d. destruct (decide (wd ++ [dir] = loc)) as [<-|Hne].
      * rewrite lookup_insert_eq, E. split; discriminate.
      * rewrite lookup_insert_ne by exact Hne. reflexivity.
    + intros l Hl. apply lookup_insert_ne. congruence.
Qed.

Lemma create_directories_inv (w0 w1 : World) :
  create_directories w0 = (Ok tt, w1) ->
  isdir (fs w1) (cwd w1) "uploads" = true /\
  isdir (fs w1) (cwd w1) "outputs" = true /\
  fs w0 ⊆ fs w1 /\ hushed w0 w1.
Proof.
  unfold create_directories, UPLOAD_DIR, OUTPUT_DIR. py_unfold.
  destruct (mkdir_parents (fs w0) (cwd w0) "uploads") as [fs1|] eqn:H1; [|discriminate].
  destruct (mkdir_parents fs1 (cwd w0) "outputs") as [fs2|] eqn:H2; [|discriminate].
  intros [= <-]. cbn [fs cwd set_fs log colorizer background_tasks].
  assert (Hup : no_slash "uploads") by (intros H; cbn in H; intuition discriminate).
  assert (Hop : no_slash "outputs") by (intros H; cbn in H; intuition discriminate).
  destruct (mkdir_parents_word _ _ _ _ Hup ltac:(cbn; lia) eq_refl H1)
    as (S1 & D1 & F1 & _).
  destruct (mkdir_parents_word _ _ _ _ Hop ltac:(cbn; lia) eq_refl H2)
    as (S2 & D2 & F2 & _).
  split; [apply (isdir_mono fs1); assumption|]. split; [exact D2|].
  split; [etrans; eassumption|].
  split; [eapply same_files_trans; eassumption|].
  repeat split. exists []. cbn. symmetry. apply app_nil_r.
Qed.

Lemma isdir_after_write (f f' : FS) (wd : list string) (p q : string) (d : Blob) :
  write_file f wd p d = Some f' -> isdir f wd q = true -> isdir f' wd q = true.
Proof.
  intros Hw. unfold isdir, lookup_path.
  rewrite (resolve_after_write _ _ _ p q _ Hw), (usable_after_write _ _ _ p q _ Hw).
  destruct (write_file_inv _ _ _ _ _ Hw) as (loc & _ & _ & Hn & ->).
  destruct (usable f wd q); [|trivial].
  destruct (resolve f wd q) as [[|x l]|]; [trivial | | trivial].
  destruct (f !! (x :: l)) as [[|d0]|] eqn:E; try discriminate.
  intros _. rewrite lookup_insert_ne by congruence. rewrite E. reflexivity.
Qed.

Lemma startup_event_keeps_files (env : Env) (w : World) :
  exists c w', startup_event env w = (Ok tt, w') /\ colorizer w' = Some c /\
               fs w' = fs w /\ cwd w' = cwd w.
Proof.
  unfold startup_event. py_unfold. rewrite init_defaults.
  eexists _, _. split; [reflexivity|]. cbn. repeat split.
Qed.

(** X20. From import to the first request: once the module has created its
    directories and startup has run, a valid upload under a separator-free
    id is accepted when the name of its input artifact fits a directory
    entry (no NUL, at most 255 bytes) and no directory sits at the
    artifact's place; the uploaded bytes can then be read back from the
    input artifact. No startup outcome leads to 503 here. *)
Theorem created_directories_take_uploads (env : Env) (file : UploadFile)
    (uuid4 : string) (w0 w1 : World) (ct : string) :
  create_directories w0 = (Ok tt, w1) ->
  content_type file = Some ct -> Py.startswith ct "image/" = true ->
  size file <= MAX_UPLOAD -> no_slash uuid4 ->
  name_fits (uuid4 +:+ "_input" +:+ Py.suffix (filename file)) = true ->
  isdir (fs w1) (cwd w1) (input_artifact uuid4 (filename file)) = false ->
  let w2 := snd (startup_event env w1) in
  let run := colorize_image file uuid4 w2 in
  status_code_of (fst run) = 200 /\
  read_file (fs (snd run)) (cwd (snd run)) (input_artifact uuid4 (filename file)) =
    Some (content file) /\
  isdir (fs (snd run)) (cwd (snd run)) "outputs" = true.
Proof.
  intros Hmk Hct Himg Hsize Hid Hname Hfree w2 run.
  destruct (create_directories_inv w0 w1 Hmk) as (Hup & Hout & _ & _).
  destruct (startup_event_keeps_files env w1) as (c & w' & Hst & Hc & Hfs & Hcwd).
  assert (Hw2 : w2 = w') by (subst w2; rewrite Hst; reflexivity).
  clearbody w2. subst w2.
  pose proof (write_input_artifact (fs w') (cwd w') uuid4 (filename file) (content file) Hid)
    as Hwr.
  rewrite Hfs, Hcwd, Hup, Hname, Hfree in Hwr. cbn in Hwr.
  subst run. rewrite (colorize_image_past_guards file uuid4 w' ct c Hct Himg Hsize Hc).
  rewrite Hfs, Hcwd.
  destruct (write_file (fs w1) (cwd w1) (input_artifact uuid4 (filename file)) (content file))
    as [fs'|] eqn:Hw; [|discriminate].
  cbn [fst snd status_code_of fs cwd set_fs set_tasks].
  split; [reflexivity|].
  destruct (read_after_write _ _ _ _ _ Hw) as [Hread _].
  rewrite Hcwd. split; [exact Hread|].
  apply (isdir_after_write _ _ _ _ _ _ Hw Hout).
Qed.

Lemma created_directories_take_uploads_witness :
  let w2 := snd (startup_event Samples.stale_weights_env Samples.fresh_world) in
  let run := colorize_image Samples.gif_upload Samples.job_id w2 in
  status_code_of (fst run) = 200 /\
  read_file (fs (snd run)) (cwd (snd run))
    "uploads/3f2b8c1e-0d4a-4b7e-9c55-1a2b3c4d5e6f_input.gif" = Some [x47; x49; x46; x38].
Proof.
  assert (Hid : no_slash Samples.job_id).
  { intros H. vm_compute in H. intuition discriminate. }
  destruct (created_directories_take_uploads Samples.stale_weights_env Samples.gif_upload
              Samples.job_id Samples.bare_world Samples.fresh_world "image/gif"
              ltac:(vm_compute; reflexivity) eq_refl eq_refl
              ltac:(vm_compute; discriminate) Hid ltac:(vm_compute; reflexivity)
              ltac:(vm_compute; reflexivity))
    as (H200 & Hread & _).
  split; [exact H200 | exact Hread].
Defined.

End DirectoriesMore.

(** ** main.py: the informational endpoints *)

Section InfoMore.
Import Runtime Main MainInfo.

(** X21. The health and the models endpoints never raise, change nothing,
    and never disagree: the one reports the model as loaded exactly when
    the other lists it with status "loaded", which is exactly when the
    service holds a Colorizer; otherwise the listed status is "not_loaded".
    The list always has the one U-Net entry. *)
Theorem health_and_models_agree (w : World) :
  exists h m,
    health_check w = (Ok h, w) /\ get_models w = (Ok [m], w) /\
    mi_architecture m = "U-Net" /\
    model_loaded h = match colorizer w with Some _ => true | None => false end /\
    mi_status m = (if model_loaded h then "loaded" else "not_loaded").
Proof.
  unfold health_check, get_models. py_unfold.
  eexists _, _. split; [reflexivity|]. split; [reflexivity|]. cbn.
  destruct (colorizer w); repeat split.
Qed.
End InfoMore.
